(** * ProfileSpaces front end: session, validation and settings state

    A shallow embedding of the stateful core of [ui/src/App.jsx]: the form
    validators, the toast hook, the session store's [logout], and the
    settings page (dirty tracking, the discard prompt, the availability
    checker and [handleSave]).

    Conventions of the embedding.
    - A JavaScript string is a [string]: a sequence of code units, here the
      code units 0..255.  [trim], [toLowerCase] and [JSON.stringify] are
      written out for that range.
    - A regular-expression literal is a value of [regex]; [RegExp.test] on
      a pattern anchored at both ends is whole-string matching.
    - An object used as a map (an error map, [localStorage], the section
      field table) is a [gmap] with string keys.
    - An [async] function is cut at its [await]: the part before it returns
      either a final value or the pending request, the part after it takes
      the outcome of the request and the state as it is at that moment.
    - A state update is followed by the effects that depend on it: on the
      settings page [setUser] with a new object changes [buildDefaults],
      and the effect on it sets saved and draft again
      ([resetToDefaults]); the handlers that call [setUser] return the
      page after that effect. *)

From Stdlib Require Import Ascii String List Bool Arith NArith Lia.
From stdpp Require Import gmap strings list fin_maps.

Import ListNotations.
Local Open Scope string_scope.
Local Open Scope list_scope.
Local Open Scope nat_scope.

(* ===================================================================== *)
(** ** JavaScript strings                                                 *)
(* ===================================================================== *)

Module JsString.

Definition code (c : ascii) : nat := nat_of_ascii c.

(** White space as [String.prototype.trim] sees it, for code units below
    256: TAB, LF, VT, FF, CR, SPACE and NBSP. *)
Definition is_white_space (c : ascii) : bool :=
  let n := code c in
  (((9 <=? n) && (n <=? 13)) || (n =? 32) || (n =? 160))%nat.

Fixpoint trimStart_list (l : list ascii) : list ascii :=
  match l with
  | [] => []
  | c :: rest => if is_white_space c then trimStart_list rest else l
  end.

Definition trimEnd_list (l : list ascii) : list ascii :=
  rev (trimStart_list (rev l)).

Definition trim_list (l : list ascii) : list ascii :=
  trimEnd_list (trimStart_list l).

Definition trim (s : string) : string :=
  string_of_list_ascii (trim_list (list_ascii_of_string s)).

(** [String.prototype.toLowerCase] on one code unit below 256. *)
Definition lower_char (c : ascii) : ascii :=
  let n := code c in
  if (((65 <=? n) && (n <=? 90))
      || ((192 <=? n) && (n <=? 222) && negb (n =? 215)))%nat
  then ascii_of_nat (n + 32)
  else c.

Definition toLowerCase (s : string) : string :=
  string_of_list_ascii (map lower_char (list_ascii_of_string s)).

(** [s.includes(c)] for a one-character needle. *)
Definition includes_char (s : string) (c : ascii) : bool :=
  existsb (Ascii.eqb c) (list_ascii_of_string s).

(** Truthiness of a string: only the empty string is falsy. *)
Definition truthy (s : string) : bool :=
  match s with EmptyString => false | String _ _ => true end.

Example trim_both_ends : trim "  mika franco	 " = "mika franco".
Proof. reflexivity. Qed.

Example trim_all_white : trim "   " = "".
Proof. reflexivity. Qed.

Example toLowerCase_mixed : toLowerCase "MiKa_Franco-01" = "mika_franco-01".
Proof. reflexivity. Qed.

Lemma truthy_false_iff s : truthy s = false <-> s = "".
Proof. destruct s; simpl; split; congruence. Qed.

Lemma truthy_true_iff s : truthy s = true <-> s <> "".
Proof. destruct s; simpl; split; congruence. Qed.

Lemma trimStart_no_ws l :
  forallb (fun c => negb (is_white_space c)) l = true ->
  trimStart_list l = l.
Proof.
  destruct l as [|c l]; simpl; [reflexivity|].
  intros H. apply andb_prop in H as [H _].
  apply negb_true_iff in H. now rewrite H.
Qed.

Lemma forallb_rev {A} (p : A -> bool) (l : list A) :
  forallb p (rev l) = forallb p l.
Proof.
  induction l as [|a l IH]; simpl; [reflexivity|].
  rewrite forallb_app, IH. simpl. rewrite andb_true_r. apply andb_comm.
Qed.

Lemma trim_list_no_ws l :
  forallb (fun c => negb (is_white_space c)) l = true ->
  trim_list l = l.
Proof.
  intros H. unfold trim_list, trimEnd_list.
  rewrite (trimStart_no_ws l H).
  rewrite trimStart_no_ws by now rewrite forallb_rev.
  apply rev_involutive.
Qed.

Lemma trim_no_ws s :
  forallb (fun c => negb (is_white_space c)) (list_ascii_of_string s) = true ->
  trim s = s.
Proof.
  intros H. unfold trim. rewrite trim_list_no_ws by exact H.
  apply string_of_list_ascii_of_string.
Qed.

End JsString.

(* ===================================================================== *)
(** ** Regular expressions                                                *)
(* ===================================================================== *)

Module Regex.

(** The fragment the two patterns of the program need: character
    classes, concatenation, alternation and iteration. *)
Inductive regex : Type :=
| Void
| Eps
| Class (p : ascii -> bool)
| Cat (r1 r2 : regex)
| Alt (r1 r2 : regex)
| Star (r : regex).

Definition Plus (r : regex) : regex := Cat r (Star r).

Fixpoint power (r : regex) (n : nat) : regex :=
  match n with
  | O => Eps
  | S n' => Cat r (power r n')
  end.

Fixpoint upto (r : regex) (n : nat) : regex :=
  match n with
  | O => Eps
  | S n' => Alt Eps (Cat r (upto r n'))
  end.

(** [r{lo,hi}] *)
Definition Repeat (r : regex) (lo hi : nat) : regex :=
  Cat (power r lo) (upto r (hi - lo)).

(** The language of a pattern. *)
Inductive lang : regex -> list ascii -> Prop :=
| lang_eps : lang Eps []
| lang_class p c : p c = true -> lang (Class p) [c]
| lang_cat r1 r2 l1 l2 : lang r1 l1 -> lang r2 l2 -> lang (Cat r1 r2) (l1 ++ l2)
| lang_alt_l r1 r2 l : lang r1 l -> lang (Alt r1 r2) l
| lang_alt_r r1 r2 l : lang r2 l -> lang (Alt r1 r2) l
| lang_star_nil r : lang (Star r) []
| lang_star_cons r l1 l2 :
    lang r l1 -> lang (Star r) l2 -> lang (Star r) (l1 ++ l2).

(** The matcher: Brzozowski derivatives. *)
Fixpoint nullable (r : regex) : bool :=
  match r with
  | Void => false
  | Eps => true
  | Class _ => false
  | Cat r1 r2 => nullable r1 && nullable r2
  | Alt r1 r2 => nullable r1 || nullable r2
  | Star _ => true
  end.

Fixpoint deriv (c : ascii) (r : regex) : regex :=
  match r with
  | Void => Void
  | Eps => Void
  | Class p => if p c then Eps else Void
  | Cat r1 r2 =>
      if nullable r1
      then Alt (Cat (deriv c r1) r2) (deriv c r2)
      else Cat (deriv c r1) r2
  | Alt r1 r2 => Alt (deriv c r1) (deriv c r2)
  | Star r1 => Cat (deriv c r1) (Star r1)
  end.

Fixpoint accepts (r : regex) (l : list ascii) : bool :=
  match l with
  | [] => nullable r
  | c :: rest => accepts (deriv c r) rest
  end.

(** [pattern.test(s)] for a pattern of the form [/^...$/]. *)
Definition test (r : regex) (s : string) : bool :=
  accepts r (list_ascii_of_string s).

Lemma lang_cat_inv r1 r2 l :
  lang (Cat r1 r2) l ->
  exists l1 l2, l = l1 ++ l2 /\ lang r1 l1 /\ lang r2 l2.
Proof. inversion 1; subst; eauto. Qed.

Lemma lang_alt_inv r1 r2 l : lang (Alt r1 r2) l -> lang r1 l \/ lang r2 l.
Proof. inversion 1; subst; auto. Qed.

Lemma lang_class_inv p l : lang (Class p) l -> exists c, l = [c] /\ p c = true.
Proof. inversion 1; subst; eauto. Qed.

Lemma lang_eps_inv l : lang Eps l -> l = [].
Proof. now inversion 1. Qed.

Lemma lang_cat_cons r1 r2 c l1 l2 :
  lang r1 (c :: l1) -> lang r2 l2 -> lang (Cat r1 r2) (c :: l1 ++ l2).
Proof. intros H1 H2. apply (lang_cat r1 r2 (c :: l1) l2 H1 H2). Qed.

Lemma lang_cat_nil_l r1 r2 l : lang r1 [] -> lang r2 l -> lang (Cat r1 r2) l.
Proof. intros H1 H2. apply (lang_cat r1 r2 [] l H1 H2). Qed.

Lemma nullable_spec r : nullable r = true <-> lang r [].
Proof.
  induction r; simpl.
  - split; [discriminate | inversion 1].
  - split; [constructor | reflexivity].
  - split; [discriminate | inversion 1].
  - rewrite andb_true_iff, IHr1, IHr2. split.
    + intros [H1 H2]. now apply lang_cat_nil_l.
    + intros H. apply lang_cat_inv in H as (l1 & l2 & Heq & H1 & H2).
      symmetry in Heq. apply app_eq_nil in Heq as [-> ->]. now split.
  - rewrite orb_true_iff, IHr1, IHr2. split.
    + intros [H|H]; [now apply lang_alt_l | now apply lang_alt_r].
    + apply lang_alt_inv.
  - split; [constructor | reflexivity].
Qed.

Lemma star_cons_inv r c l :
  lang (Star r) (c :: l) ->
  exists l1 l2, l = l1 ++ l2 /\ lang r (c :: l1) /\ lang (Star r) l2.
Proof.
  intros H. remember (Star r) as sr eqn:Hsr. remember (c :: l) as cl eqn:Hcl.
  revert l Hcl.
  induction H as [| | | | | |r' l1 l2 H1 _ H2 IH2]; try discriminate.
  injection Hsr as ->. intros l Hcl.
  destruct l1 as [|c1 l1]; simpl in Hcl.
  - now apply IH2.
  - injection Hcl as -> <-. now exists l1, l2.
Qed.

Lemma deriv_cat_spec r1 r2 c l :
  (forall l', lang (deriv c r1) l' <-> lang r1 (c :: l')) ->
  lang (Cat (deriv c r1) r2) l <->
  exists l1 l2, l = l1 ++ l2 /\ lang r1 (c :: l1) /\ lang r2 l2.
Proof.
  intros IH. split.
  - intros H. apply lang_cat_inv in H as (l1 & l2 & -> & H1 & H2).
    exists l1, l2. split; [reflexivity|]. split; [now apply IH | assumption].
  - intros (l1 & l2 & -> & H1 & H2). constructor; [now apply IH | assumption].
Qed.

Lemma deriv_spec r : forall c l, lang (deriv c r) l <-> lang r (c :: l).
Proof.
  induction r; intros c l; simpl.
  - split; inversion 1.
  - split; inversion 1.
  - destruct (p c) eqn:Hp; split; intros H.
    + apply lang_eps_inv in H as ->. now constructor.
    + apply lang_class_inv in H as (c' & [= -> ->] & _). constructor.
    + inversion H.
    + apply lang_class_inv in H as (c' & [= -> ->] & H). congruence.
  - pose proof (deriv_cat_spec r1 r2 c l (IHr1 c)) as Hcat.
    destruct (nullable r1) eqn:Hn; split; intros H.
    + apply lang_alt_inv in H as [H|H].
      * apply Hcat in H as (l1 & l2 & -> & H1 & H2). now apply lang_cat_cons.
      * apply lang_cat_nil_l; [now apply nullable_spec | now apply IHr2].
    + apply lang_cat_inv in H as (l1 & l2 & Heq & H1 & H2).
      destruct l1 as [|c1 l1]; simpl in Heq.
      * subst l2. apply lang_alt_r. now apply IHr2.
      * injection Heq as <- ->. apply lang_alt_l, Hcat. now exists l1, l2.
    + apply Hcat in H as (l1 & l2 & -> & H1 & H2). now apply lang_cat_cons.
    + apply lang_cat_inv in H as (l1 & l2 & Heq & H1 & H2).
      destruct l1 as [|c1 l1]; simpl in Heq.
      * apply nullable_spec in H1. congruence.
      * injection Heq as <- ->. apply Hcat. now exists l1, l2.
  - split; intros H; apply lang_alt_inv in H as [H|H];
      solve [apply lang_alt_l; now apply IHr1 | apply lang_alt_r; now apply IHr2].
  - split; intros H.
    + apply lang_cat_inv in H as (l1 & l2 & -> & H1 & H2).
      apply (lang_star_cons r (c :: l1) l2); [now apply IHr | assumption].
    + apply star_cons_inv in H as (l1 & l2 & -> & H1 & H2).
      constructor; [now apply IHr | assumption].
Qed.

Theorem accepts_spec r l : accepts r l = true <-> lang r l.
Proof.
  revert r. induction l as [|c l IH]; intros r; simpl.
  - apply nullable_spec.
  - rewrite IH. apply deriv_spec.
Qed.

(** *** Languages of the iteration forms over one character class *)

Lemma lang_star_class p l : lang (Star (Class p)) l <-> forallb p l = true.
Proof.
  split.
  - intros H. remember (Star (Class p)) as sr eqn:Hsr.
    induction H as [| | | | | |r l1 l2 H1 _ H2 IH2]; try discriminate;
      [reflexivity|].
    injection Hsr as ->. apply lang_class_inv in H1 as (c & -> & Hc).
    simpl. rewrite Hc. now apply IH2.
  - induction l as [|c l IH]; simpl; intros H; [constructor|].
    apply andb_prop in H as [Hc Hl].
    apply (lang_star_cons (Class p) [c] l); [now constructor | now apply IH].
Qed.

Lemma lang_plus_class p l :
  lang (Plus (Class p)) l <-> l <> [] /\ forallb p l = true.
Proof.
  unfold Plus. split.
  - intros H. apply lang_cat_inv in H as (l1 & l2 & -> & H1 & H2).
    apply lang_class_inv in H1 as (c & -> & Hc).
    apply lang_star_class in H2. simpl. rewrite Hc, H2. now split.
  - intros [Hne H]. destruct l as [|c l]; [congruence|]. simpl in H.
    apply andb_prop in H as [Hc Hl].
    apply (lang_cat (Class p) _ [c] l); [now constructor|].
    now apply lang_star_class.
Qed.

Lemma lang_power_class p n l :
  lang (power (Class p) n) l <-> length l = n /\ forallb p l = true.
Proof.
  revert l. induction n as [|n IH]; intros l; simpl.
  - split.
    + intros H. apply lang_eps_inv in H as ->. now split.
    + intros [Hlen _]. destruct l; [constructor | discriminate].
  - split.
    + intros H. apply lang_cat_inv in H as (l1 & l2 & -> & H1 & H2).
      apply lang_class_inv in H1 as (c & -> & Hc).
      apply IH in H2 as [Hlen Hall]. simpl. rewrite Hc, Hall, Hlen. now split.
    + intros [Hlen Hall]. destruct l as [|c l]; [discriminate|].
      simpl in Hlen, Hall. apply andb_prop in Hall as [Hc Hl].
      apply (lang_cat (Class p) _ [c] l); [now constructor|].
      apply IH. split; [lia | assumption].
Qed.

Lemma lang_upto_class p n l :
  lang (upto (Class p) n) l <-> length l <= n /\ forallb p l = true.
Proof.
  revert l. induction n as [|n IH]; intros l; simpl.
  - split.
    + intros H. apply lang_eps_inv in H as ->. split; [simpl; lia | reflexivity].
    + intros [Hlen _]. destruct l; [constructor | simpl in Hlen; lia].
  - split.
    + intros H. apply lang_alt_inv in H as [H|H].
      * apply lang_eps_inv in H as ->. split; [simpl; lia | reflexivity].
      * apply lang_cat_inv in H as (l1 & l2 & -> & H1 & H2).
        apply lang_class_inv in H1 as (c & -> & Hc).
        apply IH in H2 as [Hlen Hall]. simpl. rewrite Hc, Hall.
        split; [lia | reflexivity].
    + intros [Hlen Hall]. destruct l as [|c l].
      * apply lang_alt_l. constructor.
      * simpl in Hlen, Hall. apply andb_prop in Hall as [Hc Hl].
        apply lang_alt_r. apply (lang_cat (Class p) _ [c] l); [now constructor|].
        apply IH. split; [lia | assumption].
Qed.

Lemma lang_repeat_class p lo hi l :
  lo <= hi ->
  lang (Repeat (Class p) lo hi) l <->
  (lo <= length l <= hi) /\ forallb p l = true.
Proof.
  intros Hle. unfold Repeat. split.
  - intros H. apply lang_cat_inv in H as (l1 & l2 & -> & H1 & H2).
    apply lang_power_class in H1 as [Hlen1 Hall1].
    apply lang_upto_class in H2 as [Hlen2 Hall2].
    rewrite length_app, forallb_app, Hall1, Hall2. split; [lia | reflexivity].
  - intros [[Hlo Hhi] Hall].
    rewrite <- (firstn_skipn lo l). rewrite <- (firstn_skipn lo l) in Hall.
    rewrite forallb_app in Hall. apply andb_prop in Hall as [Ha Hb].
    constructor.
    + apply lang_power_class. split; [|assumption].
      rewrite length_firstn. lia.
    + apply lang_upto_class. split; [|assumption].
      rewrite length_skipn. lia.
Qed.

End Regex.

(* ===================================================================== *)
(** ** Constants of the program                                           *)
(* ===================================================================== *)

Import JsString Regex.

Definition in_range (lo hi : nat) (c : ascii) : bool :=
  (lo <=? code c) && (code c <=? hi).

(** The class [[a-zA-Z0-9._-]]. *)
Definition handle_class (c : ascii) : bool :=
  in_range 97 122 c || in_range 65 90 c || in_range 48 57 c
  || Ascii.eqb c "." || Ascii.eqb c "_" || Ascii.eqb c "-".

(** The class [[^\s@]]. *)
Definition not_space_at (c : ascii) : bool :=
  negb (is_white_space c || Ascii.eqb c "@").

(** [const emailPattern = /^[^\s@]+@[^\s@]+\.[^\s@]+$/] *)
Definition emailPattern : regex :=
  Cat (Plus (Class not_space_at))
    (Cat (Class (Ascii.eqb "@"))
       (Cat (Plus (Class not_space_at))
          (Cat (Class (Ascii.eqb "."))
             (Plus (Class not_space_at))))).

(** [const usernamePattern = /^[a-zA-Z0-9._-]{3,30}$/] *)
Definition usernamePattern : regex := Repeat (Class handle_class) 3 30.

(** [const passwordPattern = /^.{8,}$/]; the dot excludes line
    terminators (LF and CR below 256). *)
Definition not_line_terminator (c : ascii) : bool :=
  negb ((code c =? 10) || (code c =? 13)).

Definition passwordPattern : regex :=
  Cat (power (Class not_line_terminator) 8) (Star (Class not_line_terminator)).

(** [const RESERVED_HANDLES = new Set([...])] *)
Definition RESERVED_HANDLES : gset string :=
  {[ "admin"; "support"; "profilespaces"; "profile"; "settings" ]}.

Definition AUTH_STORAGE_KEY : string := "profilespaces-auth".

Example emailPattern_accepts :
  test emailPattern "mika@example.org" = true
  /\ test emailPattern "m.f@mail.example.org" = true.
Proof. split; reflexivity. Qed.

Example emailPattern_rejects :
  test emailPattern "mika@example" = false
  /\ test emailPattern "mika@@example.org" = false
  /\ test emailPattern "mi ka@example.org" = false
  /\ test emailPattern "@example.org" = false
  /\ test emailPattern "mika@example." = false.
Proof. repeat split; reflexivity. Qed.

Example usernamePattern_bounds :
  test usernamePattern "ab" = false
  /\ test usernamePattern "abc" = true
  /\ test usernamePattern "a.b_c-d.e_f-g.h_i-j.k_l-m.n_o-" = true
  /\ test usernamePattern "a.b_c-d.e_f-g.h_i-j.k_l-m.n_o-p" = false
  /\ test usernamePattern "mika franco" = false.
Proof. repeat split; reflexivity. Qed.

(** What the two patterns accept, in words. *)
Definition is_handle (s : string) : Prop :=
  (3 <= String.length s <= 30) /\
  Forall (fun c => handle_class c = true) (list_ascii_of_string s).

Definition is_email (s : string) : Prop :=
  exists a b c : list ascii,
    list_ascii_of_string s = a ++ "@"%char :: b ++ "."%char :: c /\
    a <> [] /\ b <> [] /\ c <> [] /\
    Forall (fun x => not_space_at x = true) (a ++ b ++ c).

Lemma length_list_ascii_of_string s :
  length (list_ascii_of_string s) = String.length s.
Proof. induction s as [|c s IH]; simpl; congruence. Qed.

Lemma Forall_forallb {A} (p : A -> bool) (l : list A) :
  Forall (fun x => p x = true) l <-> forallb p l = true.
Proof. rewrite forallb_forall, List.Forall_forall. reflexivity. Qed.

Lemma usernamePattern_spec s : test usernamePattern s = true <-> is_handle s.
Proof.
  unfold test, usernamePattern, is_handle.
  rewrite accepts_spec, lang_repeat_class by lia.
  rewrite length_list_ascii_of_string, Forall_forallb.
  reflexivity.
Qed.

Lemma eqb_class_inv (k : ascii) l :
  lang (Class (Ascii.eqb k)) l -> l = [k].
Proof.
  intros H. apply lang_class_inv in H as (c & -> & Hc).
  apply Ascii.eqb_eq in Hc. now subst.
Qed.

Lemma emailPattern_spec s : test emailPattern s = true <-> is_email s.
Proof.
  unfold test, emailPattern, is_email. rewrite accepts_spec. split.
  - intros H.
    apply lang_cat_inv in H as (a & r1 & -> & Ha & H).
    apply lang_cat_inv in H as (at_ & r2 & -> & Hat & H).
    apply lang_cat_inv in H as (b & r3 & -> & Hb & H).
    apply lang_cat_inv in H as (dot & c & -> & Hdot & Hc).
    apply eqb_class_inv in Hat as ->. apply eqb_class_inv in Hdot as ->.
    apply lang_plus_class in Ha as [Hane Ha], Hb as [Hbne Hb], Hc as [Hcne Hc].
    exists a, b, c. repeat split; try assumption.
    apply Forall_forallb.
    now rewrite !forallb_app, Ha, Hb, Hc.
  - intros (a & b & c & -> & Hane & Hbne & Hcne & Hall).
    apply Forall_forallb in Hall.
    rewrite !forallb_app in Hall.
    apply andb_prop in Hall as [Ha Hall]. apply andb_prop in Hall as [Hb Hc].
    apply lang_cat; [now apply lang_plus_class|].
    apply (lang_cat _ _ ["@"%char]); [constructor; apply Ascii.eqb_refl|].
    apply lang_cat; [now apply lang_plus_class|].
    apply (lang_cat _ _ ["."%char]); [constructor; apply Ascii.eqb_refl|].
    now apply lang_plus_class.
Qed.

(* ===================================================================== *)
(** ** Form validation: [validateLogin]                                   *)
(* ===================================================================== *)

Module Validation.

Record LoginValues : Type := { identifier : string; password : string }.

(** An error map: field name to message; no key means the field is
    valid. *)
Definition validateLogin (values : LoginValues) : gmap string string :=
  let nextErrors : gmap string string := ∅ in
  let identifier := trim (identifier values) in
  let nextErrors :=
    if negb (truthy identifier) then
      <["identifier" := "Enter your email or username."]> nextErrors
    else if includes_char identifier "@"
            && negb (test emailPattern identifier) then
      <["identifier" := "Enter a valid email address."]> nextErrors
    else if negb (includes_char identifier "@")
            && negb (test usernamePattern identifier) then
      <["identifier" := "Use 3-30 letters, numbers, or ._- in your username."]>
        nextErrors
    else nextErrors in
  let nextErrors :=
    if negb (truthy (password values)) then
      <["password" := "Password is required."]> nextErrors
    else nextErrors in
  nextErrors.

Example validateLogin_ok :
  validateLogin {| identifier := "  mika.franco "; password := "x" |} = ∅.
Proof. reflexivity. Qed.

Example validateLogin_bad_email :
  validateLogin {| identifier := "mika@host"; password := "" |}
  = <["password" := "Password is required."]>
      (<["identifier" := "Enter a valid email address."]> ∅).
Proof. reflexivity. Qed.

Example validateLogin_short_handle :
  validateLogin {| identifier := "ab"; password := "pw" |} !! "identifier"
  = Some "Use 3-30 letters, numbers, or ._- in your username.".
Proof. reflexivity. Qed.

End Validation.

Definition contains_at (s : string) : Prop :=
  In "@"%char (list_ascii_of_string s).

Lemma includes_char_at s : includes_char s "@" = true <-> contains_at s.
Proof.
  unfold includes_char, contains_at. rewrite existsb_exists. split.
  - intros (c & Hin & Heq). apply Ascii.eqb_eq in Heq. now subst.
  - intros Hin. exists "@"%char. split; [assumption | apply Ascii.eqb_refl].
Qed.

Lemma includes_char_at_false s : includes_char s "@" = false <-> ~ contains_at s.
Proof.
  rewrite <- includes_char_at. destruct (includes_char s "@"); split;
    congruence.
Qed.

Lemma handle_class_plain c :
  handle_class c = true ->
  negb (is_white_space c) = true /\ Ascii.eqb "@" c = false.
Proof.
  destruct c as [[|] [|] [|] [|] [|] [|] [|] [|]]; vm_compute;
    intros H; split; congruence.
Qed.

Lemma is_handle_trim s : is_handle s -> trim s = s.
Proof.
  intros [_ Hall]. apply trim_no_ws. apply forallb_forall.
  rewrite List.Forall_forall in Hall. intros c Hc.
  now apply handle_class_plain, Hall.
Qed.

Lemma is_handle_no_at s : is_handle s -> ~ contains_at s.
Proof.
  intros [_ Hall] Hin. rewrite List.Forall_forall in Hall.
  apply Hall, handle_class_plain in Hin as [_ Hat].
  rewrite Ascii.eqb_refl in Hat. discriminate.
Qed.

Import Validation.

(** C8.  [validateLogin] reports an [identifier] error exactly when the
    trimmed identifier is empty, or contains [@] and has no email shape,
    or has no [@] and is not a handle of 3 to 30 characters among letters,
    digits, [.], [_] and [-].  An identifier that is such a handle gets no
    [identifier] error.  The password gets an error exactly when it is
    empty: nothing else about it is checked. *)
Theorem validateLogin_identifier_error (values : LoginValues) :
  let id := trim (identifier values) in
  (is_Some (validateLogin values !! "identifier") <->
     id = ""
     \/ (contains_at id /\ ~ is_email id)
     \/ (~ contains_at id /\ ~ is_handle id))
  /\ (is_handle (identifier values) ->
      validateLogin values !! "identifier" = None)
  /\ (is_Some (validateLogin values !! "password") <->
      password values = "").
Proof.
  intros id.
  assert (Hid : is_Some (validateLogin values !! "identifier") <->
     id = ""
     \/ (contains_at id /\ ~ is_email id)
     \/ (~ contains_at id /\ ~ is_handle id)).
  { unfold validateLogin. fold id.
    rewrite <- includes_char_at, <- emailPattern_spec, <- usernamePattern_spec.
    destruct (truthy id) eqn:Ht; simpl.
    - apply truthy_true_iff in Ht.
      destruct (includes_char id "@") eqn:Hat,
               (test emailPattern id) eqn:Hem,
               (test usernamePattern id) eqn:Hun;
        destruct (truthy (password values)); simpl;
        rewrite ?lookup_insert_ne, ?lookup_insert_eq, ?lookup_empty by discriminate;
        (split; [intros Hs; try (destruct Hs; discriminate)
                | intros [He | [[H1 H2] | [H1 H2]]]; try congruence;
                  try (exfalso; apply H2; reflexivity);
                  try (exfalso; apply H1; reflexivity)]);
        try (right; left; split; congruence);
        try (right; right; split; congruence);
        eauto.
    - apply truthy_false_iff in Ht.
      destruct (truthy (password values)); simpl;
        rewrite ?lookup_insert_ne, ?lookup_insert_eq by discriminate;
        (split; [intros _; now left | intros _; eauto]). }
  split; [exact Hid|]. split.
  - intros Hh. apply eq_None_not_Some. intros Hs.
    apply Hid in Hs. subst id. rewrite (is_handle_trim _ Hh) in Hs.
    destruct Hs as [He | [[H1 _] | [_ H2]]].
    + destruct Hh as [[Hlen _] _]. rewrite He in Hlen. simpl in Hlen. lia.
    + now apply (is_handle_no_at _ Hh).
    + now apply H2.
  - unfold validateLogin. rewrite <- truthy_false_iff.
    destruct (truthy (password values)); simpl.
    + split; [|discriminate]. intros Hs. exfalso.
      repeat match goal with
             | H : context [if ?b then _ else _] |- _ => destruct b
             end;
        rewrite ?lookup_insert_ne, ?lookup_empty in Hs by discriminate;
        destruct Hs; discriminate.
    + rewrite lookup_insert_eq. split; eauto.
Qed.

Lemma validateLogin_identifier_error_witness :
  validateLogin {| identifier := "mika_franco-01"; password := "pw" |}
    !! "identifier" = None.
Proof.
  apply (proj1 (proj2 (validateLogin_identifier_error
                         {| identifier := "mika_franco-01"; password := "pw" |}))).
  split; [simpl; lia | repeat constructor].
Defined.

(* ===================================================================== *)
(** ** Requests and their outcomes                                        *)
(* ===================================================================== *)

(** What [apiRequest] gives back to its caller: the parsed payload, or a
    thrown error (no response, or a response that is not [ok]). *)
Record ApiError : Type := {
  err_message : string;
  err_status : option nat;
  err_fields : list (string * string);   (* [error.data.errors], in key order *)
  err_detail : option string         (* [error.data.detail] *)
}.

Inductive ApiOutcome (A : Type) : Type :=
| Resolved (data : A)
| Rejected (error : ApiError).
Arguments Resolved {A} data.
Arguments Rejected {A} error.

(* ===================================================================== *)
(** ** The toast hook: [useToast]                                         *)
(* ===================================================================== *)

Module Toast.

Record ToastMessage : Type := { message : string; type : string }.

(** The hook's state together with the part of the host's timer table
    that belongs to it.  A timer handle is a positive number, as
    [setTimeout] returns them, so a stored handle is truthy.  Every timer
    of the hook has the same callback, [() => setToast(null)]; the table
    keeps the instant at which each is due. *)
Record Hook : Type := {
  toast : option ToastMessage;
  timerRef : option positive;
  timers : gmap positive N;
  next_handle : positive;
  now : N
}.

Definition initial : Hook :=
  {| toast := None; timerRef := None; timers := ∅;
     next_handle := 1%positive; now := 0%N |}.

Definition duration : N := 3200.

(** [showToast(message, type = "success")] *)
Definition showToast (message : string) (type : option string) (h : Hook) : Hook :=
  let type := default "success" type in
  let cleared :=
    match timerRef h with
    | Some handle => delete handle (timers h)       (* clearTimeout *)
    | None => timers h
    end in
  let handle := next_handle h in                   (* setTimeout *)
  {| toast := Some {| message := message; type := type |};
     timerRef := Some handle;
     timers := <[handle := (now h + duration)%N]> cleared;
     next_handle := Pos.succ handle;
     now := now h |}.

(** The host runs a timer that is due: the timer leaves the table and its
    callback clears the toast.  A handle that is not pending, or not yet
    due, does nothing. *)
Definition fire (handle : positive) (h : Hook) : Hook :=
  match timers h !! handle with
  | Some due =>
      if (due <=? now h)%N then
        {| toast := None;
           timerRef := timerRef h;
           timers := delete handle (timers h);
           next_handle := next_handle h;
           now := now h |}
      else h
  | None => h
  end.

Definition elapse (dt : N) (h : Hook) : Hook :=
  {| toast := toast h; timerRef := timerRef h; timers := timers h;
     next_handle := next_handle h; now := (now h + dt)%N |}.

Inductive Event : Type :=
| Show (message : string) (type : option string)
| Elapse (dt : N)
| Fire (handle : positive).

Definition step (h : Hook) (e : Event) : Hook :=
  match e with
  | Show m t => showToast m t h
  | Elapse dt => elapse dt h
  | Fire handle => fire handle h
  end.

Definition run (events : list Event) (h : Hook) : Hook :=
  fold_left step events h.

(** Every pending timer of the hook is the one [timerRef] holds, and no
    handle at or above [next_handle] has been handed out. *)
Definition wf (h : Hook) : Prop :=
  (forall handle due, timers h !! handle = Some due ->
     timerRef h = Some handle) /\
  (forall handle, timerRef h = Some handle -> (handle < next_handle h)%positive).

Lemma wf_initial : wf initial.
Proof. split; simpl; intros; [by rewrite lookup_empty in H | discriminate]. Qed.

Lemma wf_step h e : wf h -> wf (step h e).
Proof.
  intros [Hone Hlt]. destruct e as [m t|dt|handle]; simpl.
  - split; simpl.
    + intros handle due Hl.
      destruct (decide (next_handle h = handle)) as [->|Hne]; [reflexivity|].
      rewrite lookup_insert_ne in Hl by assumption. exfalso.
      destruct (timerRef h) as [old|] eqn:Href.
      * destruct (decide (old = handle)) as [->|Hne'].
        -- by rewrite lookup_delete_eq in Hl.
        -- rewrite lookup_delete_ne in Hl by assumption.
           apply Hone in Hl. congruence.
      * apply Hone in Hl. discriminate.
    + intros handle [= <-]. lia.
  - split; simpl; assumption.
  - unfold fire. destruct (timers h !! handle) as [due|] eqn:Hl; [|by split].
    destruct (due <=? now h)%N; [|by split].
    split; simpl; [|assumption].
    intros handle' due' Hl'.
    destruct (decide (handle = handle')) as [->|Hne].
    + by rewrite lookup_delete_eq in Hl'.
    + rewrite lookup_delete_ne in Hl' by assumption. by apply Hone in Hl'.
Qed.

Lemma wf_run events : forall h, wf h -> wf (run events h).
Proof.
  induction events as [|e events IH]; intros h Hwf; simpl; [assumption|].
  apply IH. by apply wf_step.
Qed.

Lemma wf_size h : wf h -> size (timers h) <= 1.
Proof.
  intros [Hone _]. destruct (timerRef h) as [handle|] eqn:Href.
  - assert (Hsub : timers h ⊆ {[handle := default 0%N (timers h !! handle)]}).
    { apply map_subseteq_spec. intros k due Hl.
      pose proof (Hone k due Hl) as Hk.
      injection Hk as <-. rewrite Hl. simpl. by rewrite lookup_singleton_eq. }
    apply map_subseteq_size in Hsub. by rewrite map_size_singleton in Hsub.
  - assert (Hempty : timers h = ∅).
    { apply map_empty. intros k. destruct (timers h !! k) as [due|] eqn:Hl;
        [|reflexivity]. apply Hone in Hl. discriminate. }
    rewrite Hempty, map_size_empty. lia.
Qed.

Lemma showToast_timers m t h :
  wf h ->
  timers (showToast m t h) = {[ next_handle h := (now h + duration)%N ]}.
Proof.
  intros [Hone Hlt]. unfold showToast; simpl.
  assert (Hcleared : match timerRef h with
                     | Some handle => delete handle (timers h)
                     | None => timers h
                     end = ∅).
  { apply map_empty. intros k. destruct (timerRef h) as [old|] eqn:Href.
    - destruct (decide (old = k)) as [->|Hne]; [by rewrite lookup_delete_eq|].
      rewrite lookup_delete_ne by assumption.
      destruct (timers h !! k) as [due|] eqn:Hl; [|reflexivity].
      apply Hone in Hl. congruence.
    - destruct (timers h !! k) as [due|] eqn:Hl; [|reflexivity].
      apply Hone in Hl. discriminate. }
  rewrite Hcleared. reflexivity.
Qed.

Lemma fire_absent handle h : timers h !! handle = None -> fire handle h = h.
Proof. intros Hl. unfold fire. by rewrite Hl. Qed.

End Toast.

(** C9.  Whatever was shown, elapsed or fired before, the hook has at most
    one pending dismissal timer (and, a toast being one optional value, at
    most one toast).  A call of [showToast] leaves exactly its own message
    and exactly one timer, due 3200 ms later.  Showing a second message
    before the timer of the first has fired leaves the second message
    displayed with one timer, the second's; the first's timer is cancelled,
    so it cannot clear the second message later. *)
Theorem showToast_single_timer (events : list Toast.Event) :
  let h := Toast.run events Toast.initial in
  size (Toast.timers h) <= 1
  /\ (forall m t,
        let h1 := Toast.showToast m t h in
        Toast.toast h1
          = Some {| Toast.message := m; Toast.type := default "success" t |}
        /\ Toast.timers h1 = {[ Toast.next_handle h := (Toast.now h + 3200)%N ]}
        /\ Toast.timerRef h1 = Some (Toast.next_handle h))
  /\ (forall m1 t1 dt m2 t2,
        let h1 := Toast.showToast m1 t1 h in
        let first := Toast.next_handle h in
        let h2 := Toast.showToast m2 t2 (Toast.elapse dt h1) in
        Toast.toast h2
          = Some {| Toast.message := m2; Toast.type := default "success" t2 |}
        /\ size (Toast.timers h2) = 1
        /\ Toast.timers h2 !! first = None
        /\ Toast.timers h2 !! Toast.next_handle h1
           = Some (Toast.now h + dt + 3200)%N
        /\ (forall later,
              Toast.fire first (Toast.elapse later h2) = Toast.elapse later h2)).
Proof.
  intros h.
  assert (Hwf : Toast.wf h) by (apply Toast.wf_run, Toast.wf_initial).
  split; [by apply Toast.wf_size|]. split.
  - intros m t h1. subst h1. split; [reflexivity|]. split; [|reflexivity].
    by apply Toast.showToast_timers.
  - intros m1 t1 dt m2 t2 h1 first h2.
    assert (Hwf1 : Toast.wf (Toast.elapse dt h1)).
    { apply (Toast.wf_step _ (Toast.Elapse dt)).
      apply (Toast.wf_step _ (Toast.Show m1 t1)). exact Hwf. }
    assert (Ht2 : Toast.timers h2
                  = {[ Toast.next_handle h1 := (Toast.now h + dt + 3200)%N ]}).
    { subst h2. rewrite Toast.showToast_timers by exact Hwf1. reflexivity. }
    assert (Hne : Toast.next_handle h1 <> first).
    { subst h1 first. simpl. lia. }
    split; [reflexivity|]. split; [by rewrite Ht2, map_size_singleton|].
    split; [by rewrite Ht2, lookup_singleton_ne|].
    split; [by rewrite Ht2, lookup_singleton_eq|].
    intros later. apply Toast.fire_absent.
    change (Toast.timers (Toast.elapse later h2)) with (Toast.timers h2).
    by rewrite Ht2, lookup_singleton_ne.
Qed.

(* ===================================================================== *)
(** ** The session store: [AuthProvider]                                  *)
(* ===================================================================== *)

Module Auth.
Section Session.

(** The user object is whatever the server sent; the store keeps it and
    writes it to storage, and never looks inside it here. *)
Context {User : Type}.
Variable stringify : string -> User -> string.

Record Store : Type := {
  token : string;
  user : option User;
  localStorage : gmap string string;
  console : list string
}.

Definition persistAuth (nextToken : string) (nextUser : User) (s : Store) : Store :=
  {| token := nextToken;
     user := Some nextUser;
     localStorage :=
       <[AUTH_STORAGE_KEY := stringify nextToken nextUser]> (localStorage s);
     console := console s |}.

Definition clearAuth (s : Store) : Store :=
  {| token := "";
     user := None;
     localStorage := delete AUTH_STORAGE_KEY (localStorage s);
     console := console s |}.

Inductive Request : Type :=
| POST_logout (token : string).

Inductive Suspended : Type :=
| Done (s : Store)
| Await (s : Store) (request : Request).

(** [logout], up to its [await]: with no token the [try] block is empty
    and [finally] runs at once. *)
Definition logout_start (s : Store) : Suspended :=
  if truthy (token s)
  then Await s (POST_logout (token s))
  else Done (clearAuth s).

(** [logout], from the settling of the request: [catch] logs a
    failure, [finally] clears. *)
Definition logout_resume (outcome : ApiOutcome unit) (s : Store) : Store :=
  let s :=
    match outcome with
    | Resolved _ => s
    | Rejected error =>
        {| token := token s; user := user s;
           localStorage := localStorage s;
           console := console s ++ ["Logout failed " +:+ err_message error] |}
    end in
  clearAuth s.

(** One whole call: [server] is what the request settles to, [meanwhile]
    what the rest of the page does to the store while it is pending. *)
Definition logout (server : ApiOutcome unit) (meanwhile : Store -> Store)
    (s : Store) : Store :=
  match logout_start s with
  | Done s' => s'
  | Await s' _ => logout_resume server (meanwhile s')
  end.

Definition requests_of (s : Store) : list Request :=
  match logout_start s with
  | Done _ => []
  | Await _ request => [request]
  end.

Definition cleared (s : Store) : Prop :=
  token s = "" /\ user s = None /\ localStorage s !! AUTH_STORAGE_KEY = None.

Lemma clearAuth_cleared s : cleared (clearAuth s).
Proof. repeat split. simpl. apply lookup_delete_eq. Qed.

End Session.
End Auth.

(** A signed-in store whose server is out of reach: the record leaves
    storage all the same, and the failure is on the console. *)
Example logout_with_server_down :
  let s := {| Auth.token := "t0k3n"; Auth.user := Some "mikefranco";
              Auth.localStorage := {[ AUTH_STORAGE_KEY := "{...}" ]};
              Auth.console := [] |} in
  let failure := {| err_message := "Unable to reach the server. Please try again.";
                    err_status := None; err_fields := []; err_detail := None |} in
  Auth.requests_of s = [Auth.POST_logout "t0k3n"]
  /\ Auth.logout (Rejected failure) (fun s => s) s
     = {| Auth.token := ""; Auth.user := None; Auth.localStorage := ∅;
          Auth.console :=
            ["Logout failed Unable to reach the server. Please try again."] |}.
Proof. split; reflexivity. Qed.

(** C7.  After [logout] the token is empty, the user is null and the
    storage record is gone, whatever the server answered and whatever
    happened to the store while the request was pending.  A failed
    notification only adds a line to the console: the store ends as it
    does after a successful one, but for that line. *)
Theorem logout_always_clears {User : Type}
    (server : ApiOutcome unit) (meanwhile : Auth.Store -> Auth.Store)
    (s : @Auth.Store User) :
  Auth.cleared (Auth.logout server meanwhile s)
  /\ (forall error payload,
        let failed := Auth.logout (Rejected error) meanwhile s in
        let passed := Auth.logout (Resolved payload) meanwhile s in
        Auth.token failed = Auth.token passed
        /\ Auth.user failed = Auth.user passed
        /\ Auth.localStorage failed = Auth.localStorage passed
        /\ (Auth.console failed = Auth.console passed
            \/ Auth.console failed
               = Auth.console passed ++ ["Logout failed " +:+ err_message error])).
Proof.
  split.
  - unfold Auth.logout, Auth.logout_start.
    destruct (truthy (Auth.token s)); [|apply Auth.clearAuth_cleared].
    unfold Auth.logout_resume. apply Auth.clearAuth_cleared.
  - intros error payload. unfold Auth.logout, Auth.logout_start.
    destruct (truthy (Auth.token s)); simpl; auto.
Qed.

(* ===================================================================== *)
(** ** [JSON.stringify] on the values a settings field holds               *)
(* ===================================================================== *)

Module Json.

(** A settings field holds a string, a boolean or an array of strings
    (the interests). *)
Inductive Value : Type :=
| VString (s : string)
| VBool (b : bool)
| VArray (items : list string).

#[global] Instance Value_eq_dec : EqDecision Value.
Proof. solve_decision. Defined.

(** The quotation mark, code unit 34. *)
Definition quotation_mark : ascii := ascii_of_nat 34.

Definition hex_digit (n : nat) : ascii :=
  ascii_of_nat (if n <? 10 then 48 + n else 87 + n).

(** QuoteJSONString, one code unit: the two-character escapes, [\u00xx]
    for the other control characters, the character itself otherwise. *)
Definition quote_char (c : ascii) : list ascii :=
  let n := code c in
  if n =? 8 then ["\"; "b"]%char
  else if n =? 9 then ["\"; "t"]%char
  else if n =? 10 then ["\"; "n"]%char
  else if n =? 12 then ["\"; "f"]%char
  else if n =? 13 then ["\"; "r"]%char
  else if n =? 34 then ["\"%char; quotation_mark]
  else if n =? 92 then ["\"; "\"]%char
  else if n <? 32 then
    ["\"; "u"; "0"; "0"]%char ++ [hex_digit (n / 16); hex_digit (n mod 16)]
  else [c].

Definition quote_body (l : list ascii) : list ascii := flat_map quote_char l.

Definition quote (s : string) : list ascii :=
  quotation_mark :: quote_body (list_ascii_of_string s) ++ [quotation_mark].

Fixpoint join_quoted (items : list string) : list ascii :=
  match items with
  | [] => []
  | x :: rest =>
      match rest with
      | [] => quote x
      | _ :: _ => quote x ++ ","%char :: join_quoted rest
      end
  end.

Definition stringify_chars (v : Value) : list ascii :=
  match v with
  | VString s => quote s
  | VBool true => list_ascii_of_string "true"
  | VBool false => list_ascii_of_string "false"
  | VArray items => "["%char :: join_quoted items ++ ["]"%char]
  end.

(** [JSON.stringify(v)] *)
Definition stringify (v : Value) : string :=
  string_of_list_ascii (stringify_chars v).

(** [JSON.stringify(o[key])]: a property that is not there reads as
    [undefined], and [JSON.stringify(undefined)] is [undefined]. *)
Definition stringify_property (v : option Value) : option string :=
  stringify <$> v.

(** Strict inequality of two such results. *)
Definition strict_neq (a b : option string) : bool :=
  match a, b with
  | Some x, Some y => negb (String.eqb x y)
  | None, None => false
  | _, _ => true
  end.

Example stringify_array :
  stringify (VArray ["a"; "b c"])
  = string_of_list_ascii
      (["["%char; quotation_mark; "a"%char; quotation_mark; ","%char;
        quotation_mark; "b"%char; " "%char; "c"%char; quotation_mark;
        "]"%char]).
Proof. reflexivity. Qed.

Example stringify_escapes :
  stringify (VString (string_of_list_ascii
                        [quotation_mark; "\"%char; ascii_of_nat 10; ascii_of_nat 31]))
  = string_of_list_ascii
      ([quotation_mark; "\"%char; quotation_mark; "\"%char; "\"%char;
        "\"%char; "n"%char; "\"%char; "u"%char; "0"%char; "0"%char;
        "1"%char; "f"%char; quotation_mark]).
Proof. reflexivity. Qed.

Example stringify_booleans :
  stringify (VBool true) = "true" /\ stringify (VBool false) = "false"
  /\ stringify (VArray []) = "[]".
Proof. repeat split; reflexivity. Qed.

(** *** Reading a quoted string back *)

Definition unhex (c : ascii) : option nat :=
  let n := code c in
  if (48 <=? n) && (n <=? 57) then Some (n - 48)
  else if (97 <=? n) && (n <=? 102) then Some (n - 87)
  else None.

Definition unescape (c : ascii) : option ascii :=
  let n := code c in
  if n =? 98 then Some (ascii_of_nat 8)
  else if n =? 116 then Some (ascii_of_nat 9)
  else if n =? 110 then Some (ascii_of_nat 10)
  else if n =? 102 then Some (ascii_of_nat 12)
  else if n =? 114 then Some (ascii_of_nat 13)
  else if n =? 34 then Some c
  else if n =? 92 then Some c
  else None.

Definition push (c : ascii) (r : option (list ascii * list ascii)) :
    option (list ascii * list ascii) :=
  match r with
  | Some (body, rest) => Some (c :: body, rest)
  | None => None
  end.

(** Reads up to the closing quotation mark; gives the characters read
    and what follows the mark. *)
Fixpoint unquote_body (l : list ascii) : option (list ascii * list ascii) :=
  match l with
  | [] => None
  | c :: rest =>
      if Ascii.eqb c quotation_mark then Some ([], rest)
      else if Ascii.eqb c "\" then
        match rest with
        | [] => None
        | e :: rest1 =>
            if Ascii.eqb e "u" then
              match rest1 with
              | _ :: _ :: x :: y :: rest2 =>
                  match unhex x, unhex y with
                  | Some hi, Some lo =>
                      push (ascii_of_nat (16 * hi + lo)) (unquote_body rest2)
                  | _, _ => None
                  end
              | _ => None
              end
            else
              match unescape e with
              | Some ch => push ch (unquote_body rest1)
              | None => None
              end
        end
      else push c (unquote_body rest)
  end.

Lemma unquote_quote_char c tl :
  unquote_body (quote_char c ++ tl) = push c (unquote_body tl).
Proof.
  destruct c as [[|] [|] [|] [|] [|] [|] [|] [|]]; reflexivity.
Qed.

Lemma unquote_quote_body l rest :
  unquote_body (quote_body l ++ quotation_mark :: rest) = Some (l, rest).
Proof.
  induction l as [|c l IH]; [reflexivity|].
  unfold quote_body in *. simpl flat_map. rewrite <- app_assoc.
  rewrite unquote_quote_char, IH. reflexivity.
Qed.

Lemma quote_app_inj s1 s2 t1 t2 :
  quote s1 ++ t1 = quote s2 ++ t2 -> s1 = s2 /\ t1 = t2.
Proof.
  unfold quote. simpl. rewrite <- !app_assoc. simpl. intros [= H].
  apply (f_equal unquote_body) in H. rewrite !unquote_quote_body in H.
  injection H as Hs Ht. split; [|assumption].
  apply (f_equal string_of_list_ascii) in Hs.
  now rewrite !string_of_list_ascii_of_string in Hs.
Qed.

Lemma join_quoted_inj items1 : forall items2 t1 t2,
  join_quoted items1 ++ "]"%char :: t1 = join_quoted items2 ++ "]"%char :: t2 ->
  items1 = items2.
Proof.
  induction items1 as [|x xs IH]; intros [|y ys] t1 t2 H.
  - reflexivity.
  - exfalso. destruct ys; simpl in H; discriminate.
  - exfalso. destruct xs; simpl in H; discriminate.
  - assert (Hx : join_quoted (x :: xs) ++ "]"%char :: t1
                 = quote x ++ match xs with
                              | [] => "]"%char :: t1
                              | _ :: _ => ","%char :: join_quoted xs ++ "]"%char :: t1
                              end).
    { destruct xs; simpl; [reflexivity|]. now rewrite <- app_assoc. }
    assert (Hy : join_quoted (y :: ys) ++ "]"%char :: t2
                 = quote y ++ match ys with
                              | [] => "]"%char :: t2
                              | _ :: _ => ","%char :: join_quoted ys ++ "]"%char :: t2
                              end).
    { destruct ys; simpl; [reflexivity|]. now rewrite <- app_assoc. }
    rewrite Hx, Hy in H. apply quote_app_inj in H as [-> Htl].
    f_equal. destruct xs as [|x' xs], ys as [|y' ys]; try discriminate.
    + reflexivity.
    + injection Htl as Htl. exact (IH (y' :: ys) t1 t2 Htl).
Qed.

Lemma stringify_chars_inj v1 v2 :
  stringify_chars v1 = stringify_chars v2 -> v1 = v2.
Proof.
  destruct v1 as [s1|[|]|l1], v2 as [s2|[|]|l2]; simpl;
    try discriminate; try reflexivity; intros H.
  - rewrite <- (app_nil_r (quote s1)), <- (app_nil_r (quote s2)) in H.
    apply quote_app_inj in H as [-> _]. reflexivity.
  - injection H as H. apply join_quoted_inj in H. now subst.
Qed.

Theorem stringify_inj v1 v2 : stringify v1 = stringify v2 -> v1 = v2.
Proof.
  unfold stringify. intros H.
  apply (f_equal list_ascii_of_string) in H.
  rewrite !list_ascii_of_string_of_list_ascii in H.
  now apply stringify_chars_inj.
Qed.

Lemma strict_neq_spec (a b : option Value) :
  strict_neq (stringify_property a) (stringify_property b) = true <-> a <> b.
Proof.
  destruct a as [a|], b as [b|]; simpl; split; try congruence.
  - intros H Heq. injection Heq as ->. rewrite String.eqb_refl in H. discriminate.
  - intros Hne. apply negb_true_iff, String.eqb_neq. intros Heq.
    apply stringify_inj in Heq. congruence.
Qed.

End Json.


(* ===================================================================== *)
(** ** The settings page: saved and draft values                          *)
(* ===================================================================== *)

Module Settings.

(** The object [buildDefaults] returns; [saved] and [draft] are two of
    them. *)
Record Values : Type := {
displayName : string;
username : string;
profileUrl : string;
bio : string;
location : string;
interests : list string;
status : string;
photoUrl : string;
visibility : string;
showLocation : bool;
allowSearch : bool;
emailNotifications : bool;
productUpdates : bool;
newFollowerAlerts : bool;
weeklyDigest : bool;
pauseNotifications : string;
theme : string
}.

(** The properties of such an object, by name. *)
Definition properties (v : Values) : list (string * Json.Value) :=
[ ("displayName", Json.VString (displayName v));
  ("username", Json.VString (username v));
  ("profileUrl", Json.VString (profileUrl v));
  ("bio", Json.VString (bio v));
  ("location", Json.VString (location v));
  ("interests", Json.VArray (interests v));
  ("status", Json.VString (status v));
  ("photoUrl", Json.VString (photoUrl v));
  ("visibility", Json.VString (visibility v));
  ("showLocation", Json.VBool (showLocation v));
  ("allowSearch", Json.VBool (allowSearch v));
  ("emailNotifications", Json.VBool (emailNotifications v));
  ("productUpdates", Json.VBool (productUpdates v));
  ("newFollowerAlerts", Json.VBool (newFollowerAlerts v));
  ("weeklyDigest", Json.VBool (weeklyDigest v));
  ("pauseNotifications", Json.VString (pauseNotifications v));
  ("theme", Json.VString (theme v)) ].

Fixpoint assoc {A} (key : string) (l : list (string * A)) : option A :=
match l with
| [] => None
| (k, a) :: rest => if String.eqb key k then Some a else assoc key rest
end.

(** [v[field]]: [None] is [undefined]. *)
Definition get (v : Values) (field : string) : option Json.Value :=
assoc field (properties v).

Definition settingsSections : list (string * string) :=
[ ("account", "Account"); ("profile", "Profile"); ("privacy", "Privacy");
  ("notifications", "Notifications"); ("appearance", "Appearance");
  ("help", "Help") ].

Definition settingsSectionIds : gset string :=
list_to_set (map fst settingsSections).

Definition sectionFieldMap : gmap string (list string) :=
list_to_map
  [ ("profile",
     [ "displayName"; "username"; "profileUrl"; "bio"; "location";
       "interests"; "status"; "photoUrl" ]);
    ("privacy", [ "visibility"; "showLocation"; "allowSearch" ]);
    ("notifications",
     [ "emailNotifications"; "productUpdates"; "newFollowerAlerts";
       "weeklyDigest"; "pauseNotifications" ]);
    ("appearance", [ "theme" ]) ].

(** [sectionFieldMap[sectionId] || []] *)
Definition sectionFields (sectionId : string) : list string :=
default [] (sectionFieldMap !! sectionId).

Definition hasSectionChanges (saved draft : Values) (sectionId : string) : bool :=
let fields := sectionFields sectionId in
existsb
  (fun field =>
     Json.strict_neq (Json.stringify_property (get saved field))
                     (Json.stringify_property (get draft field)))
  fields.

(** [onChange] of the bio field, [value] being [event.target.value]:
    [setDraft((prev) => ({ ...prev, bio: event.target.value.slice(0, 160) }))]. *)
Definition edit_bio (value : string) (prev : Values) : Values :=
{| displayName := displayName prev; username := username prev;
   profileUrl := profileUrl prev; bio := String.substring 0 160 value;
   location := location prev;
   interests := interests prev; status := status prev;
   photoUrl := photoUrl prev; visibility := visibility prev;
   showLocation := showLocation prev; allowSearch := allowSearch prev;
   emailNotifications := emailNotifications prev;
   productUpdates := productUpdates prev;
   newFollowerAlerts := newFollowerAlerts prev;
   weeklyDigest := weeklyDigest prev;
   pauseNotifications := pauseNotifications prev; theme := theme prev |}.

(** [sampleProfile] through [buildDefaults]. *)
Definition sampleDefaults : Values :=
{| displayName := "Mika Franco"; username := "mikefranco";
   profileUrl := "mikefranco";
   bio := "Builder. Minimalist. Learning in public. Sharing what matters and staying calm through the noise.";
   location := "Lapu-Lapu City, Cebu";
   interests := [ "Quiet systems"; "Product design"; "Minimal living";
                  "City walks"; "Collaboration" ];
   status := "Building quietly this week.";
   photoUrl := ""; visibility := "public";
   showLocation := true; allowSearch := true;
   emailNotifications := true; productUpdates := true;
   newFollowerAlerts := false; weeklyDigest := false;
   pauseNotifications := "off"; theme := "system" |}.

Lemma sectionFields_profile :
  sectionFields "profile"
  = [ "displayName"; "username"; "profileUrl"; "bio"; "location";
      "interests"; "status"; "photoUrl" ].
Proof. reflexivity. Qed.

Lemma sectionFields_privacy :
  sectionFields "privacy" = [ "visibility"; "showLocation"; "allowSearch" ].
Proof. reflexivity. Qed.

Lemma sectionFields_notifications :
  sectionFields "notifications"
  = [ "emailNotifications"; "productUpdates"; "newFollowerAlerts";
      "weeklyDigest"; "pauseNotifications" ].
Proof. reflexivity. Qed.

Lemma sectionFields_appearance : sectionFields "appearance" = [ "theme" ].
Proof. reflexivity. Qed.

Lemma sectionFields_account : sectionFields "account" = [].
Proof. reflexivity. Qed.

Lemma sectionFields_help : sectionFields "help" = [].
Proof. reflexivity. Qed.

Lemma hasSectionChanges_spec saved draft sectionId :
  hasSectionChanges saved draft sectionId = true <->
  exists field, In field (sectionFields sectionId)
                /\ get saved field <> get draft field.
Proof.
  unfold hasSectionChanges. rewrite existsb_exists.
  split; intros (field & Hin & H); exists field; (split; [assumption|]);
    now apply Json.strict_neq_spec.
Qed.

Lemma hasSectionChanges_false saved draft sectionId :
  hasSectionChanges saved draft sectionId = false <->
  forall field, In field (sectionFields sectionId) ->
                get saved field = get draft field.
Proof.
  rewrite <- not_true_iff_false, hasSectionChanges_spec. split.
  - intros Hno field Hin.
    destruct (decide (get saved field = get draft field)) as [|Hne];
      [assumption|].
    exfalso. apply Hno. now exists field.
  - intros Hall (field & Hin & Hne). now apply Hne, Hall.
Qed.

End Settings.

Import Settings.

Lemma property_neq_string (a b : string) :
  Some (Json.VString a) <> Some (Json.VString b) <-> a <> b.
Proof. split; intros H Heq; apply H; congruence. Qed.

Lemma property_neq_bool (a b : bool) :
  Some (Json.VBool a) <> Some (Json.VBool b) <-> a <> b.
Proof. split; intros H Heq; apply H; congruence. Qed.

Lemma property_neq_array (a b : list string) :
  Some (Json.VArray a) <> Some (Json.VArray b) <-> a <> b.
Proof. split; intros H Heq; apply H; congruence. Qed.

Ltac expand_section lemma :=
  unfold hasSectionChanges; rewrite lemma; cbn [existsb];
  rewrite ?orb_false_r, ?orb_true_iff, ?Json.strict_neq_spec; cbn;
  rewrite ?property_neq_string, ?property_neq_bool, ?property_neq_array;
  tauto.

Lemma hasSectionChanges_profile saved draft :
  hasSectionChanges saved draft "profile" = true <->
  displayName saved <> displayName draft \/ username saved <> username draft
  \/ profileUrl saved <> profileUrl draft \/ bio saved <> bio draft
  \/ location saved <> location draft \/ interests saved <> interests draft
  \/ status saved <> status draft \/ photoUrl saved <> photoUrl draft.
Proof. expand_section sectionFields_profile. Qed.

Lemma hasSectionChanges_privacy saved draft :
  hasSectionChanges saved draft "privacy" = true <->
  visibility saved <> visibility draft
  \/ showLocation saved <> showLocation draft
  \/ allowSearch saved <> allowSearch draft.
Proof. expand_section sectionFields_privacy. Qed.

Lemma hasSectionChanges_notifications saved draft :
  hasSectionChanges saved draft "notifications" = true <->
  emailNotifications saved <> emailNotifications draft
  \/ productUpdates saved <> productUpdates draft
  \/ newFollowerAlerts saved <> newFollowerAlerts draft
  \/ weeklyDigest saved <> weeklyDigest draft
  \/ pauseNotifications saved <> pauseNotifications draft.
Proof. expand_section sectionFields_notifications. Qed.

Lemma hasSectionChanges_appearance saved draft :
  hasSectionChanges saved draft "appearance" = true <->
  theme saved <> theme draft.
Proof. expand_section sectionFields_appearance. Qed.

Lemma substring_0_all (n : nat) (s : string) :
  String.length s <= n -> String.substring 0 n s = s.
Proof.
  revert s. induction n as [|n IH]; intros [|c s] Hlen; simpl in *;
    try reflexivity; [lia|].
  f_equal. apply IH. lia.
Qed.

(** C4.  For every saved and draft object and every section,
    [hasSectionChanges] is true exactly when some field of the section's
    list holds different values in the two; for the four sections with a
    declared list that means: one of the listed fields differs.  So in a
    section that is otherwise unchanged, a listed field that holds the
    saved value again leaves the section clean, and one that holds any
    other value makes it dirty.  Through the bio field, whose handler
    keeps the first 160 characters of what is typed: the profile section
    is dirty exactly when those differ from the saved bio; typing a saved
    bio of at most 160 characters back leaves it clean, and any other
    text of at most 160 characters makes it dirty. *)
Theorem hasSectionChanges_iff_field_differs (saved draft : Values) (sectionId : string) :
  (hasSectionChanges saved draft sectionId = true <->
   exists field, In field (sectionFields sectionId)
                 /\ get saved field <> get draft field)
  /\ (hasSectionChanges saved draft "profile" = true <->
      displayName saved <> displayName draft \/ username saved <> username draft
      \/ profileUrl saved <> profileUrl draft \/ bio saved <> bio draft
      \/ location saved <> location draft \/ interests saved <> interests draft
      \/ status saved <> status draft \/ photoUrl saved <> photoUrl draft)
  /\ (hasSectionChanges saved draft "privacy" = true <->
      visibility saved <> visibility draft
      \/ showLocation saved <> showLocation draft
      \/ allowSearch saved <> allowSearch draft)
  /\ (hasSectionChanges saved draft "notifications" = true <->
      emailNotifications saved <> emailNotifications draft
      \/ productUpdates saved <> productUpdates draft
      \/ newFollowerAlerts saved <> newFollowerAlerts draft
      \/ weeklyDigest saved <> weeklyDigest draft
      \/ pauseNotifications saved <> pauseNotifications draft)
  /\ (hasSectionChanges saved draft "appearance" = true <->
      theme saved <> theme draft)
  /\ (forall field, In field (sectionFields sectionId) ->
      (forall other, In other (sectionFields sectionId) -> other <> field ->
         get saved other = get draft other) ->
      (hasSectionChanges saved draft sectionId = true
       <-> get saved field <> get draft field))
  /\ ((forall field, In field (sectionFields "profile") -> field <> "bio" ->
         get saved field = get draft field) ->
      (forall value,
         hasSectionChanges saved (edit_bio value draft) "profile" = true
         <-> String.substring 0 160 value <> bio saved)
      /\ (String.length (bio saved) <= 160 ->
          hasSectionChanges saved (edit_bio (bio saved) draft) "profile" = false)
      /\ (forall value, String.length value <= 160 -> value <> bio saved ->
            hasSectionChanges saved (edit_bio value draft) "profile" = true)).
Proof.
  split; [apply hasSectionChanges_spec|].
  split; [apply hasSectionChanges_profile|].
  split; [apply hasSectionChanges_privacy|].
  split; [apply hasSectionChanges_notifications|].
  split; [apply hasSectionChanges_appearance|].
  split.
  - intros field Hin Hrest. rewrite hasSectionChanges_spec. split.
    + intros (other & Hother & Hne).
      destruct (decide (other = field)) as [->|Hdiff]; [exact Hne|].
      exfalso. apply Hne. by apply Hrest.
    + intros Hne. by exists field.
  - intros Hrest.
    assert (Hiff : forall value,
              hasSectionChanges saved (edit_bio value draft) "profile" = true
              <-> String.substring 0 160 value <> bio saved).
    { intros value. rewrite hasSectionChanges_profile.
      cbn [edit_bio displayName username profileUrl bio location interests
           status photoUrl].
      pose proof (Hrest "displayName") as H1. pose proof (Hrest "username") as H2.
      pose proof (Hrest "profileUrl") as H3. pose proof (Hrest "location") as H4.
      pose proof (Hrest "interests") as H5. pose proof (Hrest "status") as H6.
      pose proof (Hrest "photoUrl") as H7.
      rewrite sectionFields_profile in *.
      assert (E1 : displayName saved = displayName draft)
        by (specialize (H1 ltac:(simpl; tauto) ltac:(discriminate));
            cbn in H1; congruence).
      assert (E2 : username saved = username draft)
        by (specialize (H2 ltac:(simpl; tauto) ltac:(discriminate));
            cbn in H2; congruence).
      assert (E3 : profileUrl saved = profileUrl draft)
        by (specialize (H3 ltac:(simpl; tauto) ltac:(discriminate));
            cbn in H3; congruence).
      assert (E4 : location saved = location draft)
        by (specialize (H4 ltac:(simpl; tauto) ltac:(discriminate));
            cbn in H4; congruence).
      assert (E5 : interests saved = interests draft)
        by (specialize (H5 ltac:(simpl; tauto) ltac:(discriminate));
            cbn in H5; congruence).
      assert (E6 : status saved = status draft)
        by (specialize (H6 ltac:(simpl; tauto) ltac:(discriminate));
            cbn in H6; congruence).
      assert (E7 : photoUrl saved = photoUrl draft)
        by (specialize (H7 ltac:(simpl; tauto) ltac:(discriminate));
            cbn in H7; congruence).
      split.
      - intros [H|[H|[H|[H|[H|[H|[H|H]]]]]]]; try contradiction.
        intros Heq. apply H. by rewrite Heq.
      - intros Hne. right. right. right. left. intros Heq. apply Hne.
        by rewrite Heq. }
    split; [exact Hiff|]. split.
    + intros Hlen. apply not_true_iff_false. rewrite Hiff.
      intros Hne. apply Hne. by apply substring_0_all.
    + intros value Hlen Hne. apply Hiff. by rewrite substring_0_all.
Qed.

Lemma hasSectionChanges_iff_field_differs_witness :
  hasSectionChanges sampleDefaults (edit_bio (bio sampleDefaults) sampleDefaults)
    "profile" = false
  /\ hasSectionChanges sampleDefaults
       (edit_bio (bio sampleDefaults +:+ "!") sampleDefaults) "profile" = true.
Proof.
  destruct (proj2 (proj2 (proj2 (proj2 (proj2 (proj2
              (hasSectionChanges_iff_field_differs
                 sampleDefaults sampleDefaults "profile"))))))
              (fun field _ _ => eq_refl)) as (_ & Hclean & Hdirty).
  split; [apply Hclean; vm_compute; lia|].
  apply Hdirty; [vm_compute; lia | vm_compute; discriminate].
Defined.

(** The bio field keeps 160 characters: one more typed after a saved bio
    of that length changes nothing, and the section stays clean. *)
Example bio_is_cut_at_160 :
  let full := string_of_list_ascii (List.repeat "a"%char 160) in
  let saved := edit_bio full sampleDefaults in
  String.length (bio saved) = 160
  /\ edit_bio (full +:+ "b") saved = saved
  /\ hasSectionChanges saved (edit_bio (full +:+ "b") saved) "profile" = false.
Proof. repeat split; vm_compute; reflexivity. Qed.


(* ===================================================================== *)
(** ** The settings page: component state                                 *)
(* ===================================================================== *)

Module SettingsPage.

(** A DOM element, by identity. *)
Definition Element : Type := nat.

Inductive Status : Type := neutral | success | error.

#[global] Instance Status_eq_dec : EqDecision Status.
Proof. solve_decision. Defined.

(** The two fields that have an availability check; in the source they
    are the strings ["username"] and ["profileUrl"]. *)
Inductive AvailabilityField : Type := f_username | f_profileUrl.

#[global] Instance AvailabilityField_eq_dec : EqDecision AvailabilityField.
Proof. solve_decision. Defined.

(** [availability] and [availabilityRequestRef.current]: one entry per
    field. *)
Record Availability : Type := { av_username : Status; av_profileUrl : Status }.
Record RequestRef : Type := { ref_username : N; ref_profileUrl : N }.

Record PasswordDraft : Type := { current : string; next : string; confirm : string }.
Record EmailDraft : Type := { email : string; email_password : string }.

(** The state of [SettingsPage] that the handlers below read or write.
    [searchTab] is the [tab] search parameter of the address;
    [lastActiveElement] is the ref of that name. *)
Record Page : Type := {
activeSection : string;
showMobileList : bool;
pendingSection : option string;
discardOpen : bool;
isSaving : bool;
profileErrors : gmap string string;
interestInput : string;
availability : Availability;
availabilityRequestRef : RequestRef;
lastActiveElement : option Element;
passwordDraft : PasswordDraft;
emailDraft : EmailDraft;
saved : Values;
draft : Values;
searchTab : option string
}.

Definition set_activeSection (x : string) (p : Page) : Page :=
{| activeSection := x; showMobileList := showMobileList p;
   pendingSection := pendingSection p; discardOpen := discardOpen p;
   isSaving := isSaving p; profileErrors := profileErrors p;
   interestInput := interestInput p; availability := availability p;
   availabilityRequestRef := availabilityRequestRef p;
   lastActiveElement := lastActiveElement p;
   passwordDraft := passwordDraft p; emailDraft := emailDraft p;
   saved := saved p; draft := draft p; searchTab := searchTab p |}.

Definition set_showMobileList (x : bool) (p : Page) : Page :=
{| activeSection := activeSection p; showMobileList := x;
   pendingSection := pendingSection p; discardOpen := discardOpen p;
   isSaving := isSaving p; profileErrors := profileErrors p;
   interestInput := interestInput p; availability := availability p;
   availabilityRequestRef := availabilityRequestRef p;
   lastActiveElement := lastActiveElement p;
   passwordDraft := passwordDraft p; emailDraft := emailDraft p;
   saved := saved p; draft := draft p; searchTab := searchTab p |}.

Definition set_pendingSection (x : option string) (p : Page) : Page :=
{| activeSection := activeSection p; showMobileList := showMobileList p;
   pendingSection := x; discardOpen := discardOpen p;
   isSaving := isSaving p; profileErrors := profileErrors p;
   interestInput := interestInput p; availability := availability p;
   availabilityRequestRef := availabilityRequestRef p;
   lastActiveElement := lastActiveElement p;
   passwordDraft := passwordDraft p; emailDraft := emailDraft p;
   saved := saved p; draft := draft p; searchTab := searchTab p |}.

Definition set_discardOpen (x : bool) (p : Page) : Page :=
{| activeSection := activeSection p; showMobileList := showMobileList p;
   pendingSection := pendingSection p; discardOpen := x;
   isSaving := isSaving p; profileErrors := profileErrors p;
   interestInput := interestInput p; availability := availability p;
   availabilityRequestRef := availabilityRequestRef p;
   lastActiveElement := lastActiveElement p;
   passwordDraft := passwordDraft p; emailDraft := emailDraft p;
   saved := saved p; draft := draft p; searchTab := searchTab p |}.

Definition set_isSaving (x : bool) (p : Page) : Page :=
{| activeSection := activeSection p; showMobileList := showMobileList p;
   pendingSection := pendingSection p; discardOpen := discardOpen p;
   isSaving := x; profileErrors := profileErrors p;
   interestInput := interestInput p; availability := availability p;
   availabilityRequestRef := availabilityRequestRef p;
   lastActiveElement := lastActiveElement p;
   passwordDraft := passwordDraft p; emailDraft := emailDraft p;
   saved := saved p; draft := draft p; searchTab := searchTab p |}.

Definition set_profileErrors (x : gmap string string) (p : Page) : Page :=
{| activeSection := activeSection p; showMobileList := showMobileList p;
   pendingSection := pendingSection p; discardOpen := discardOpen p;
   isSaving := isSaving p; profileErrors := x;
   interestInput := interestInput p; availability := availability p;
   availabilityRequestRef := availabilityRequestRef p;
   lastActiveElement := lastActiveElement p;
   passwordDraft := passwordDraft p; emailDraft := emailDraft p;
   saved := saved p; draft := draft p; searchTab := searchTab p |}.

Definition set_interestInput (x : string) (p : Page) : Page :=
{| activeSection := activeSection p; showMobileList := showMobileList p;
   pendingSection := pendingSection p; discardOpen := discardOpen p;
   isSaving := isSaving p; profileErrors := profileErrors p;
   interestInput := x; availability := availability p;
   availabilityRequestRef := availabilityRequestRef p;
   lastActiveElement := lastActiveElement p;
   passwordDraft := passwordDraft p; emailDraft := emailDraft p;
   saved := saved p; draft := draft p; searchTab := searchTab p |}.

Definition set_availability (x : Availability) (p : Page) : Page :=
{| activeSection := activeSection p; showMobileList := showMobileList p;
   pendingSection := pendingSection p; discardOpen := discardOpen p;
   isSaving := isSaving p; profileErrors := profileErrors p;
   interestInput := interestInput p; availability := x;
   availabilityRequestRef := availabilityRequestRef p;
   lastActiveElement := lastActiveElement p;
   passwordDraft := passwordDraft p; emailDraft := emailDraft p;
   saved := saved p; draft := draft p; searchTab := searchTab p |}.

Definition set_availabilityRequestRef (x : RequestRef) (p : Page) : Page :=
{| activeSection := activeSection p; showMobileList := showMobileList p;
   pendingSection := pendingSection p; discardOpen := discardOpen p;
   isSaving := isSaving p; profileErrors := profileErrors p;
   interestInput := interestInput p; availability := availability p;
   availabilityRequestRef := x; lastActiveElement := lastActiveElement p;
   passwordDraft := passwordDraft p; emailDraft := emailDraft p;
   saved := saved p; draft := draft p; searchTab := searchTab p |}.

Definition set_lastActiveElement (x : option Element) (p : Page) : Page :=
{| activeSection := activeSection p; showMobileList := showMobileList p;
   pendingSection := pendingSection p; discardOpen := discardOpen p;
   isSaving := isSaving p; profileErrors := profileErrors p;
   interestInput := interestInput p; availability := availability p;
   availabilityRequestRef := availabilityRequestRef p;
   lastActiveElement := x; passwordDraft := passwordDraft p;
   emailDraft := emailDraft p; saved := saved p; draft := draft p;
   searchTab := searchTab p |}.

Definition set_saved (x : Values) (p : Page) : Page :=
{| activeSection := activeSection p; showMobileList := showMobileList p;
   pendingSection := pendingSection p; discardOpen := discardOpen p;
   isSaving := isSaving p; profileErrors := profileErrors p;
   interestInput := interestInput p; availability := availability p;
   availabilityRequestRef := availabilityRequestRef p;
   lastActiveElement := lastActiveElement p;
   passwordDraft := passwordDraft p; emailDraft := emailDraft p; saved := x;
   draft := draft p; searchTab := searchTab p |}.

Definition set_draft (x : Values) (p : Page) : Page :=
{| activeSection := activeSection p; showMobileList := showMobileList p;
   pendingSection := pendingSection p; discardOpen := discardOpen p;
   isSaving := isSaving p; profileErrors := profileErrors p;
   interestInput := interestInput p; availability := availability p;
   availabilityRequestRef := availabilityRequestRef p;
   lastActiveElement := lastActiveElement p;
   passwordDraft := passwordDraft p; emailDraft := emailDraft p;
   saved := saved p; draft := x; searchTab := searchTab p |}.

Definition set_searchTab (x : option string) (p : Page) : Page :=
{| activeSection := activeSection p; showMobileList := showMobileList p;
   pendingSection := pendingSection p; discardOpen := discardOpen p;
   isSaving := isSaving p; profileErrors := profileErrors p;
   interestInput := interestInput p; availability := availability p;
   availabilityRequestRef := availabilityRequestRef p;
   lastActiveElement := lastActiveElement p;
   passwordDraft := passwordDraft p; emailDraft := emailDraft p;
   saved := saved p; draft := draft p; searchTab := x |}.

Definition set_passwordDraft (x : PasswordDraft) (p : Page) : Page :=
{| activeSection := activeSection p; showMobileList := showMobileList p;
   pendingSection := pendingSection p; discardOpen := discardOpen p;
   isSaving := isSaving p; profileErrors := profileErrors p;
   interestInput := interestInput p; availability := availability p;
   availabilityRequestRef := availabilityRequestRef p;
   lastActiveElement := lastActiveElement p; passwordDraft := x;
   emailDraft := emailDraft p; saved := saved p; draft := draft p;
   searchTab := searchTab p |}.

Definition set_emailDraft (x : EmailDraft) (p : Page) : Page :=
{| activeSection := activeSection p; showMobileList := showMobileList p;
   pendingSection := pendingSection p; discardOpen := discardOpen p;
   isSaving := isSaving p; profileErrors := profileErrors p;
   interestInput := interestInput p; availability := availability p;
   availabilityRequestRef := availabilityRequestRef p;
   lastActiveElement := lastActiveElement p;
   passwordDraft := passwordDraft p; emailDraft := x; saved := saved p;
   draft := draft p; searchTab := searchTab p |}.

(** A page as it is right after loading the sample profile and typing a
    shorter bio. *)
Definition samplePage : Page :=
{| activeSection := "profile"; showMobileList := false;
   pendingSection := None; discardOpen := false; isSaving := false;
   profileErrors := ∅; interestInput := "";
   availability := {| av_username := neutral; av_profileUrl := neutral |};
   availabilityRequestRef := {| ref_username := 0; ref_profileUrl := 0 |};
   lastActiveElement := None;
   passwordDraft := {| current := ""; next := ""; confirm := "" |};
   emailDraft := {| email := ""; email_password := "" |};
   saved := sampleDefaults; draft := edit_bio "Builder." sampleDefaults;
   searchTab := Some "profile" |}.

(** What a handler does besides updating the page. *)
Inductive Effect : Type :=
| Navigate (path : string)
| Focus (element : Element)
| ShowToast (message : string) (type : string).

(** A click: the control it was bound to, and [document.activeElement] at
    the moment the handler runs. *)
Record Click : Type := { currentTarget : Element; activeElement : option Element }.

Definition no_availability : Availability :=
{| av_username := neutral; av_profileUrl := neutral |}.

Definition isDirty (p : Page) : bool :=
hasSectionChanges (saved p) (draft p) (activeSection p).

(** [lastActiveElement.current = event?.currentTarget || document.activeElement] *)
Definition rememberFocus (event : option Click) (documentActive : option Element)
    (p : Page) : Page :=
set_lastActiveElement
  (match event with
   | Some e => Some (currentTarget e)
   | None => documentActive
   end) p.

Definition restoreFocus (p : Page) : list Effect :=
match lastActiveElement p with
| Some element => [Focus element]
| None => []
end.

Definition applySection (isMobile : bool) (sectionId : string) (p : Page) : Page :=
if bool_decide (sectionId ∈ settingsSectionIds) then
  let p := set_activeSection sectionId p in
  let p := set_searchTab (Some sectionId) p in
  if isMobile then set_showMobileList false p else p
else p.

Definition handleSectionChange (isMobile : bool) (documentActive : option Element)
    (sectionId : string) (p : Page) : Page * list Effect :=
if String.eqb sectionId (activeSection p) then
  ((if isMobile then set_showMobileList false p else p), [])
else if isDirty p then
  let p := rememberFocus None documentActive p in
  let p := set_pendingSection (Some sectionId) p in
  (set_discardOpen true p, [])
else (applySection isMobile sectionId p, []).

Definition handleDiscardCancel (p : Page) : Page * list Effect :=
(set_pendingSection None (set_discardOpen false p), restoreFocus p).

Definition handleBackToList (documentActive : option Element) (p : Page) :
    Page * list Effect :=
if isDirty p then
  let p := rememberFocus None documentActive p in
  let p := set_pendingSection (Some "list") p in
  (set_discardOpen true p, [])
else
  let p := set_pendingSection None p in
  let p := set_showMobileList true p in
  (set_searchTab None p, []).

(** [onClick] of the Back to profile button in the top bar. *)
Definition handleBackToProfile (event : Click) (p : Page) : Page * list Effect :=
if isDirty p then
  let p := rememberFocus (Some event) (activeElement event) p in
  let p := set_pendingSection (Some "back") p in
  (set_discardOpen true p, [])
else (p, [Navigate "/profile"]).

(** [onConfirm] of the discard dialog. *)
Definition handleDiscardConfirm (isMobile : bool) (p : Page) : Page * list Effect :=
let q := set_draft (saved p) p in
let q := set_profileErrors ∅ q in
let q := set_interestInput "" q in
let q := set_availability no_availability q in
let q := set_discardOpen false q in
match pendingSection p with
| Some pending =>
    if String.eqb pending "back" then
      (set_pendingSection None q, [Navigate "/profile"])
    else if String.eqb pending "list" then
      let q := set_showMobileList true q in
      let q := set_searchTab None q in
      (set_pendingSection None q, [])
    else if truthy pending then
      (set_pendingSection None (applySection isMobile pending q), [])
    else (set_pendingSection None q, [])
| None => (set_pendingSection None q, [])
end.

(** [handleCancel], the Cancel button of a section. *)
Definition handleCancel (p : Page) : Page :=
let q := set_draft (saved p) p in
let q := set_profileErrors ∅ q in
let q := set_interestInput "" q in
set_availability no_availability q.

(** The bindings of the three controls that leave a section: a section
    entry of the navigation, the Back link of the mobile layout, and the
    Back to profile button.  Only the last passes its event on. *)
Definition navItem_onClick (isMobile : bool) (sectionId : string) (event : Click)
    (p : Page) : Page * list Effect :=
handleSectionChange isMobile (activeElement event) sectionId p.

Definition backToList_onClick (event : Click) (p : Page) : Page * list Effect :=
handleBackToList (activeElement event) p.

Definition backToProfile_onClick (event : Click) (p : Page) : Page * list Effect :=
handleBackToProfile event p.

Lemma settingsSectionIds_spec sectionId :
  sectionId ∈ settingsSectionIds <->
  sectionId = "account" \/ sectionId = "profile" \/ sectionId = "privacy"
  \/ sectionId = "notifications" \/ sectionId = "appearance"
  \/ sectionId = "help".
Proof.
  unfold settingsSectionIds. rewrite elem_of_list_to_set. simpl.
  rewrite !elem_of_cons, elem_of_nil. tauto.
Qed.

Lemma applySection_known isMobile sectionId p :
  sectionId ∈ settingsSectionIds ->
  let q := applySection isMobile sectionId p in
  activeSection q = sectionId /\ searchTab q = Some sectionId
  /\ draft q = draft p /\ saved q = saved p
  /\ profileErrors q = profileErrors p /\ availability q = availability p
  /\ discardOpen q = discardOpen p.
Proof.
  intros Hin. unfold applySection. rewrite bool_decide_eq_true_2 by assumption.
  destruct isMobile; simpl; repeat split; reflexivity.
Qed.

End SettingsPage.

Import SettingsPage.

Lemma known_section_not_keyword sectionId :
  sectionId ∈ settingsSectionIds ->
  String.eqb sectionId "back" = false /\ String.eqb sectionId "list" = false
  /\ truthy sectionId = true.
Proof.
  intros Hin. apply settingsSectionIds_spec in Hin.
  repeat (destruct Hin as [->|Hin]; [repeat split; reflexivity|]).
  subst. repeat split; reflexivity.
Qed.

(** The page a dirty section is left in when a control asks to leave it:
    the prompt is open, the destination is pending, and nothing else that
    matters has moved. *)
Definition intercepted (p q : Page) (pending : string)
    (remembered : option Element) : Prop :=
  discardOpen q = true /\ pendingSection q = Some pending
  /\ activeSection q = activeSection p /\ showMobileList q = showMobileList p
  /\ searchTab q = searchTab p
  /\ draft q = draft p /\ saved q = saved p
  /\ lastActiveElement q = remembered.

(** What confirming the prompt does to the form. *)
Definition discarded (p q : Page) : Prop :=
  draft q = saved p /\ saved q = saved p /\ profileErrors q = ∅
  /\ availability q = no_availability /\ interestInput q = ""
  /\ discardOpen q = false /\ pendingSection q = None.

(** What cancelling the prompt does. *)
Definition kept (p q : Page) (effects : list Effect)
    (remembered : option Element) : Prop :=
  draft q = draft p /\ saved q = saved p /\ activeSection q = activeSection p
  /\ showMobileList q = showMobileList p /\ searchTab q = searchTab p
  /\ discardOpen q = false /\ pendingSection q = None
  /\ effects = match remembered with
               | Some element => [Focus element]
               | None => []
               end.

Lemma handleDiscardCancel_kept p q pending remembered :
  intercepted p q pending remembered ->
  kept p (fst (handleDiscardCancel q)) (snd (handleDiscardCancel q)) remembered.
Proof.
  intros (_ & _ & Ha & Hm & Ht & Hd & Hs & Hr).
  unfold kept, handleDiscardCancel, restoreFocus. simpl. rewrite Hr.
  repeat split; assumption.
Qed.

(** C6, as the code has it.  While the active section is dirty, each of the
    three controls that leave it (another section of the navigation, Back
    to the list, Back to profile) only opens the discard prompt: the
    section stays, the draft stays, no navigation happens.  Confirming
    resets the draft to the saved values, clears the profile errors and the
    availability flags, and completes the pending navigation.  Cancelling
    leaves draft and section as they were and gives the focus back to the
    element remembered when the prompt opened: the control itself for Back
    to profile, which passes its event on, and the document's active
    element for the other two, which do not. *)
Theorem discard_prompt_guards_dirty_section
    (isMobile : bool) (event : Click) (p : Page) :
  isDirty p = true ->
  (forall sectionId,
     sectionId ∈ settingsSectionIds -> sectionId <> activeSection p ->
     let '(q, effects) := navItem_onClick isMobile sectionId event p in
     effects = [] /\ intercepted p q sectionId (activeElement event)
     /\ (let '(r, done) := handleDiscardConfirm isMobile q in
         discarded p r /\ activeSection r = sectionId
         /\ searchTab r = Some sectionId /\ done = [])
     /\ (let '(r, back) := handleDiscardCancel q in
         kept p r back (activeElement event)))
  /\ (let '(q, effects) := backToList_onClick event p in
      effects = [] /\ intercepted p q "list" (activeElement event)
      /\ (let '(r, done) := handleDiscardConfirm isMobile q in
          discarded p r /\ showMobileList r = true /\ searchTab r = None
          /\ done = [])
      /\ (let '(r, back) := handleDiscardCancel q in
          kept p r back (activeElement event)))
  /\ (let '(q, effects) := backToProfile_onClick event p in
      effects = [] /\ intercepted p q "back" (Some (currentTarget event))
      /\ (let '(r, done) := handleDiscardConfirm isMobile q in
          discarded p r /\ done = [Navigate "/profile"])
      /\ (let '(r, back) := handleDiscardCancel q in
          kept p r back (Some (currentTarget event)))).
Proof.
  intros Hdirty. split; [|split].
  - intros sectionId Hin Hne.
    unfold navItem_onClick, handleSectionChange.
    apply String.eqb_neq in Hne. rewrite Hne, Hdirty.
    assert (Hi : intercepted p
              (set_discardOpen true
                 (set_pendingSection (Some sectionId)
                    (rememberFocus None (activeElement event) p)))
              sectionId (activeElement event)) by (repeat split).
    split; [reflexivity|]. split; [exact Hi|]. split.
    + unfold handleDiscardConfirm. simpl pendingSection.
      destruct (known_section_not_keyword _ Hin) as (-> & -> & ->).
      unfold applySection. rewrite bool_decide_eq_true_2 by assumption.
      destruct isMobile; repeat split.
    + pose proof (handleDiscardCancel_kept _ _ _ _ Hi) as Hk.
      destruct (handleDiscardCancel _) as [r back]. exact Hk.
  - unfold backToList_onClick, handleBackToList. rewrite Hdirty.
    assert (Hi : intercepted p
              (set_discardOpen true
                 (set_pendingSection (Some "list")
                    (rememberFocus None (activeElement event) p)))
              "list" (activeElement event)) by (repeat split).
    split; [reflexivity|]. split; [exact Hi|]. split.
    + repeat split.
    + pose proof (handleDiscardCancel_kept _ _ _ _ Hi) as Hk.
      destruct (handleDiscardCancel _) as [r back]. exact Hk.
  - unfold backToProfile_onClick, handleBackToProfile. rewrite Hdirty.
    assert (Hi : intercepted p
              (set_discardOpen true
                 (set_pendingSection (Some "back")
                    (rememberFocus (Some event) (activeElement event) p)))
              "back" (Some (currentTarget event))) by (repeat split).
    split; [reflexivity|]. split; [exact Hi|]. split.
    + repeat split.
    + pose proof (handleDiscardCancel_kept _ _ _ _ Hi) as Hk.
      destruct (handleDiscardCancel _) as [r back]. exact Hk.
Qed.

Lemma discard_prompt_guards_dirty_section_witness :
  snd (handleDiscardConfirm false
         (fst (backToProfile_onClick
                 {| currentTarget := 3; activeElement := Some 3 |} samplePage)))
  = [Navigate "/profile"].
Proof.
  pose proof (discard_prompt_guards_dirty_section false
                {| currentTarget := 3; activeElement := Some 3 |} samplePage
                eq_refl) as (_ & _ & H).
  destruct (backToProfile_onClick _ samplePage) as [q effects].
  destruct H as (_ & _ & H & _). simpl fst.
  destruct (handleDiscardConfirm false q) as [r done]. apply H.
Defined.

(** The claim of C6 on the focus fails where the document's active element
    is not the navigation entry that was clicked: cancelling gives the
    focus to that other element. *)
Lemma cancel_focus_not_on_clicked_entry :
  let event := {| currentTarget := 3; activeElement := Some 7 |} in
  isDirty samplePage = true
  /\ "privacy" ∈ settingsSectionIds
  /\ "privacy" <> activeSection samplePage
  /\ snd (handleDiscardCancel
            (fst (navItem_onClick false "privacy" event samplePage)))
     = [Focus 7]
  /\ snd (handleDiscardCancel
            (fst (navItem_onClick false "privacy" event samplePage)))
     <> [Focus (currentTarget event)].
Proof.
  simpl. split; [reflexivity|]. split; [by apply settingsSectionIds_spec; auto|].
  split; [discriminate|]. split; [reflexivity|]. vm_compute. discriminate.
Qed.

(** C10.  The account and help sections have no entry in the field table,
    so they are never dirty, whatever saved and draft hold.  Leaving one of
    them therefore never opens the discard prompt: a section entry switches
    at once, Back shows the list, Back to profile navigates.  This is so
    for every content of the password and email forms, which the dirty
    check does not read. *)
Theorem account_and_help_never_prompt
    (isMobile : bool) (event : Click) (p : Page)
    (password : PasswordDraft) (mail : EmailDraft) :
  (forall saved draft,
     hasSectionChanges saved draft "account" = false
     /\ hasSectionChanges saved draft "help" = false)
  /\ (activeSection p = "account" \/ activeSection p = "help" ->
      let p' := set_emailDraft mail (set_passwordDraft password p) in
      isDirty p' = false
      /\ (forall sectionId,
            let '(q, effects) := navItem_onClick isMobile sectionId event p' in
            discardOpen q = discardOpen p /\ pendingSection q = pendingSection p
            /\ effects = []
            /\ passwordDraft q = password /\ emailDraft q = mail
            /\ (sectionId ∈ settingsSectionIds -> activeSection q = sectionId))
      /\ (let '(q, effects) := backToList_onClick event p' in
          discardOpen q = discardOpen p /\ showMobileList q = true
          /\ searchTab q = None /\ effects = [])
      /\ (let '(q, effects) := backToProfile_onClick event p' in
          discardOpen q = discardOpen p /\ effects = [Navigate "/profile"])).
Proof.
  split; [intros saved draft; split; reflexivity|].
  intros Hsec p'.
  assert (Hclean : isDirty p' = false).
  { unfold isDirty. subst p'. simpl. destruct Hsec as [-> | ->]; reflexivity. }
  split; [exact Hclean|]. split; [|split].
  - intros sectionId. unfold navItem_onClick, handleSectionChange.
    rewrite Hclean.
    destruct (String.eqb sectionId (activeSection p')) eqn:Heq.
    + apply String.eqb_eq in Heq.
      destruct isMobile; subst p'; simpl in *; repeat split; intros _; congruence.
    + unfold applySection. case_bool_decide as Hin.
      * destruct isMobile; subst p'; simpl; repeat split.
      * subst p'; simpl; repeat split. intros Hin'. contradiction.
  - unfold backToList_onClick, handleBackToList. rewrite Hclean.
    subst p'. repeat split.
  - unfold backToProfile_onClick, handleBackToProfile. rewrite Hclean.
    subst p'. repeat split.
Qed.

Lemma account_and_help_never_prompt_witness :
  discardOpen
    (fst (navItem_onClick false "profile"
            {| currentTarget := 3; activeElement := Some 3 |}
            (set_emailDraft {| email := "new@example.org"; email_password := "secret" |}
               (set_passwordDraft
                  {| current := "old-secret"; next := "new-secret"; confirm := "" |}
                  (set_activeSection "account" samplePage)))))
  = false.
Proof.
  pose proof (proj2 (account_and_help_never_prompt false
                {| currentTarget := 3; activeElement := Some 3 |}
                (set_activeSection "account" samplePage)
                {| current := "old-secret"; next := "new-secret"; confirm := "" |}
                {| email := "new@example.org"; email_password := "secret" |})
              (or_introl eq_refl)) as (_ & H & _).
  specialize (H "profile").
  destruct (navItem_onClick false "profile" _ _) as [q effects].
  destruct H as (H & _). exact H.
Defined.

(* ===================================================================== *)
(** ** The availability checker: [checkAvailability]                      *)
(* ===================================================================== *)

Module Checker.

(** The requests the settings page sends.  A lookup carries the trimmed
    value (the source passes it through [encodeURIComponent] into the
    query string); a mutating request carries its JSON body. *)
Inductive Request : Type :=
| GET_username_lookup (username : string) (token : string)
| GET_profile_url_lookup (profile_url : string) (token : string)
| PATCH_profile (body : list (string * Json.Value)) (token : string)
| PATCH_notifications (body : list (string * Json.Value)) (token : string).

(** The payload of a lookup, reduced to the truthiness of
    [data.available]; the payload itself may be [null]. *)
Record LookupData : Type := { available : bool }.

Definition statusOf (field : AvailabilityField) (a : Availability) : Status :=
match field with
| f_username => av_username a
| f_profileUrl => av_profileUrl a
end.

(** [{ ...prev, [field]: status }] *)
Definition withStatus (field : AvailabilityField) (s : Status)
    (prev : Availability) : Availability :=
match field with
| f_username => {| av_username := s; av_profileUrl := av_profileUrl prev |}
| f_profileUrl => {| av_username := av_username prev; av_profileUrl := s |}
end.

Definition counterOf (field : AvailabilityField) (r : RequestRef) : N :=
match field with
| f_username => ref_username r
| f_profileUrl => ref_profileUrl r
end.

Definition withCounter (field : AvailabilityField) (n : N) (r : RequestRef) :
    RequestRef :=
match field with
| f_username => {| ref_username := n; ref_profileUrl := ref_profileUrl r |}
| f_profileUrl => {| ref_username := ref_username r; ref_profileUrl := n |}
end.

Definition setStatus (field : AvailabilityField) (s : Status) (p : Page) : Page :=
set_availability (withStatus field s (availability p)) p.

Definition lookupRequest (field : AvailabilityField) (trimmed token : string) :
    Request :=
match field with
| f_username => GET_username_lookup trimmed token
| f_profileUrl => GET_profile_url_lookup trimmed token
end.

(** The saved value the raw one is compared with, trimmed and lower-cased
    like it. *)
Definition savedValueOf (field : AvailabilityField) (savedValues : Values) : string :=
match field with
| f_username => toLowerCase (trim (username savedValues))
| f_profileUrl => toLowerCase (trim (profileUrl savedValues))
end.

(** Where a call stands when it first yields: it has returned, or it waits
    for a lookup that it numbered [nextId]. *)
Inductive CheckStart : Type :=
| Settled (p : Page) (result : Status)
| Lookup (p : Page) (nextId : N) (request : Request).

(** [checkAvailability(field, value)] up to its [await].  [savedValues] and
    [token] are the values the callback closed over. *)
Definition checkAvailability_start (savedValues : Values) (token : string)
    (field : AvailabilityField) (value : string) (p : Page) : CheckStart :=
let trimmed := trim value in
let normalized := toLowerCase trimmed in
if negb (truthy trimmed) || negb (test usernamePattern trimmed) then
  Settled (setStatus field neutral p) neutral
else
  let savedValue := savedValueOf field savedValues in
  if truthy savedValue && String.eqb normalized savedValue then
    Settled (setStatus field success p) success
  else if bool_decide (normalized ∈ RESERVED_HANDLES) then
    Settled (setStatus field error p) error
  else if negb (truthy token) then
    Settled (setStatus field neutral p) neutral
  else
    let nextId := (counterOf field (availabilityRequestRef p) + 1)%N in
    Lookup
      (set_availabilityRequestRef
         (withCounter field nextId (availabilityRequestRef p)) p)
      nextId (lookupRequest field trimmed token).

(** [checkAvailability] from the settling of its lookup, on the page as it
    is then. *)
Definition checkAvailability_resume (field : AvailabilityField) (nextId : N)
    (outcome : ApiOutcome (option LookupData)) (p : Page) : Page * Status :=
let latest := N.eqb (counterOf field (availabilityRequestRef p)) nextId in
match outcome with
| Resolved data =>
    if negb latest then (p, neutral)
    else if match data with Some d => available d | None => false end then
      (setStatus field success p, success)
    else (setStatus field error p, error)
| Rejected _ =>
    ((if latest then setStatus field neutral p else p), neutral)
end.

(** What a lookup's outcome says on its own. *)
Definition verdict (outcome : ApiOutcome (option LookupData)) : Status :=
match outcome with
| Resolved (Some d) => if available d then success else error
| Resolved None => error
| Rejected _ => neutral
end.

(** *** Calls in flight

    The page together with the lookups that have been issued and have not
    settled yet.  An event is a call of [checkAvailability] or the arrival
    of the response to a pending lookup. *)
Record World : Type := {
page : Page;
inflight : list (AvailabilityField * N)
}.

Inductive Event : Type :=
| Invoke (field : AvailabilityField) (value : string)
| Arrive (field : AvailabilityField) (id : N)
         (outcome : ApiOutcome (option LookupData)).

Definition pending (field : AvailabilityField) (id : N) (w : World) : bool :=
bool_decide ((field, id) ∈ inflight w).

Definition step (savedValues : Values) (token : string) (w : World) (e : Event) :
    World :=
match e with
| Invoke field value =>
    match checkAvailability_start savedValues token field value (page w) with
    | Settled p _ => {| page := p; inflight := inflight w |}
    | Lookup p nextId _ =>
        {| page := p; inflight := inflight w ++ [(field, nextId)] |}
    end
| Arrive field id outcome =>
    if pending field id w then
      {| page := fst (checkAvailability_resume field id outcome (page w));
         inflight := filter (fun x => x <> (field, id)) (inflight w) |}
    else w
end.

Definition run (savedValues : Values) (token : string) (events : list Event)
    (w : World) : World :=
fold_left (step savedValues token) events w.

End Checker.

Import Checker.

Lemma toLowerCase_truthy s : truthy (toLowerCase s) = truthy s.
Proof. destruct s; reflexivity. Qed.

Lemma is_handle_truthy s : is_handle s -> truthy s = true.
Proof. intros [[Hlen _] _]. destruct s; [simpl in Hlen; lia | reflexivity]. Qed.

Lemma not_handle_settles savedValues token field value p :
  trim value = "" \/ ~ is_handle (trim value) ->
  checkAvailability_start savedValues token field value p
  = Settled (setStatus field neutral p) neutral.
Proof.
  intros H. unfold checkAvailability_start.
  destruct (truthy (trim value)) eqn:Ht; [|reflexivity].
  destruct (test usernamePattern (trim value)) eqn:Hp; [|reflexivity].
  exfalso. destruct H as [H|H].
  - rewrite H in Ht. discriminate.
  - now apply H, usernamePattern_spec.
Qed.

Lemma handle_passes_guard s :
  is_handle s -> negb (truthy s) || negb (test usernamePattern s) = false.
Proof.
  intros H. rewrite (is_handle_truthy _ H).
  apply usernamePattern_spec in H. now rewrite H.
Qed.

Lemma saved_guard_eq s savedValue :
  is_handle s ->
  truthy savedValue && String.eqb (toLowerCase s) savedValue
  = String.eqb (toLowerCase s) savedValue.
Proof.
  intros H. destruct (String.eqb (toLowerCase s) savedValue) eqn:Heq;
    [|apply andb_false_r].
  apply String.eqb_eq in Heq. subst savedValue.
  now rewrite toLowerCase_truthy, (is_handle_truthy _ H).
Qed.

Lemma resume_stale field id outcome p :
  counterOf field (availabilityRequestRef p) <> id ->
  checkAvailability_resume field id outcome p = (p, neutral).
Proof.
  intros Hne. unfold checkAvailability_resume.
  apply N.eqb_neq in Hne. rewrite Hne. now destruct outcome.
Qed.

Lemma resume_latest field id outcome p :
  counterOf field (availabilityRequestRef p) = id ->
  checkAvailability_resume field id outcome p
  = (setStatus field (verdict outcome) p, verdict outcome).
Proof.
  intros Heq. unfold checkAvailability_resume.
  apply N.eqb_eq in Heq. rewrite Heq.
  destruct outcome as [[[[|]]|]|]; reflexivity.
Qed.

Lemma statusOf_setStatus field s p :
  statusOf field (availability (setStatus field s p)) = s.
Proof. now destruct field. Qed.

Lemma counterOf_setStatus field field' s p :
  counterOf field (availabilityRequestRef (setStatus field' s p))
  = counterOf field (availabilityRequestRef p).
Proof. reflexivity. Qed.

Lemma start_lookup_inv savedValues token field value p p' id request :
  checkAvailability_start savedValues token field value p = Lookup p' id request ->
  id = (counterOf field (availabilityRequestRef p) + 1)%N
  /\ counterOf field (availabilityRequestRef p') = id
  /\ availability p' = availability p
  /\ request = lookupRequest field (trim value) token
  /\ truthy token = true.
Proof.
  unfold checkAvailability_start.
  repeat match goal with
         | |- context [if ?b then _ else _] => destruct b eqn:?
         end; try discriminate.
  intros [= <- <- <-]. repeat split.
  - now destruct field.
  - now apply negb_false_iff.
Qed.

(** C3, as the code has it.  [checkAvailability] trims the value and
    lower-cases it.  It returns [neutral] without a request when the
    trimmed value is empty or is not a handle; else [success] without a
    request when the normalized value equals the saved value of the field,
    trimmed and lower-cased as well; else [error] without a request when
    the normalized value is reserved; else [neutral] without a request when
    there is no session token.  Otherwise it numbers and issues the lookup
    with the token; when the response settles it returns [success],
    [error] or [neutral] for an affirmative, negative or failed lookup and
    commits that status, provided its number is still the latest of the
    field; a superseded call returns [neutral] and commits nothing. *)
Theorem checkAvailability_cases
    (savedValues : Values) (token : string) (field : AvailabilityField)
    (value : string) (p : Page) :
  let trimmed := trim value in
  let normalized := toLowerCase trimmed in
  let savedValue := savedValueOf field savedValues in
  let start := checkAvailability_start savedValues token field value p in
  (trimmed = "" \/ ~ is_handle trimmed ->
   start = Settled (setStatus field neutral p) neutral)
  /\ (is_handle trimmed -> normalized = savedValue ->
      start = Settled (setStatus field success p) success)
  /\ (is_handle trimmed -> normalized <> savedValue ->
      normalized ∈ RESERVED_HANDLES ->
      start = Settled (setStatus field error p) error)
  /\ (is_handle trimmed -> normalized <> savedValue ->
      normalized ∉ RESERVED_HANDLES -> token = "" ->
      start = Settled (setStatus field neutral p) neutral)
  /\ (is_handle trimmed -> normalized <> savedValue ->
      normalized ∉ RESERVED_HANDLES -> token <> "" ->
      let nextId := (counterOf field (availabilityRequestRef p) + 1)%N in
      start = Lookup
                (set_availabilityRequestRef
                   (withCounter field nextId (availabilityRequestRef p)) p)
                nextId (lookupRequest field trimmed token)
      /\ forall outcome q,
           (counterOf field (availabilityRequestRef q) = nextId ->
            checkAvailability_resume field nextId outcome q
            = (setStatus field (verdict outcome) q, verdict outcome))
           /\ (counterOf field (availabilityRequestRef q) <> nextId ->
               checkAvailability_resume field nextId outcome q = (q, neutral))).
Proof.
  intros trimmed normalized savedValue start.
  split; [apply not_handle_settles|].
  assert (Hpass : is_handle trimmed ->
            start = if String.eqb normalized savedValue then
                      Settled (setStatus field success p) success
                    else if bool_decide (normalized ∈ RESERVED_HANDLES) then
                      Settled (setStatus field error p) error
                    else if negb (truthy token) then
                      Settled (setStatus field neutral p) neutral
                    else
                      Lookup
                        (set_availabilityRequestRef
                           (withCounter field
                              (counterOf field (availabilityRequestRef p) + 1)%N
                              (availabilityRequestRef p)) p)
                        (counterOf field (availabilityRequestRef p) + 1)%N
                        (lookupRequest field trimmed token)).
  { intros Hh. subst start. unfold checkAvailability_start.
    fold trimmed. fold normalized. fold savedValue.
    rewrite (handle_passes_guard _ Hh).
    pose proof (saved_guard_eq trimmed savedValue Hh) as Hg.
    fold normalized in Hg. rewrite Hg. reflexivity. }
  split; [|split; [|split]].
  - intros Hh Heq. rewrite (Hpass Hh).
    apply String.eqb_eq in Heq. now rewrite Heq.
  - intros Hh Hne Hres. rewrite (Hpass Hh).
    apply String.eqb_neq in Hne. rewrite Hne.
    now rewrite bool_decide_eq_true_2.
  - intros Hh Hne Hres Htok. rewrite (Hpass Hh).
    apply String.eqb_neq in Hne. rewrite Hne.
    rewrite bool_decide_eq_false_2 by assumption. now rewrite Htok.
  - intros Hh Hne Hres Htok nextId. split.
    + rewrite (Hpass Hh). apply String.eqb_neq in Hne. rewrite Hne.
      rewrite bool_decide_eq_false_2 by assumption.
      apply truthy_true_iff in Htok. now rewrite Htok.
    + intros outcome q. split; [apply resume_latest | apply resume_stale].
Qed.

Lemma reserved_spec s :
  s ∈ RESERVED_HANDLES <->
  s = "admin" \/ s = "support" \/ s = "profilespaces" \/ s = "profile"
  \/ s = "settings".
Proof.
  unfold RESERVED_HANDLES. rewrite !elem_of_union, !elem_of_singleton. tauto.
Qed.

Lemma checkAvailability_cases_witness :
  checkAvailability_start sampleDefaults "t0k3n" f_username " Admin " samplePage
  = Settled (setStatus f_username error samplePage) error.
Proof.
  apply (proj1 (proj2 (proj2
           (checkAvailability_cases sampleDefaults "t0k3n" f_username
              " Admin " samplePage)))).
  - apply usernamePattern_spec. reflexivity.
  - intros H. vm_compute in H. discriminate.
  - apply reserved_spec. left. reflexivity.
Defined.

(** The claim of C3 fails in two places.  Without a session token no
    lookup is issued although the value is a handle, differs from the
    saved one and is not reserved: the call settles at once with
    [neutral].  And a call whose lookup was overtaken by a later one
    returns [neutral] on an affirmative response, not [success]. *)
Lemma lookup_skipped_or_overtaken :
  (trim "alice" <> ""
   /\ is_handle (trim "alice")
   /\ toLowerCase (trim "alice") <> savedValueOf f_username sampleDefaults
   /\ (toLowerCase (trim "alice") ∉ RESERVED_HANDLES)
   /\ checkAvailability_start sampleDefaults "" f_username "alice" samplePage
      = Settled (setStatus f_username neutral samplePage) neutral)
  /\ (exists p1 p2 request1 request2,
        checkAvailability_start sampleDefaults "t0k3n" f_username "alice"
          samplePage = Lookup p1 1%N request1
        /\ checkAvailability_start sampleDefaults "t0k3n" f_username "alicia"
             p1 = Lookup p2 2%N request2
        /\ checkAvailability_resume f_username 1%N
             (Resolved (Some {| available := true |})) p2
           = (p2, neutral)).
Proof.
  split.
  - split; [intros H; vm_compute in H; discriminate|].
    split; [apply usernamePattern_spec; reflexivity|].
    split; [intros H; vm_compute in H; discriminate|].
    split; [|reflexivity].
    rewrite reserved_spec. change (toLowerCase (trim "alice")) with "alice".
    intros [H|[H|[H|[H|H]]]]; discriminate.
  - eexists _, _, _, _. split; [reflexivity|]. split; reflexivity.
Qed.

(** The saved value is compared after trimming and lower-casing it, so a
    value can be taken for unchanged without being equal to the saved
    one. *)
Example saved_value_is_normalized :
  checkAvailability_start
    {| displayName := "Mika"; username := "Mika"; profileUrl := "mika";
       bio := ""; location := ""; interests := []; status := "";
       photoUrl := ""; visibility := "public"; showLocation := false;
       allowSearch := false; emailNotifications := true;
       productUpdates := true; newFollowerAlerts := false;
       weeklyDigest := false; pauseNotifications := "off";
       theme := "system" |}
    "t0k3n" f_username " MIKA " samplePage
  = Settled (setStatus f_username success samplePage) success.
Proof. reflexivity. Qed.

(** *** Two lookups for one field *)

(** When both calls reach the lookup, the later one wins in either order
    of arrival: the response to the earlier call is dropped, its call
    returns [neutral], and the status of the field ends as the later
    response says. *)
Lemma later_lookup_wins
    (savedValues savedValues' : Values) (token token' : string)
    (field : AvailabilityField) (value1 value2 : string)
    (p p1 p2 : Page) (id1 id2 : N) (request1 request2 : Request)
    (outcome1 outcome2 : ApiOutcome (option LookupData)) :
  checkAvailability_start savedValues token field value1 p
    = Lookup p1 id1 request1 ->
  checkAvailability_start savedValues' token' field value2 p1
    = Lookup p2 id2 request2 ->
  (let '(q1, result1) := checkAvailability_resume field id1 outcome1 p2 in
   let '(q2, result2) := checkAvailability_resume field id2 outcome2 q1 in
   q1 = p2 /\ result1 = neutral /\ result2 = verdict outcome2
   /\ statusOf field (availability q2) = verdict outcome2)
  /\ (let '(q1, result1) := checkAvailability_resume field id2 outcome2 p2 in
      let '(q2, result2) := checkAvailability_resume field id1 outcome1 q1 in
      q2 = q1 /\ result2 = neutral /\ result1 = verdict outcome2
      /\ statusOf field (availability q2) = verdict outcome2).
Proof.
  intros H1 H2.
  apply start_lookup_inv in H1 as (Hid1 & Hc1 & _).
  apply start_lookup_inv in H2 as (Hid2 & Hc2 & _).
  assert (Hne : counterOf field (availabilityRequestRef p2) <> id1) by lia.
  split.
  - rewrite (resume_stale _ _ _ _ Hne), (resume_latest _ _ _ _ Hc2).
    repeat split. apply statusOf_setStatus.
  - rewrite (resume_latest _ _ _ _ Hc2).
    rewrite resume_stale by (rewrite counterOf_setStatus; exact Hne).
    repeat split. apply statusOf_setStatus.
Qed.

(** *** Any order of arrival

    The same for any number of pending lookups on either field: once the
    latest lookup of a field has been issued and no further call is made,
    the status of the field ends as the response to that lookup says,
    wherever it falls among the other arrivals. *)

Definition arrivalOtherThan (field : AvailabilityField) (id : N) (e : Event) : Prop :=
  match e with
  | Invoke _ _ => False
  | Arrive field' id' _ => (field', id') <> (field, id)
  end.

Definition isArrival (e : Event) : Prop :=
  match e with
  | Invoke _ _ => False
  | Arrive _ _ _ => True
  end.

Lemma resume_counter field field' id outcome p :
  counterOf field
    (availabilityRequestRef (fst (checkAvailability_resume field' id outcome p)))
  = counterOf field (availabilityRequestRef p).
Proof.
  unfold checkAvailability_resume.
  destruct outcome as [[[[|]]|]|failure]; destruct (N.eqb _ _); reflexivity.
Qed.

Lemma resume_other_status field field' id outcome p :
  field <> field' ->
  statusOf field
    (availability (fst (checkAvailability_resume field' id outcome p)))
  = statusOf field (availability p).
Proof.
  intros Hne. unfold checkAvailability_resume.
  destruct outcome as [[[[|]]|]|failure]; destruct (N.eqb _ _);
    destruct field, field'; try reflexivity; congruence.
Qed.

Lemma step_other_arrival savedValues token w field id e :
  arrivalOtherThan field id e ->
  counterOf field (availabilityRequestRef (page w)) = id ->
  let w' := step savedValues token w e in
  counterOf field (availabilityRequestRef (page w')) = id
  /\ statusOf field (availability (page w'))
     = statusOf field (availability (page w))
  /\ ((field, id) ∈ inflight w' <-> (field, id) ∈ inflight w).
Proof.
  destruct e as [|field' id' outcome]; simpl; [intros []|].
  intros Hne Hc. destruct (pending field' id' w); simpl; [|tauto].
  split; [now rewrite resume_counter|]. split.
  - destruct (decide (field = field')) as [<-|Hf].
    + rewrite resume_stale; [reflexivity|]. congruence.
    + now apply resume_other_status.
  - rewrite list_elem_of_filter. split; [tauto|]. intros Hin.
    split; [congruence | assumption].
Qed.

Lemma run_other_arrivals savedValues token field id events : forall w,
  Forall (arrivalOtherThan field id) events ->
  counterOf field (availabilityRequestRef (page w)) = id ->
  let w' := run savedValues token events w in
  counterOf field (availabilityRequestRef (page w')) = id
  /\ statusOf field (availability (page w'))
     = statusOf field (availability (page w))
  /\ ((field, id) ∈ inflight w' <-> (field, id) ∈ inflight w).
Proof.
  induction events as [|e events IH]; intros w Hall Hc; simpl; [tauto|].
  apply Forall_cons in Hall as [He Hall].
  destruct (step_other_arrival savedValues token w field id e He Hc)
    as (Hc' & Hs' & Hin').
  destruct (IH (step savedValues token w e) Hall Hc') as (Hc'' & Hs'' & Hin'').
  split; [assumption|]. split; [congruence | tauto].
Qed.

Lemma step_late_arrival savedValues token w field id e :
  isArrival e ->
  counterOf field (availabilityRequestRef (page w)) = id ->
  (field, id) ∉ inflight w ->
  let w' := step savedValues token w e in
  counterOf field (availabilityRequestRef (page w')) = id
  /\ statusOf field (availability (page w'))
     = statusOf field (availability (page w))
  /\ (field, id) ∉ inflight w'.
Proof.
  destruct e as [|field' id' outcome]; simpl; [intros []|].
  intros _ Hc Hout. unfold pending. case_bool_decide as Hin; simpl; [|tauto].
  assert (Hne : (field', id') <> (field, id)) by congruence.
  split; [now rewrite resume_counter|]. split.
  - destruct (decide (field = field')) as [<-|Hf].
    + rewrite resume_stale; [reflexivity|]. congruence.
    + now apply resume_other_status.
  - rewrite list_elem_of_filter. tauto.
Qed.

Lemma run_late_arrivals savedValues token field id events : forall w,
  Forall isArrival events ->
  counterOf field (availabilityRequestRef (page w)) = id ->
  (field, id) ∉ inflight w ->
  statusOf field (availability (page (run savedValues token events w)))
  = statusOf field (availability (page w)).
Proof.
  induction events as [|e events IH]; intros w Hall Hc Hout; simpl;
    [reflexivity|].
  apply Forall_cons in Hall as [He Hall].
  destruct (step_late_arrival savedValues token w field id e He Hc Hout)
    as (Hc' & Hs' & Hout').
  rewrite (IH _ Hall Hc' Hout'). exact Hs'.
Qed.

Lemma latest_lookup_wins_any_order
    (savedValues : Values) (token : string) (w : World)
    (field : AvailabilityField) (outcome : ApiOutcome (option LookupData))
    (before later : list Event) :
  let id := counterOf field (availabilityRequestRef (page w)) in
  (field, id) ∈ inflight w ->
  Forall (arrivalOtherThan field id) before ->
  Forall isArrival later ->
  statusOf field
    (availability
       (page (run savedValues token (before ++ Arrive field id outcome :: later) w)))
  = verdict outcome.
Proof.
  intros id Hin Hbefore Hlater. unfold run. rewrite fold_left_app. simpl.
  fold (run savedValues token before w).
  destruct (run_other_arrivals savedValues token field id before w Hbefore eq_refl)
    as (Hc & _ & Hin').
  set (w1 := run savedValues token before w) in *.
  assert (Hp : pending field id w1 = true).
  { unfold pending. apply bool_decide_eq_true. tauto. }
  rewrite Hp.
  set (w2 := {| page := fst (checkAvailability_resume field id outcome (page w1));
                inflight := filter (fun x => x <> (field, id)) (inflight w1) |}).
  fold (run savedValues token later w2).
  rewrite (run_late_arrivals savedValues token field id later w2 Hlater).
  - subst w2. simpl. rewrite (resume_latest _ _ _ _ Hc). simpl.
    apply statusOf_setStatus.
  - subst w2. simpl. now rewrite resume_counter.
  - subst w2. simpl. rewrite list_elem_of_filter. tauto.
Qed.

Definition freshWorld : World := {| page := samplePage; inflight := [] |}.

(** The race of the specification: checks for [al], [ali] and [alice],
    the response for [alice] arriving first.  ([al] is too short for a
    handle and settles without a lookup.) *)
Example race_al_ali_alice :
  let affirmative := Resolved (Some {| available := true |}) in
  let negative := Resolved (Some {| available := false |}) in
  let w := run sampleDefaults "t0k3n"
             [ Invoke f_username "al"; Invoke f_username "ali";
               Invoke f_username "alice";
               Arrive f_username 2 affirmative;
               Arrive f_username 1 negative ] freshWorld in
  statusOf f_username (availability (page w)) = success /\ inflight w = [].
Proof. split; reflexivity. Qed.

(** C1 at a failing input.  A lookup for [alice] is pending when the field
    is checked again with the reserved [admin].  That later call settles
    at once with [error] and leaves the sequence counter alone, so the
    response for [alice] still counts as the latest and replaces the
    status of the later check. *)
Theorem stale_lookup_overwrites_later_check :
  let affirmative := Resolved (Some {| available := true |}) in
  let issued := run sampleDefaults "t0k3n"
                  [ Invoke f_username "alice"; Invoke f_username "admin" ]
                  freshWorld in
  let settled := step sampleDefaults "t0k3n" issued
                   (Arrive f_username 1 affirmative) in
  inflight issued = [(f_username, 1%N)]
  /\ counterOf f_username (availabilityRequestRef (page issued)) = 1%N
  /\ statusOf f_username (availability (page issued)) = error
  /\ statusOf f_username (availability (page settled)) = success.
Proof. repeat split; reflexivity. Qed.

(* ===================================================================== *)
(** ** Saving a section: [validateProfile], [handleSave]                  *)
(* ===================================================================== *)

Module Save.

(** [data.profile] of a response.  A property that is missing or [null]
    is [None]. *)
Record ProfileData : Type := {
r_display_name : option string;
r_username : option string;
r_profile_url : option string;
r_status : option string;
r_bio : option string;
r_location : option string;
r_interests : option (list string);
r_photo_url : option string;
r_visibility : option string;
r_theme : option string;
r_show_location : option bool;
r_allow_search : option bool
}.

(** [data.notifications]: every preference may come in snake case or in
    camel case. *)
Record Prefs : Type := {
n_email_notifications : option bool;
n_emailNotifications : option bool;
n_product_updates : option bool;
n_productUpdates : option bool;
n_new_follower_alerts : option bool;
n_newFollowerAlerts : option bool;
n_weekly_digest : option bool;
n_weeklyDigest : option bool;
n_pause_notifications : option string;
n_pauseNotifications : option string
}.

Definition noPrefs : Prefs :=
{| n_email_notifications := None; n_emailNotifications := None;
   n_product_updates := None; n_productUpdates := None;
   n_new_follower_alerts := None; n_newFollowerAlerts := None;
   n_weekly_digest := None; n_weeklyDigest := None;
   n_pause_notifications := None; n_pauseNotifications := None |}.

(** [a || b] on strings, [a ?? b], and the truthiness of a boolean
    property. *)
Definition str_or (a : option string) (b : string) : string :=
match a with
| Some s => if truthy s then s else b
| None => b
end.

Definition nullish {A} (a : option A) (b : A) : A :=
match a with
| Some x => x
| None => b
end.

Definition flag (a : option bool) : bool := nullish a false.

Definition validateProfile (draft : Values) : gmap string string :=
let nextErrors : gmap string string := ∅ in
let nextErrors :=
  if negb (truthy (trim (displayName draft))) then
    <["displayName" := "Display name is required."]> nextErrors
  else if String.length (trim (displayName draft)) <? 2 then
    <["displayName" := "Display name must be at least 2 characters."]> nextErrors
  else nextErrors in
let nextErrors :=
  if negb (truthy (trim (username draft))) then
    <["username" := "Username is required."]> nextErrors
  else if negb (test usernamePattern (trim (username draft))) then
    <["username" := "Use 3-30 letters, numbers, or ._- in your username."]>
      nextErrors
  else nextErrors in
let nextErrors :=
  if negb (truthy (trim (profileUrl draft))) then
    <["profileUrl" := "Profile URL base is required."]> nextErrors
  else if negb (test usernamePattern (trim (profileUrl draft))) then
    <["profileUrl" := "Profile URL must match username rules."]> nextErrors
  else nextErrors in
let nextErrors :=
  if 160 <? String.length (bio draft) then
    <["bio" := "Bio must be 160 characters or less."]> nextErrors
  else nextErrors in
let nextErrors :=
  if 80 <? String.length (status draft) then
    <["status" := "Status must be 80 characters or less."]> nextErrors
  else nextErrors in
let nextErrors :=
  if 5 <? length (interests draft) then
    <["interests" := "Add up to 5 interests."]> nextErrors
  else nextErrors in
nextErrors.

(** [Object.keys(nextErrors).length === 0] *)
Definition noErrors (errors : gmap string string) : bool :=
bool_decide (errors = ∅).

(** The bodies of the mutating requests. *)
Definition profilePayload (draft : Values) : list (string * Json.Value) :=
[ ("display_name", Json.VString (trim (displayName draft)));
  ("username", Json.VString (trim (username draft)));
  ("profile_url", Json.VString (trim (profileUrl draft)));
  ("status", Json.VString (trim (status draft)));
  ("bio", Json.VString (trim (bio draft)));
  ("location", Json.VString (trim (location draft)));
  ("interests", Json.VArray (interests draft));
  ("theme", Json.VString (theme draft)) ].

Definition savedIdentity (saved : Values) : list (string * Json.Value) :=
[ ("display_name", Json.VString (displayName saved));
  ("username", Json.VString (username saved));
  ("profile_url", Json.VString (profileUrl saved));
  ("status", Json.VString (status saved));
  ("bio", Json.VString (bio saved));
  ("location", Json.VString (location saved));
  ("interests", Json.VArray (interests saved)) ].

Definition privacyPayload (saved draft : Values) : list (string * Json.Value) :=
savedIdentity saved ++
[ ("visibility", Json.VString (visibility draft));
  ("show_location", Json.VBool (showLocation draft));
  ("allow_search", Json.VBool (allowSearch draft)) ].

Definition appearancePayload (saved draft : Values) : list (string * Json.Value) :=
savedIdentity saved ++
[ ("visibility", Json.VString (visibility saved));
  ("show_location", Json.VBool (showLocation saved));
  ("allow_search", Json.VBool (allowSearch saved));
  ("theme", Json.VString (theme draft)) ].

Definition notificationsPayload (draft : Values) : list (string * Json.Value) :=
[ ("email_notifications", Json.VBool (emailNotifications draft));
  ("product_updates", Json.VBool (productUpdates draft));
  ("new_follower_alerts", Json.VBool (newFollowerAlerts draft));
  ("weekly_digest", Json.VBool (weeklyDigest draft));
  ("pause_notifications", Json.VString (pauseNotifications draft)) ].

(** [{ ...prev, ...nextFields }] for the [nextFields] of each section.
    [closed] is the object the handler closed over ([saved], or [draft]
    for the theme); [prev] is the state the setter finds. *)
Definition mergeProfile (closed : Values) (profile : ProfileData) (prev : Values) :
    Values :=
{| displayName := str_or (r_display_name profile) "";
   username := str_or (r_username profile) "";
   profileUrl := str_or (r_profile_url profile) "";
   bio := str_or (r_bio profile) "";
   location := str_or (r_location profile) "";
   interests := nullish (r_interests profile) [];
   status := str_or (r_status profile) "";
   photoUrl := str_or (r_photo_url profile) "";
   visibility := str_or (r_visibility profile)
                   (str_or (Some (visibility closed)) "public");
   showLocation := flag (r_show_location profile)
                   && truthy (str_or (r_location profile) (location closed));
   allowSearch := nullish (r_allow_search profile) (allowSearch closed);
   emailNotifications := emailNotifications prev;
   productUpdates := productUpdates prev;
   newFollowerAlerts := newFollowerAlerts prev;
   weeklyDigest := weeklyDigest prev;
   pauseNotifications := pauseNotifications prev;
   theme := str_or (r_theme profile) (str_or (Some (theme closed)) "system") |}.

Definition withPrivacy (v : string) (s a : bool) (prev : Values) : Values :=
{| displayName := displayName prev; username := username prev;
   profileUrl := profileUrl prev; bio := bio prev; location := location prev;
   interests := interests prev; status := status prev;
   photoUrl := photoUrl prev;
   visibility := v; showLocation := s; allowSearch := a;
   emailNotifications := emailNotifications prev;
   productUpdates := productUpdates prev;
   newFollowerAlerts := newFollowerAlerts prev;
   weeklyDigest := weeklyDigest prev;
   pauseNotifications := pauseNotifications prev; theme := theme prev |}.

Definition mergePrivacy (closed : Values) (profile : ProfileData) (prev : Values) :
    Values :=
withPrivacy
  (str_or (r_visibility profile) "public")
  (flag (r_show_location profile)
   && truthy (str_or (r_location profile) (location closed)))
  (flag (r_allow_search profile))
  prev.

Definition withTheme (t : string) (prev : Values) : Values :=
{| displayName := displayName prev; username := username prev;
   profileUrl := profileUrl prev; bio := bio prev; location := location prev;
   interests := interests prev; status := status prev;
   photoUrl := photoUrl prev; visibility := visibility prev;
   showLocation := showLocation prev; allowSearch := allowSearch prev;
   emailNotifications := emailNotifications prev;
   productUpdates := productUpdates prev;
   newFollowerAlerts := newFollowerAlerts prev;
   weeklyDigest := weeklyDigest prev;
   pauseNotifications := pauseNotifications prev; theme := t |}.

(** One setter of [applyNotificationPrefs]. *)
Definition mergePrefs (prefs : Prefs) (prev : Values) : Values :=
{| displayName := displayName prev; username := username prev;
   profileUrl := profileUrl prev; bio := bio prev; location := location prev;
   interests := interests prev; status := status prev;
   photoUrl := photoUrl prev; visibility := visibility prev;
   showLocation := showLocation prev; allowSearch := allowSearch prev;
   emailNotifications :=
     nullish (n_email_notifications prefs)
       (nullish (n_emailNotifications prefs) (emailNotifications prev));
   productUpdates :=
     nullish (n_product_updates prefs)
       (nullish (n_productUpdates prefs) (productUpdates prev));
   newFollowerAlerts :=
     nullish (n_new_follower_alerts prefs)
       (nullish (n_newFollowerAlerts prefs) (newFollowerAlerts prev));
   weeklyDigest :=
     nullish (n_weekly_digest prefs)
       (nullish (n_weeklyDigest prefs) (weeklyDigest prev));
   pauseNotifications :=
     nullish (n_pause_notifications prefs)
       (nullish (n_pauseNotifications prefs) (pauseNotifications prev));
   theme := theme prev |}.

Definition applyNotificationPrefs (prefs : Prefs) (p : Page) : Page :=
set_draft (mergePrefs prefs (draft p)) (set_saved (mergePrefs prefs (saved p)) p).

(** *** Messages from a failed request *)

Definition truncateMessage (message : string) : string :=
if negb (truthy message) then ""
else if 120 <? String.length message
     then String.substring 0 117 message +:+ "..."
     else message.

Definition shortMessageFromError (error : ApiError) : string :=
let fromDetail :=
  match err_detail error with
  | Some detail =>
      if truthy detail then Some (truncateMessage detail) else None
  | None => None
  end in
let fromMessage :=
  if truthy (err_message error) then truncateMessage (err_message error)
  else "Something went wrong. Please try again." in
match err_fields error with
| (firstKey, first) :: _ =>
    if truthy firstKey && truthy first then truncateMessage first
    else default fromMessage fromDetail
| [] => default fromMessage fromDetail
end.

(** [if (apiErrors.key) mappedErrors.name = apiErrors.key] *)
Definition mapError (apiErrors : list (string * string)) (key name : string)
    (mapped : gmap string string) : gmap string string :=
match assoc key apiErrors with
| Some text => if truthy text then <[name := text]> mapped else mapped
| None => mapped
end.

Definition mappedErrors (apiErrors : list (string * string)) : gmap string string :=
let m := mapError apiErrors "display_name" "displayName" ∅ in
let m := mapError apiErrors "username" "username" m in
let m := mapError apiErrors "profile_url" "profileUrl" m in
let m := mapError apiErrors "status" "status" m in
let m := mapError apiErrors "bio" "bio" m in
let m := mapError apiErrors "location" "location" m in
mapError apiErrors "interests" "interests" m.

(** *** The handler *)

(** What the settings page makes of the user object of the session:
    [buildDefaults()] in a render whose [user] is the given object.  The
    page reads the object through [mapUserToProfile]; its instance is
    [ProfileView.pageDefaults]. *)
Class PageDefaults (User : Type) : Type := defaultsFor : User -> Values.

(** The effect of the page that depends on [buildDefaults], and so runs
    after every render in which [user] is another object:
    [const next = buildDefaults(); setSaved(next); setDraft(next);
    setAvailability({ username: "neutral", profileUrl: "neutral" });
    setNotificationsLoaded(false)].  [notificationsLoaded] is not part of
    [Page]. *)
Definition resetToDefaults (next : Values) (p : Page) : Page :=
set_availability no_availability (set_draft next (set_saved next p)).

Section Flow.

(** The user object of a response is passed on to the session store as it
    came; the page rebuilds its defaults from it. *)
Context {User : Type} `{!PageDefaults User}.

Record SaveData : Type := {
profile : option ProfileData;
notifications : option Prefs;
user : option User
}.

Inductive Signal : Type :=
| Toasted (message : string) (type : string)
| UserSet (user : User).

Definition sessionExpired : Signal :=
Toasted "Session expired. Please log in again." "warning".

(** One of the two calls [validateAvailability] makes, once both have
    been started. *)
Inductive Check : Type :=
| Returned (result : Status)
| Waiting (id : N) (request : Request).

Definition startCheck (savedValues : Values) (token : string)
    (field : AvailabilityField) (value : string) (p : Page) : Page * Check :=
match checkAvailability_start savedValues token field value p with
| Settled q result => (q, Returned result)
| Lookup q id request => (q, Waiting id request)
end.

Definition requestOf (c : Check) : list Request :=
match c with
| Returned _ => []
| Waiting _ request => [request]
end.

(** What the handler cannot decide: how the lookups and the mutating
    request settle, which lookup settles first, and what the rest of the
    page does while the handler waits. *)
Record Oracle : Type := {
usernameLookup : ApiOutcome (option LookupData);
profileUrlLookup : ApiOutcome (option LookupData);
usernameFirst : bool;
patch : ApiOutcome (option SaveData);
meanwhile : Page -> Page
}.

Definition finishCheck (o : Oracle) (field : AvailabilityField) (c : Check)
    (outcome : ApiOutcome (option LookupData)) (p : Page) : Page * Status :=
match c with
| Returned result => (p, result)
| Waiting id _ => checkAvailability_resume field id outcome (meanwhile o p)
end.

Record Rechecked : Type := {
after : Page;
usernameStatus : Status;
profileUrlStatus : Status;
lookups : list Request
}.

(** [validateAvailability]: both calls start, in order, before either
    lookup settles. *)
Definition recheck (token : string) (o : Oracle) (p : Page) : Rechecked :=
let '(p1, cu) :=
  startCheck (saved p) token f_username (username (draft p)) p in
let '(p2, cp) :=
  startCheck (saved p) token f_profileUrl (profileUrl (draft p)) p1 in
if usernameFirst o then
  let '(q1, su) := finishCheck o f_username cu (usernameLookup o) p2 in
  let '(q2, sp) := finishCheck o f_profileUrl cp (profileUrlLookup o) q1 in
  {| after := q2; usernameStatus := su; profileUrlStatus := sp;
     lookups := requestOf cu ++ requestOf cp |}
else
  let '(q1, sp) := finishCheck o f_profileUrl cp (profileUrlLookup o) p2 in
  let '(q2, su) := finishCheck o f_username cu (usernameLookup o) q1 in
  {| after := q2; usernameStatus := su; profileUrlStatus := sp;
     lookups := requestOf cu ++ requestOf cp |}.

Definition isError (s : Status) : bool := bool_decide (s = error).

Definition validateAvailability (r : Rechecked) : bool :=
negb (isError (usernameStatus r)) && negb (isError (profileUrlStatus r)).

Definition userSignal (data : option SaveData) : list Signal :=
match data ≫= user with
| Some u => [UserSet u]
| None => []
end.

(** [if (data?.user) setUser(data.user)], seen from the page: the object
    of a response is always a new one, so the render that follows runs
    the effect above, after every update of the handler has been
    applied. *)
Definition afterSetUser (data : option SaveData) (p : Page) : Page :=
match data ≫= user with
| Some u => resetToDefaults (defaultsFor u) p
| None => p
end.

(** The part of each branch that follows the mutating request, up to the
    effects of the render it causes.  [closure] is the page the handler
    was created on, [p] the page as the response finds it. *)
Definition reconcileProfile (closure : Page)
    (outcome : ApiOutcome (option SaveData)) (p : Page) : Page * list Signal :=
match outcome with
| Resolved data =>
    let p :=
      match data ≫= profile with
      | Some pr =>
          let p := set_saved (mergeProfile (saved closure) pr (saved p)) p in
          let p := set_draft (mergeProfile (saved closure) pr (draft p)) p in
          set_interestInput "" p
      | None => p
      end in
    let p := set_profileErrors ∅ p in
    let p := set_availability no_availability p in
    (afterSetUser data (set_isSaving false p),
     userSignal data ++ [Toasted "Profile updated successfully." "success"])
| Rejected failure =>
    let mapped := mappedErrors (err_fields failure) in
    let p := if noErrors mapped then p else set_profileErrors mapped p in
    (set_isSaving false p, [Toasted (shortMessageFromError failure) "error"])
end.

Definition reconcilePrivacy (closure : Page)
    (outcome : ApiOutcome (option SaveData)) (p : Page) : Page * list Signal :=
match outcome with
| Resolved data =>
    let p :=
      match data ≫= profile with
      | Some pr =>
          let p := set_saved (mergePrivacy (saved closure) pr (saved p)) p in
          set_draft (mergePrivacy (saved closure) pr (draft p)) p
      | None =>
          set_saved
            (withPrivacy (visibility (draft closure))
               (showLocation (draft closure)) (allowSearch (draft closure))
               (saved p)) p
      end in
    (afterSetUser data (set_isSaving false p),
     userSignal data ++ [Toasted "Privacy settings updated." "success"])
| Rejected failure =>
    (set_isSaving false p, [Toasted (shortMessageFromError failure) "error"])
end.

Definition reconcileNotifications
    (outcome : ApiOutcome (option SaveData)) (p : Page) : Page * list Signal :=
match outcome with
| Resolved data =>
    let p := applyNotificationPrefs (nullish (data ≫= notifications) noPrefs) p in
    (set_isSaving false p,
     [Toasted "Notification preferences updated." "success"])
| Rejected failure =>
    (set_isSaving false p, [Toasted (shortMessageFromError failure) "error"])
end.

Definition reconcileAppearance (closure : Page)
    (outcome : ApiOutcome (option SaveData)) (p : Page) : Page * list Signal :=
match outcome with
| Resolved data =>
    let p :=
      match data ≫= profile with
      | Some pr =>
          let t := str_or (r_theme pr)
                     (str_or (Some (theme (draft closure))) "system") in
          set_draft (withTheme t (draft p)) (set_saved (withTheme t (saved p)) p)
      | None => set_saved (withTheme (theme (draft closure)) (saved p)) p
      end in
    (afterSetUser data (set_isSaving false p),
     userSignal data ++ [Toasted "Appearance updated." "success"])
| Rejected failure =>
    (set_isSaving false p, [Toasted (shortMessageFromError failure) "error"])
end.

Record Outcome : Type := {
final : Page;
requests : list Request;
signals : list Signal
}.

Definition settle (request : Request) (r : Page * list Signal) : Outcome :=
{| final := fst r; requests := [request]; signals := snd r |}.

(** [handleSave], run to its end against an oracle. *)
Definition handleSave (token : string) (o : Oracle) (p : Page) : Outcome :=
if negb (isDirty p) then {| final := p; requests := []; signals := [] |}
else if String.eqb (activeSection p) "profile" then
  let nextErrors := validateProfile (draft p) in
  let p1 := set_profileErrors nextErrors p in
  if negb (noErrors nextErrors) then
    {| final := p1; requests := []; signals := [] |}
  else
    let r := recheck token o (set_isSaving true p1) in
    if negb (validateAvailability r) then
      {| final := set_isSaving false (after r); requests := lookups r;
         signals := [] |}
    else if negb (truthy token) then
      {| final := set_isSaving false (after r); requests := lookups r;
         signals := [sessionExpired] |}
    else
      let request := PATCH_profile (profilePayload (draft p)) token in
      let done := reconcileProfile p (patch o) (meanwhile o (after r)) in
      {| final := fst done; requests := lookups r ++ [request];
         signals := snd done |}
else if String.eqb (activeSection p) "privacy" then
  if negb (truthy token) then
    {| final := set_isSaving false (set_isSaving true p); requests := [];
       signals := [sessionExpired] |}
  else
    settle (PATCH_profile (privacyPayload (saved p) (draft p)) token)
      (reconcilePrivacy p (patch o) (meanwhile o (set_isSaving true p)))
else if String.eqb (activeSection p) "notifications" then
  if negb (truthy token) then
    {| final := p; requests := []; signals := [sessionExpired] |}
  else
    settle (PATCH_notifications (notificationsPayload (draft p)) token)
      (reconcileNotifications (patch o) (meanwhile o (set_isSaving true p)))
else if String.eqb (activeSection p) "appearance" then
  if negb (truthy token) then
    {| final := p; requests := []; signals := [sessionExpired] |}
  else
    settle (PATCH_profile (appearancePayload (saved p) (draft p)) token)
      (reconcileAppearance p (patch o) (meanwhile o (set_isSaving true p)))
else
  (* the timer of 650 ms *)
  let q := meanwhile o (set_isSaving true p) in
  {| final := set_isSaving false (set_saved (draft p) q); requests := [];
     signals := [Toasted "Settings saved." "success"] |}.

Definition isMutating (request : Request) : bool :=
match request with
| PATCH_profile _ _ | PATCH_notifications _ _ => true
| GET_username_lookup _ _ | GET_profile_url_lookup _ _ => false
end.

End Flow.

End Save.

Import Save.

(* ===================================================================== *)
(** ** The profile view: [mapUserToProfile], [buildDefaults]              *)
(* ===================================================================== *)

Module ProfileView.

(** The user object of the session, as far as the pages read it.  Several
    properties may come in snake case or in camel case.  [None] is a
    property that is absent or [null]; [u_interests] is [None] whenever
    the property is not an array. *)
Record UserObject : Type := {
u_name : option string;
u_username : option string;
u_profile_url : option string;
u_profileUrl : option string;
u_status : option string;
u_bio : option string;
u_location : option string;
u_interests : option (list string);
u_photo_url : option string;
u_photoUrl : option string;
u_visibility : option string;
u_theme : option string;
u_show_location : option bool;
u_showLocation : option bool;
u_allow_search : option bool;
u_allowSearch : option bool
}.

(** The object [mapUserToProfile] returns; [sampleProfile] has the same
    shape but no theme. *)
Record View : Type := {
v_displayName : string;
v_username : string;
v_profileUrl : string;
v_status : string;
v_bio : string;
v_location : string;
v_interests : list string;
v_photoUrl : string;
v_visibility : string;
v_theme : option string;
v_showLocation : bool;
v_allowSearch : bool
}.

Definition mapUserToProfile (user : option UserObject) : option View :=
match user with
| None => None
| Some user =>
    Some
      {| v_displayName := str_or (u_name user) (str_or (u_username user) "Profile");
         v_username := str_or (u_username user) "";
         v_profileUrl :=
           str_or (u_profile_url user)
             (str_or (u_profileUrl user) (str_or (u_username user) ""));
         v_status := str_or (u_status user) "";
         v_bio := str_or (u_bio user) "";
         v_location := str_or (u_location user) "";
         v_interests := nullish (u_interests user) [];
         v_photoUrl := str_or (u_photo_url user) (str_or (u_photoUrl user) "");
         v_visibility := str_or (u_visibility user) "public";
         v_theme := Some (str_or (u_theme user) "system");
         v_showLocation :=
           nullish (u_show_location user) (nullish (u_showLocation user) false);
         v_allowSearch :=
           nullish (u_allow_search user) (nullish (u_allowSearch user) false) |}
end.

Definition sampleProfile : View :=
{| v_displayName := "Mika Franco"; v_username := "mikefranco";
   v_profileUrl := "mikefranco";
   v_status := "Building quietly this week.";
   v_bio := "Builder. Minimalist. Learning in public. Sharing what matters and staying calm through the noise.";
   v_location := "Lapu-Lapu City, Cebu";
   v_interests := [ "Quiet systems"; "Product design"; "Minimal living";
                    "City walks"; "Collaboration" ];
   v_photoUrl := ""; v_visibility := "public"; v_theme := None;
   v_showLocation := true; v_allowSearch := true |}.

(** [mapUserToProfile(user) || sampleProfile] *)
Definition baseProfile (user : option UserObject) : View :=
default sampleProfile (mapUserToProfile user).

Definition buildDefaults (baseProfile : View) : Values :=
{| displayName := str_or (Some (v_displayName baseProfile)) "";
   username := str_or (Some (v_username baseProfile)) "";
   profileUrl :=
     str_or (Some (v_profileUrl baseProfile))
       (str_or (Some (v_username baseProfile)) "");
   bio := str_or (Some (v_bio baseProfile)) "";
   location := str_or (Some (v_location baseProfile)) "";
   interests := v_interests baseProfile;
   status := str_or (Some (v_status baseProfile)) "";
   photoUrl := str_or (Some (v_photoUrl baseProfile)) "";
   visibility := str_or (Some (v_visibility baseProfile)) "public";
   showLocation := v_showLocation baseProfile && truthy (v_location baseProfile);
   allowSearch := v_allowSearch baseProfile;
   emailNotifications := true;
   productUpdates := true;
   newFollowerAlerts := false;
   weeklyDigest := false;
   pauseNotifications := "off";
   theme := str_or (v_theme baseProfile) "system" |}.

(** The defaults of the settings page for a user object. *)
#[global] Instance pageDefaults : PageDefaults UserObject :=
fun user => buildDefaults (baseProfile (Some user)).

End ProfileView.

Import ProfileView.

Lemma str_or_some_empty (s : string) : str_or (Some s) "" = s.
Proof. now destruct s. Qed.

Lemma str_or_empty (a : option string) : str_or a "" = nullish a "".
Proof. destruct a as [s|]; [apply str_or_some_empty | reflexivity]. Qed.

Lemma str_or_truthy (s fallback : string) :
  s <> "" -> str_or (Some s) fallback = s.
Proof. intros H. apply truthy_true_iff in H. simpl. now rewrite H. Qed.

Lemma noErrors_spec errors : noErrors errors = true <-> errors = ∅.
Proof. unfold noErrors. apply bool_decide_eq_true. Qed.

Lemma isError_false s : isError s = false <-> s <> error.
Proof. unfold isError. apply bool_decide_eq_false. Qed.

Lemma validateAvailability_spec (r : Rechecked) :
  validateAvailability r = true <->
  usernameStatus r <> error /\ profileUrlStatus r <> error.
Proof.
  unfold validateAvailability.
  rewrite andb_true_iff, !negb_true_iff, !isError_false. reflexivity.
Qed.

(** *** The checker touches nothing but its flags and counters *)

Lemma startCheck_frame savedValues token field value p :
  let '(q, c) := startCheck savedValues token field value p in
  draft q = draft p /\ saved q = saved p
  /\ Forall (fun request => isMutating request = false) (requestOf c).
Proof.
  unfold startCheck.
  destruct (checkAvailability_start savedValues token field value p)
    as [q result|q id request] eqn:Hs.
  - unfold checkAvailability_start in Hs.
    repeat match type of Hs with
           | context [if ?b then _ else _] => destruct b
           end; try discriminate; injection Hs as <- _; repeat split;
      constructor.
  - pose proof Hs as Hinv. apply start_lookup_inv in Hinv as (_ & _ & _ & -> & _).
    unfold checkAvailability_start in Hs.
    repeat match type of Hs with
           | context [if ?b then _ else _] => destruct b
           end; try discriminate.
    injection Hs as <- _. repeat split.
    constructor; [now destruct field | constructor].
Qed.

Section FlowFacts.

Context {User : Type}.
Implicit Types (o : @Oracle User) (p : Page).

Lemma finishCheck_frame o field c outcome p :
  (forall q, draft (meanwhile o q) = draft q) ->
  draft (fst (finishCheck o field c outcome p)) = draft p.
Proof.
  intros Hm. destruct c as [result|id request]; simpl; [reflexivity|].
  unfold checkAvailability_resume. rewrite <- (Hm p).
  destruct outcome as [[[[|]]|]|failure];
    destruct (N.eqb _ _); reflexivity.
Qed.

Lemma recheck_lookups token o p :
  Forall (fun request => isMutating request = false) (lookups (recheck token o p)).
Proof.
  unfold recheck.
  pose proof (startCheck_frame (saved p) token f_username (username (draft p)) p)
    as H1.
  destruct (startCheck (saved p) token f_username (username (draft p)) p)
    as [p1 cu].
  pose proof (startCheck_frame (saved p) token f_profileUrl
                (profileUrl (draft p)) p1) as H2.
  destruct (startCheck (saved p) token f_profileUrl (profileUrl (draft p)) p1)
    as [p2 cp].
  destruct H1 as (_ & _ & H1), H2 as (_ & _ & H2).
  destruct (usernameFirst o);
    repeat match goal with
           | |- context [finishCheck ?a ?b ?c ?d ?e] =>
               destruct (finishCheck a b c d e)
           end; simpl; apply Forall_app; split; assumption.
Qed.

Lemma recheck_draft token o p :
  (forall q, draft (meanwhile o q) = draft q) ->
  draft (after (recheck token o p)) = draft p.
Proof.
  intros Hm. unfold recheck.
  pose proof (startCheck_frame (saved p) token f_username (username (draft p)) p)
    as H1.
  destruct (startCheck (saved p) token f_username (username (draft p)) p)
    as [p1 cu].
  pose proof (startCheck_frame (saved p) token f_profileUrl
                (profileUrl (draft p)) p1) as H2.
  destruct (startCheck (saved p) token f_profileUrl (profileUrl (draft p)) p1)
    as [p2 cp].
  destruct H1 as (Hd1 & _ & _), H2 as (Hd2 & _ & _).
  destruct (usernameFirst o).
  - pose proof (finishCheck_frame o f_username cu (usernameLookup o) p2 Hm) as Ha.
    destruct (finishCheck o f_username cu (usernameLookup o) p2) as [q1 su].
    pose proof (finishCheck_frame o f_profileUrl cp (profileUrlLookup o) q1 Hm)
      as Hb.
    destruct (finishCheck o f_profileUrl cp (profileUrlLookup o) q1) as [q2 sp].
    simpl in *. congruence.
  - pose proof (finishCheck_frame o f_profileUrl cp (profileUrlLookup o) p2 Hm)
      as Ha.
    destruct (finishCheck o f_profileUrl cp (profileUrlLookup o) p2) as [q1 sp].
    pose proof (finishCheck_frame o f_username cu (usernameLookup o) q1 Hm) as Hb.
    destruct (finishCheck o f_username cu (usernameLookup o) q1) as [q2 su].
    simpl in *. congruence.
Qed.

End FlowFacts.

(** C5.  A save of the profile section sends its mutating request only if
    the section is dirty, [validateProfile] finds no error, and the
    re-check of both handles returns no [error].  When the section is not
    dirty the call does nothing at all.  When validation fails nothing is
    sent and draft and saved stay as they are.  When a re-check returns
    [error] only the lookups have been sent, and the handler has not
    touched the draft.  With all three met and a session token, the
    request goes out after the lookups, carrying the drafted values. *)
Theorem profile_save_gate {User : Type} `{!PageDefaults User}
    (token : string) (o : @Oracle User) (p : Page) :
  activeSection p = "profile" ->
  let out := handleSave token o p in
  let r := recheck token o
             (set_isSaving true
                (set_profileErrors (validateProfile (draft p)) p)) in
  ((exists request, In request (requests out) /\ isMutating request = true) ->
   isDirty p = true /\ validateProfile (draft p) = ∅
   /\ usernameStatus r <> error /\ profileUrlStatus r <> error)
  /\ (isDirty p = false ->
      out = {| final := p; requests := []; signals := [] |})
  /\ (isDirty p = true -> validateProfile (draft p) <> ∅ ->
      requests out = [] /\ draft (final out) = draft p
      /\ saved (final out) = saved p)
  /\ (isDirty p = true -> validateProfile (draft p) = ∅ ->
      usernameStatus r = error \/ profileUrlStatus r = error ->
      Forall (fun request => isMutating request = false) (requests out)
      /\ ((forall q, draft (meanwhile o q) = draft q) ->
          draft (final out) = draft p))
  /\ (isDirty p = true -> validateProfile (draft p) = ∅ ->
      usernameStatus r <> error -> profileUrlStatus r <> error ->
      token <> "" ->
      requests out
      = lookups r ++ [PATCH_profile (profilePayload (draft p)) token]).
Proof.
  intros Hsec out r.
  assert (Hout : out =
    if negb (isDirty p) then {| final := p; requests := []; signals := [] |}
    else if negb (noErrors (validateProfile (draft p))) then
      {| final := set_profileErrors (validateProfile (draft p)) p;
         requests := []; signals := [] |}
    else if negb (validateAvailability r) then
      {| final := set_isSaving false (after r); requests := lookups r;
         signals := [] |}
    else if negb (truthy token) then
      {| final := set_isSaving false (after r); requests := lookups r;
         signals := [sessionExpired] |}
    else
      {| final := fst (reconcileProfile p (patch o) (meanwhile o (after r)));
         requests := lookups r
                     ++ [PATCH_profile (profilePayload (draft p)) token];
         signals := snd (reconcileProfile p (patch o) (meanwhile o (after r))) |}).
  { subst out r. unfold handleSave. rewrite Hsec. reflexivity. }
  pose proof (recheck_lookups token o
                (set_isSaving true
                   (set_profileErrors (validateProfile (draft p)) p))) as Hget.
  fold r in Hget.
  assert (Hnone : forall request,
            In request (lookups r) -> isMutating request = true -> False).
  { intros request Hin Hmut. rewrite List.Forall_forall in Hget.
    rewrite (Hget request Hin) in Hmut. discriminate. }
  rewrite Hout. clear Hout.
  destruct (isDirty p) eqn:Hdirty; simpl negb; cbv iota.
  2:{ split; [intros (request & [] & _)|].
      split; [reflexivity|]. repeat split; discriminate. }
  destruct (noErrors (validateProfile (draft p))) eqn:Hvalid; simpl negb; cbv iota.
  2:{ assert (Hne : validateProfile (draft p) <> ∅).
      { intros He. apply noErrors_spec in He. congruence. }
      split; [intros (request & [] & _)|].
      split; [discriminate|]. split; [intros _ _; repeat split|].
      split; intros _ He; contradiction. }
  apply noErrors_spec in Hvalid.
  destruct (validateAvailability r) eqn:Hcan; simpl negb; cbv iota.
  2:{ assert (Hno : ~ (usernameStatus r <> error /\ profileUrlStatus r <> error)).
      { intros Hok. apply validateAvailability_spec in Hok. congruence. }
      split; [intros (request & Hin & Hmut); exfalso; eauto|].
      split; [discriminate|]. split; [intros _ Hne; contradiction|].
      split.
      - intros _ _ _. split; [exact Hget|]. intros Hm.
        exact (recheck_draft token o _ Hm).
      - intros _ _ Hu Hp. exfalso. apply Hno. now split. }
  apply validateAvailability_spec in Hcan as [Hu Hp].
  split; [intros _; repeat split; assumption|].
  split; [discriminate|]. split; [intros _ Hne; contradiction|].
  split; [intros _ _ [He|He]; contradiction|].
  intros _ _ _ _ Htok. apply truthy_true_iff in Htok. rewrite Htok. reflexivity.
Qed.

(** A page whose drafted username is the reserved [admin]. *)
Definition reservedDraftPage : Page :=
  set_draft
    {| displayName := "Mika Franco"; username := "admin";
       profileUrl := "mikefranco"; bio := "Builder.";
       location := "Lapu-Lapu City, Cebu"; interests := [ "Quiet systems" ];
       status := "Building quietly this week."; photoUrl := "";
       visibility := "public"; showLocation := true; allowSearch := true;
       emailNotifications := true; productUpdates := true;
       newFollowerAlerts := false; weeklyDigest := false;
       pauseNotifications := "off"; theme := "system" |}
    samplePage.

Definition quietOracle : @Oracle UserObject :=
  {| usernameLookup := Resolved (Some {| available := true |});
     profileUrlLookup := Resolved (Some {| available := true |});
     usernameFirst := true;
     patch := Resolved None;
     meanwhile := fun p => p |}.

Lemma profile_save_gate_witness :
  Forall (fun request => isMutating request = false)
         (requests (handleSave "t0k3n" quietOracle reservedDraftPage))
  /\ draft (final (handleSave "t0k3n" quietOracle reservedDraftPage))
     = draft reservedDraftPage.
Proof.
  destruct (proj1 (proj2 (proj2 (proj2
              (profile_save_gate "t0k3n" quietOracle reservedDraftPage eq_refl))))
              eq_refl eq_refl (or_introl eq_refl)) as [Hnone Hdraft].
  split; [exact Hnone | apply Hdraft; reflexivity].
Defined.

(** *** What saved and draft hold after a save *)

(** Two settings objects that can differ in the notification preferences
    only. *)
Definition agreeButNotifications (s d : Values) : Prop :=
  displayName s = displayName d /\ username s = username d
  /\ profileUrl s = profileUrl d /\ bio s = bio d
  /\ location s = location d /\ interests s = interests d
  /\ status s = status d /\ photoUrl s = photoUrl d
  /\ visibility s = visibility d /\ showLocation s = showLocation d
  /\ allowSearch s = allowSearch d /\ theme s = theme d.

Lemma agreeButNotifications_clean s d :
  agreeButNotifications s d ->
  hasSectionChanges s d "profile" = false
  /\ hasSectionChanges s d "privacy" = false
  /\ hasSectionChanges s d "appearance" = false.
Proof.
  intros (H1 & H2 & H3 & H4 & H5 & H6 & H7 & H8 & H9 & H10 & H11 & H12).
  rewrite <- !not_true_iff_false.
  rewrite hasSectionChanges_profile, hasSectionChanges_privacy,
    hasSectionChanges_appearance.
  repeat split; intuition congruence.
Qed.

(** Two settings objects with the same notification preferences. *)
Definition sameNotifications (s d : Values) : Prop :=
  emailNotifications s = emailNotifications d
  /\ productUpdates s = productUpdates d
  /\ newFollowerAlerts s = newFollowerAlerts d
  /\ weeklyDigest s = weeklyDigest d
  /\ pauseNotifications s = pauseNotifications d.

(** Two settings objects that hold the same value in every field but
    the listed ones. *)
Definition agreeOutside (fields : list string) (s d : Values) : Prop :=
  forall field, ~ In field fields -> get s field = get d field.

Ltac agree_outside :=
  let field := fresh "field" in
  let Hout := fresh "Hout" in
  intros field Hout; unfold get; cbn [properties assoc];
  repeat match goal with
         | |- context [String.eqb field ?k] =>
             destruct (String.eqb_spec field k) as [->|?];
             [first [reflexivity | exfalso; apply Hout; simpl; tauto]|]
         end;
  reflexivity.

(** A settings object that holds what a user object says, field by
    field: the texts with their fallbacks, the snake-case switch before
    the camel-case one, and the notification preferences the page starts
    with. *)
Definition fromUser (u : UserObject) (v : Values) : Prop :=
  displayName v = str_or (u_name u) (str_or (u_username u) "Profile")
  /\ username v = str_or (u_username u) ""
  /\ profileUrl v
     = str_or (u_profile_url u) (str_or (u_profileUrl u) (str_or (u_username u) ""))
  /\ bio v = str_or (u_bio u) ""
  /\ location v = str_or (u_location u) ""
  /\ interests v = nullish (u_interests u) []
  /\ status v = str_or (u_status u) ""
  /\ photoUrl v = str_or (u_photo_url u) (str_or (u_photoUrl u) "")
  /\ visibility v = str_or (u_visibility u) "public"
  /\ showLocation v
     = nullish (u_show_location u) (nullish (u_showLocation u) false)
       && truthy (str_or (u_location u) "")
  /\ allowSearch v = nullish (u_allow_search u) (nullish (u_allowSearch u) false)
  /\ emailNotifications v = true
  /\ productUpdates v = true
  /\ newFollowerAlerts v = false
  /\ weeklyDigest v = false
  /\ pauseNotifications v = "off"
  /\ theme v = str_or (u_theme u) "system".

Lemma str_or_idem (a : option string) (b : string) :
  b <> "" -> str_or (Some (str_or a b)) b = str_or a b.
Proof.
  intros Hb. destruct a as [[|c s]|]; simpl; destruct b; try reflexivity;
    by destruct Hb.
Qed.

Lemma pageDefaults_fromUser (u : UserObject) : fromUser u (defaultsFor u).
Proof.
  unfold defaultsFor, pageDefaults, buildDefaults, baseProfile, fromUser.
  cbn [mapUserToProfile default from_option id
       displayName username profileUrl bio location
       interests status photoUrl visibility showLocation allowSearch
       emailNotifications productUpdates newFollowerAlerts weeklyDigest
       pauseNotifications theme v_displayName v_username v_profileUrl v_status
       v_bio v_location v_interests v_photoUrl v_visibility v_theme
       v_showLocation v_allowSearch].
  rewrite !str_or_some_empty.
  rewrite (str_or_idem (u_visibility u) "public") by discriminate.
  rewrite (str_or_idem (u_theme u) "system") by discriminate.
  repeat split.
  destruct (u_profile_url u) as [[|c s]|], (u_profileUrl u) as [[|c' s']|],
    (u_username u) as [[|c'' s'']|]; reflexivity.
Qed.

Lemma afterSetUser_user (data : @SaveData UserObject) (u : UserObject) (p : Page) :
  user data = Some u ->
  fromUser u (saved (afterSetUser (Some data) p))
  /\ draft (afterSetUser (Some data) p) = saved (afterSetUser (Some data) p).
Proof.
  intros Hu. unfold afterSetUser. cbn [mbind option_bind]. rewrite Hu.
  split; [apply pageDefaults_fromUser | reflexivity].
Qed.

Lemma afterSetUser_none (data : @SaveData UserObject) (p : Page) :
  user data = None -> afterSetUser (Some data) p = p.
Proof. intros Hu. unfold afterSetUser. cbn [mbind option_bind]. by rewrite Hu. Qed.

(** C2, as the code has it.  What saved and draft hold once a successful
    save and the render it causes are through.

    When the response carries a user object, the page rebuilds saved and
    draft from that object, whatever the section and whatever else the
    response holds: every field is what the user object says (the display
    name its [name], else its [username]), the notification preferences
    are the ones the page starts with, and draft equals saved.

    When it carries no user object but a profile object, saved and draft
    take the fields of the section from the profile object: after a
    profile save the eight profile fields each from the property of the
    same name (an absent or empty one gives the empty value), so a
    [display_name] in the response becomes [saved.displayName] whatever
    the draft held, and visibility, theme and the two switches with the
    saved values as fallbacks; after a privacy save visibility and the two
    switches; after an appearance save the theme, falling back to the
    drafted one.  Every other field is kept.

    When it carries neither, a profile save leaves saved as it was, while
    a privacy or appearance save copies the drafted values of the section
    into saved.

    After a notifications save each preference is the one the response
    names, the snake-case name before the camel-case one, and keeps its
    value when the response names neither. *)
Theorem save_reconciles_to_response
    (closure p : Page) (data : @SaveData UserObject) :
  (forall u, user data = Some u ->
     forall q,
       q = fst (reconcileProfile closure (Resolved (Some data)) p)
       \/ q = fst (reconcilePrivacy closure (Resolved (Some data)) p)
       \/ q = fst (reconcileAppearance closure (Resolved (Some data)) p) ->
       fromUser u (saved q) /\ draft q = saved q)
  /\ (forall pr, user data = None -> profile data = Some pr ->
        let q := fst (reconcileProfile closure (Resolved (Some data)) p) in
        displayName (saved q) = nullish (r_display_name pr) ""
        /\ username (saved q) = nullish (r_username pr) ""
        /\ profileUrl (saved q) = nullish (r_profile_url pr) ""
        /\ bio (saved q) = nullish (r_bio pr) ""
        /\ location (saved q) = nullish (r_location pr) ""
        /\ interests (saved q) = nullish (r_interests pr) []
        /\ status (saved q) = nullish (r_status pr) ""
        /\ photoUrl (saved q) = nullish (r_photo_url pr) ""
        /\ visibility (saved q)
           = str_or (r_visibility pr)
               (str_or (Some (visibility (saved closure))) "public")
        /\ theme (saved q)
           = str_or (r_theme pr) (str_or (Some (theme (saved closure))) "system")
        /\ showLocation (saved q)
           = flag (r_show_location pr)
             && truthy (str_or (r_location pr) (location (saved closure)))
        /\ allowSearch (saved q)
           = nullish (r_allow_search pr) (allowSearch (saved closure))
        /\ agreeButNotifications (saved q) (draft q)
        /\ sameNotifications (saved q) (saved p)
        /\ sameNotifications (draft q) (draft p)
        /\ (forall name, r_display_name pr = Some name ->
              displayName (saved q) = name /\ displayName (draft q) = name))
  /\ (forall pr, user data = None -> profile data = Some pr ->
        let q := fst (reconcilePrivacy closure (Resolved (Some data)) p) in
        visibility (saved q) = str_or (r_visibility pr) "public"
        /\ allowSearch (saved q) = flag (r_allow_search pr)
        /\ showLocation (saved q)
           = flag (r_show_location pr)
             && truthy (str_or (r_location pr) (location (saved closure)))
        /\ visibility (draft q) = visibility (saved q)
        /\ allowSearch (draft q) = allowSearch (saved q)
        /\ showLocation (draft q) = showLocation (saved q)
        /\ agreeOutside ["visibility"; "showLocation"; "allowSearch"]
             (saved q) (saved p)
        /\ agreeOutside ["visibility"; "showLocation"; "allowSearch"]
             (draft q) (draft p))
  /\ (forall pr, user data = None -> profile data = Some pr ->
        let q := fst (reconcileAppearance closure (Resolved (Some data)) p) in
        theme (saved q)
        = str_or (r_theme pr) (str_or (Some (theme (draft closure))) "system")
        /\ theme (draft q) = theme (saved q)
        /\ (forall t, r_theme pr = Some t -> t <> "" -> theme (saved q) = t)
        /\ agreeOutside ["theme"] (saved q) (saved p)
        /\ agreeOutside ["theme"] (draft q) (draft p))
  /\ (user data = None -> profile data = None ->
      (let q := fst (reconcileProfile closure (Resolved (Some data)) p) in
       saved q = saved p /\ draft q = draft p)
      /\ (let q := fst (reconcilePrivacy closure (Resolved (Some data)) p) in
          visibility (saved q) = visibility (draft closure)
          /\ showLocation (saved q) = showLocation (draft closure)
          /\ allowSearch (saved q) = allowSearch (draft closure)
          /\ agreeOutside ["visibility"; "showLocation"; "allowSearch"]
               (saved q) (saved p)
          /\ draft q = draft p)
      /\ (let q := fst (reconcileAppearance closure (Resolved (Some data)) p) in
          theme (saved q) = theme (draft closure)
          /\ agreeOutside ["theme"] (saved q) (saved p)
          /\ draft q = draft p))
  /\ (let q := fst (reconcileNotifications (Resolved (Some data)) p) in
      let prefs := nullish (notifications data) noPrefs in
      emailNotifications (saved q)
      = nullish (n_email_notifications prefs)
          (nullish (n_emailNotifications prefs) (emailNotifications (saved p)))
      /\ productUpdates (saved q)
         = nullish (n_product_updates prefs)
             (nullish (n_productUpdates prefs) (productUpdates (saved p)))
      /\ newFollowerAlerts (saved q)
         = nullish (n_new_follower_alerts prefs)
             (nullish (n_newFollowerAlerts prefs) (newFollowerAlerts (saved p)))
      /\ weeklyDigest (saved q)
         = nullish (n_weekly_digest prefs)
             (nullish (n_weeklyDigest prefs) (weeklyDigest (saved p)))
      /\ pauseNotifications (saved q)
         = nullish (n_pause_notifications prefs)
             (nullish (n_pauseNotifications prefs) (pauseNotifications (saved p)))
      /\ emailNotifications (draft q)
         = nullish (n_email_notifications prefs)
             (nullish (n_emailNotifications prefs) (emailNotifications (draft p)))
      /\ productUpdates (draft q)
         = nullish (n_product_updates prefs)
             (nullish (n_productUpdates prefs) (productUpdates (draft p)))
      /\ newFollowerAlerts (draft q)
         = nullish (n_new_follower_alerts prefs)
             (nullish (n_newFollowerAlerts prefs) (newFollowerAlerts (draft p)))
      /\ weeklyDigest (draft q)
         = nullish (n_weekly_digest prefs)
             (nullish (n_weeklyDigest prefs) (weeklyDigest (draft p)))
      /\ pauseNotifications (draft q)
         = nullish (n_pause_notifications prefs)
             (nullish (n_pauseNotifications prefs) (pauseNotifications (draft p)))
      /\ agreeButNotifications (saved q) (saved p)
      /\ agreeButNotifications (draft q) (draft p)
      /\ (notifications data = None -> saved q = saved p /\ draft q = draft p)).
Proof.
  split; [|split; [|split; [|split; [|split]]]].
  - intros u Hu q [-> | [-> | ->]].
    + unfold reconcileProfile. cbn [fst]. by apply afterSetUser_user.
    + unfold reconcilePrivacy. cbn [fst]. by apply afterSetUser_user.
    + unfold reconcileAppearance. cbn [fst]. by apply afterSetUser_user.
  - intros pr Hu Hpr q. subst q. unfold reconcileProfile. cbn [fst].
    rewrite afterSetUser_none by exact Hu.
    cbn [mbind option_bind]. rewrite Hpr. simpl. rewrite !str_or_empty.
    repeat (split; [reflexivity|]).
    split; [by repeat split|]. split; [by repeat split|].
    split; [by repeat split|].
    intros name Hname. rewrite Hname. by split.
  - intros pr Hu Hpr q. subst q. unfold reconcilePrivacy. cbn [fst].
    rewrite afterSetUser_none by exact Hu.
    cbn [mbind option_bind]. rewrite Hpr. simpl.
    repeat (split; [reflexivity|]). split; agree_outside.
  - intros pr Hu Hpr q. subst q. unfold reconcileAppearance. cbn [fst].
    rewrite afterSetUser_none by exact Hu.
    cbn [mbind option_bind]. rewrite Hpr. simpl.
    repeat (split; [reflexivity|]).
    split; [intros t Ht Hne; rewrite Ht; by apply str_or_truthy|].
    split; agree_outside.
  - intros Hu Hnone. unfold reconcileProfile, reconcilePrivacy, reconcileAppearance.
    cbn [fst]. rewrite !afterSetUser_none by exact Hu.
    cbn [mbind option_bind]. rewrite Hnone. simpl.
    split; [by split|]. split.
    + repeat (split; [reflexivity|]). split; [agree_outside | reflexivity].
    + split; [reflexivity|]. split; [agree_outside | reflexivity].
  - cbv zeta. unfold reconcileNotifications. cbn [fst mbind option_bind].
    simpl. repeat (split; [reflexivity|]).
    split; [by repeat split|]. split; [by repeat split|].
    intros ->. simpl. by destruct (saved p), (draft p).
Qed.

(** A response whose profile carries another display name than the one
    drafted, and a response that confirms nothing. *)
Definition renamedProfile : ProfileData :=
  {| r_display_name := Some "Mika A. Franco"; r_username := Some "mikefranco";
     r_profile_url := Some "mikefranco"; r_status := None;
     r_bio := Some "Builder."; r_location := None; r_interests := None;
     r_photo_url := None; r_visibility := None; r_theme := None;
     r_show_location := None; r_allow_search := None |}.

Definition renamedData : @SaveData UserObject :=
  {| profile := Some renamedProfile; notifications := None; user := None |}.

(** A user object, and a response that carries it beside the renamed
    profile. *)
Definition mika : UserObject :=
{| u_name := Some "Mika Franco"; u_username := Some "mikefranco";
   u_profile_url := None; u_profileUrl := None;
   u_status := Some "Building quietly this week.";
   u_bio := None; u_location := Some "Cebu"; u_interests := None;
   u_photo_url := None; u_photoUrl := None;
   u_visibility := Some "private"; u_theme := None;
   u_show_location := Some true; u_showLocation := None;
   u_allow_search := None; u_allowSearch := None |}.

Definition renamedWithUser : @SaveData UserObject :=
  {| profile := Some renamedProfile; notifications := None; user := Some mika |}.

Definition bareData : @SaveData UserObject :=
  {| profile := None; notifications := None; user := None |}.

(** The privacy section with the visibility switched to private and not
    yet saved. *)
Definition privacyPage : Page :=
  set_activeSection "privacy"
    (set_draft
       (withPrivacy "private" (showLocation sampleDefaults)
          (allowSearch sampleDefaults) sampleDefaults)
       samplePage).

Definition bareOracle : @Oracle UserObject :=
  {| usernameLookup := Resolved None; profileUrlLookup := Resolved None;
     usernameFirst := true;
     patch := Resolved (Some bareData);
     meanwhile := fun p => p |}.

Lemma save_reconciles_to_response_witness :
  displayName (draft samplePage) = "Mika Franco"
  /\ displayName
       (saved (fst (reconcileProfile samplePage (Resolved (Some renamedData))
                      samplePage)))
     = "Mika A. Franco".
Proof.
  split; [reflexivity|].
  destruct (proj1 (proj2 (save_reconciles_to_response samplePage samplePage
                            renamedData))
              renamedProfile eq_refl eq_refl)
    as (_ & _ & _ & _ & _ & _ & _ & _ & _ & _ & _ & _ & _ & _ & _ & Hname).
  exact (proj1 (Hname "Mika A. Franco" eq_refl)).
Defined.

(** The claim of C2 fails for a privacy save that the server answers
    without a profile object: the request goes out, the response confirms
    no value, and saved takes the drafted visibility. *)
Lemma privacy_save_promotes_draft :
  let out := handleSave "t0k3n" bareOracle privacyPage in
  visibility (saved privacyPage) = "public"
  /\ visibility (draft privacyPage) = "private"
  /\ requests out
     = [PATCH_profile
          (privacyPayload (saved privacyPage) (draft privacyPage)) "t0k3n"]
  /\ patch bareOracle = Resolved (Some bareData)
  /\ profile bareData = None
  /\ visibility (saved (final out)) = "private".
Proof. repeat split; reflexivity. Qed.

(** The same through the whole handler: a profile save that the server
    answers with another display name ends with that name in saved and in
    draft. *)
Example profile_save_takes_server_name :
  let o := {| usernameLookup := Resolved (Some {| available := true |});
              profileUrlLookup := Resolved (Some {| available := true |});
              usernameFirst := false;
              patch := Resolved (Some renamedData);
              meanwhile := fun p => p |} in
  let out := handleSave "t0k3n" o samplePage in
  requests out = [PATCH_profile (profilePayload (draft samplePage)) "t0k3n"]
  /\ displayName (saved (final out)) = "Mika A. Franco"
  /\ displayName (draft (final out)) = "Mika A. Franco"
  /\ isDirty (final out) = false.
Proof. repeat split; reflexivity. Qed.

(** With a user object in the response the page rebuilds saved and draft
    from it: the display name is the user's [name], the drafted bio is
    gone, and the notification preferences are the ones the page starts
    with. *)
Example profile_save_with_user_rebuilds :
  let o := {| usernameLookup := Resolved (Some {| available := true |});
              profileUrlLookup := Resolved (Some {| available := true |});
              usernameFirst := false;
              patch := Resolved (Some renamedWithUser);
              meanwhile := fun p => p |} in
  let out := handleSave "t0k3n" o samplePage in
  r_display_name renamedProfile = Some "Mika A. Franco"
  /\ displayName (saved (final out)) = "Mika Franco"
  /\ bio (saved (final out)) = ""
  /\ visibility (saved (final out)) = "private"
  /\ draft (final out) = saved (final out)
  /\ signals out
     = [UserSet mika; Toasted "Profile updated successfully." "success"].
Proof. repeat split; reflexivity. Qed.


(* ===================================================================== *)
(** * Further functions of the front end                                  *)
(* ===================================================================== *)

(** ** Error maps built by conditional assignment                         *)

Lemma insert_if_empty (c : bool) (k v : string) (m : gmap string string) :
  (if c then <[k := v]> m else m) = ∅ <-> c = false /\ m = ∅.
Proof.
  destruct c; split.
  - intros H. exfalso. by apply insert_non_empty in H.
  - intros [H _]. discriminate.
  - intros H. by split.
  - intros [_ H]. exact H.
Qed.

Lemma insert_if2_empty (c1 c2 : bool) (k v1 v2 : string) (m : gmap string string) :
  (if c1 then <[k := v1]> m else if c2 then <[k := v2]> m else m) = ∅
  <-> c1 = false /\ c2 = false /\ m = ∅.
Proof.
  destruct c1.
  - split; [intros H; exfalso; by apply insert_non_empty in H|].
    intros [H _]. discriminate.
  - rewrite insert_if_empty. tauto.
Qed.

Lemma lookup_insert_if (c : bool) (k k' v : string) (m : gmap string string) :
  k <> k' -> (if c then <[k := v]> m else m) !! k' = m !! k'.
Proof. intros Hne. destruct c; [by rewrite lookup_insert_ne | reflexivity]. Qed.

Lemma lookup_insert_if2 (c1 c2 : bool) (k k' v1 v2 : string)
    (m : gmap string string) :
  k <> k' ->
  (if c1 then <[k := v1]> m else if c2 then <[k := v2]> m else m) !! k'
  = m !! k'.
Proof.
  intros Hne. destruct c1; [by rewrite lookup_insert_ne|].
  by apply lookup_insert_if.
Qed.

Lemma passwordPattern_spec s :
  test passwordPattern s = true <->
  8 <= String.length s
  /\ Forall (fun c => not_line_terminator c = true) (list_ascii_of_string s).
Proof.
  unfold test, passwordPattern. rewrite accepts_spec.
  rewrite <- length_list_ascii_of_string, Forall_forallb.
  generalize (list_ascii_of_string s) as l. intros l. split.
  - intros H. apply lang_cat_inv in H as (l1 & l2 & -> & H1 & H2).
    apply lang_power_class in H1 as [Hlen Hall1].
    apply lang_star_class in H2.
    rewrite length_app, forallb_app, Hall1, H2. split; [lia | reflexivity].
  - intros [Hlen Hall]. rewrite <- (firstn_skipn 8 l) in *.
    rewrite forallb_app in Hall. apply andb_prop in Hall as [Ha Hb].
    constructor.
    + apply lang_power_class. split; [|assumption].
      rewrite length_firstn. rewrite length_app, length_firstn, length_skipn in Hlen.
      lia.
    + now apply lang_star_class.
Qed.

(* ===================================================================== *)
(** ** The sign-up, password and email forms                              *)
(* ===================================================================== *)

Module Forms.

(** The values of [SignupForm]. *)
Record SignupValues : Type := {
su_name : string;
su_username : string;
su_email : string;
su_password : string;
su_confirm : string;
su_agree : bool
}.

Definition validateSignup (values : SignupValues) : gmap string string :=
let nextErrors : gmap string string := ∅ in
let name := trim (su_name values) in
let username := trim (su_username values) in
let email := toLowerCase (trim (su_email values)) in
let nextErrors :=
  if negb (truthy name) then <["name" := "Name is required."]> nextErrors
  else if String.length name <? 2 then
    <["name" := "Name must be at least 2 characters."]> nextErrors
  else nextErrors in
let nextErrors :=
  if negb (truthy username) then
    <["username" := "Choose a username."]> nextErrors
  else if negb (test usernamePattern username) then
    <["username" := "Use 3-30 letters, numbers, or ._- in your username."]>
      nextErrors
  else nextErrors in
let nextErrors :=
  if negb (truthy email) then <["email" := "Email is required."]> nextErrors
  else if negb (test emailPattern email) then
    <["email" := "Enter a valid email address."]> nextErrors
  else nextErrors in
let nextErrors :=
  if negb (truthy (su_password values)) then
    <["password" := "Create a password."]> nextErrors
  else if String.length (su_password values) <? 8 then
    <["password" := "Password must be at least 8 characters."]> nextErrors
  else nextErrors in
let nextErrors :=
  if negb (truthy (su_confirm values)) then
    <["confirm" := "Confirm your password."]> nextErrors
  else if negb (String.eqb (su_password values) (su_confirm values)) then
    <["confirm" := "Passwords do not match."]> nextErrors
  else nextErrors in
let nextErrors :=
  if negb (su_agree values) then
    <["agree" := "Agree to Terms & Privacy."]> nextErrors
  else nextErrors in
nextErrors.

Example validateSignup_ok :
  validateSignup
    {| su_name := " Mika Franco "; su_username := "mikefranco";
       su_email := " Mika@Example.org"; su_password := "correct horse";
       su_confirm := "correct horse"; su_agree := true |} = ∅.
Proof. reflexivity. Qed.

Example validateSignup_mismatch :
  validateSignup
    {| su_name := "M"; su_username := "mikefranco";
       su_email := "mika@example.org"; su_password := "correct horse";
       su_confirm := "correct horse "; su_agree := true |}
  = <["confirm" := "Passwords do not match."]>
      (<["name" := "Name must be at least 2 characters."]> ∅).
Proof. reflexivity. Qed.

(** The password form of the account section: the error map
    [handlePasswordSave] builds, and the three values derived from the
    draft on every render. *)
Definition passwordErrorsOf (d : PasswordDraft) : gmap string string :=
let nextErrors : gmap string string := ∅ in
let nextErrors :=
  if negb (truthy (current d)) then
    <["current" := "Enter your current password."]> nextErrors
  else nextErrors in
let nextErrors :=
  if negb (truthy (next d)) then
    <["next" := "Create a new password."]> nextErrors
  else if negb (test passwordPattern (next d)) then
    <["next" := "Use at least 8 characters."]> nextErrors
  else nextErrors in
let nextErrors :=
  if negb (truthy (confirm d)) then
    <["confirm" := "Confirm your new password."]> nextErrors
  else if negb (String.eqb (confirm d) (next d)) then
    <["confirm" := "Passwords do not match."]> nextErrors
  else nextErrors in
nextErrors.

Definition isPasswordValid (d : PasswordDraft) : bool :=
test passwordPattern (next d).

(** [passwordDraft.confirm && passwordDraft.confirm === passwordDraft.next],
    as a truth value. *)
Definition isPasswordMatch (d : PasswordDraft) : bool :=
truthy (confirm d) && String.eqb (confirm d) (next d).

Definition canUpdatePassword (d : PasswordDraft) : bool :=
truthy (current d) && isPasswordValid d && isPasswordMatch d.

Definition passwordDisabledMessage (passwordSaving : bool) (d : PasswordDraft) :
    string :=
if passwordSaving then "Updating password..."
else if negb (truthy (current d)) then
  "Enter your current password to continue."
else if negb (truthy (next d)) then "Create a new password to continue."
else if negb (isPasswordValid d) then "Use at least 8 characters."
else if negb (truthy (confirm d)) then
  "Confirm your new password to continue."
else if negb (isPasswordMatch d) then "Passwords do not match."
else "".

(** The helper under the Update button:
    [!canUpdatePassword && !passwordSaving ?
       <span className="helper">{passwordDisabledMessage}</span> : null]. *)
Definition passwordHint (passwordSaving : bool) (d : PasswordDraft) :
    option string :=
if negb (canUpdatePassword d) && negb passwordSaving
then Some (passwordDisabledMessage passwordSaving d)
else None.

(** The Update button: [disabled={passwordSaving}] and
    [aria-disabled={!canUpdatePassword || passwordSaving}]. *)
Definition updateDisabled (passwordSaving : bool) : bool := passwordSaving.

Definition updateAriaDisabled (passwordSaving : bool) (d : PasswordDraft) : bool :=
negb (canUpdatePassword d) || passwordSaving.

(** The error map of [handleEmailSubmit]. *)
Definition emailErrorsOf (d : EmailDraft) : gmap string string :=
let nextErrors : gmap string string := ∅ in
let nextEmail := trim (email d) in
let nextErrors :=
  if negb (truthy nextEmail) then
    <["email" := "Enter a new email."]> nextErrors
  else if negb (test emailPattern nextEmail) then
    <["email" := "Enter a valid email address."]> nextErrors
  else nextErrors in
let nextErrors :=
  if negb (truthy (email_password d)) then
    <["password" := "Confirm with your password."]> nextErrors
  else nextErrors in
nextErrors.

End Forms.

Import Forms.

Lemma truthy_length s : truthy s = true <-> 1 <= String.length s.
Proof. destruct s; simpl; split; intros H; try reflexivity; try lia; discriminate. Qed.

Lemma is_email_truthy s : is_email s -> truthy s = true.
Proof.
  intros (a & b & c & Heq & Ha & _). apply truthy_length.
  rewrite <- length_list_ascii_of_string, Heq, length_app.
  destruct a; [congruence | simpl; lia].
Qed.

Lemma handle_guard_spec s :
  negb (truthy s) = false /\ negb (test usernamePattern s) = false
  <-> is_handle s.
Proof.
  rewrite !negb_false_iff, usernamePattern_spec. split; [tauto|].
  intros H. split; [by apply is_handle_truthy | assumption].
Qed.

Lemma email_guard_spec s :
  negb (truthy s) = false /\ negb (test emailPattern s) = false
  <-> is_email s.
Proof.
  rewrite !negb_false_iff, emailPattern_spec. split; [tauto|].
  intros H. split; [by apply is_email_truthy | assumption].
Qed.

Lemma length_guard_spec s n :
  1 <= n ->
  negb (truthy s) = false /\ (String.length s <? n) = false
  <-> n <= String.length s.
Proof.
  intros Hn. rewrite negb_false_iff, truthy_length, Nat.ltb_ge. lia.
Qed.

(** X1.  [validateSignup] returns the empty map exactly when the trimmed
    name has two characters or more, the trimmed username is a handle, the
    trimmed and lower-cased email has the shape of an address, the
    password has eight characters or more, the confirmation equals the
    password and the terms are agreed to. *)
Theorem validateSignup_empty_iff (values : SignupValues) :
  validateSignup values = ∅ <->
  2 <= String.length (trim (su_name values))
  /\ is_handle (trim (su_username values))
  /\ is_email (toLowerCase (trim (su_email values)))
  /\ 8 <= String.length (su_password values)
  /\ su_confirm values = su_password values
  /\ su_agree values = true.
Proof.
  unfold validateSignup. cbv zeta.
  rewrite insert_if_empty, !insert_if2_empty.
  rewrite <- (length_guard_spec (trim (su_name values)) 2) by lia.
  rewrite <- handle_guard_spec, <- email_guard_spec.
  rewrite <- (length_guard_spec (su_password values) 8) by lia.
  rewrite !negb_false_iff. split.
  - intros (Hagree & Hc1 & Hc2 & Hp1 & Hp2 & He1 & He2 & Hu1 & Hu2 & Hn1 & Hn2 & _).
    apply String.eqb_eq in Hc2. repeat split; try assumption; congruence.
  - intros ((Hn1 & Hn2) & (Hu1 & Hu2) & (He1 & He2) & (Hp1 & Hp2) & Hc & Hagree).
    rewrite Hc. rewrite String.eqb_refl. repeat split; assumption.
Qed.

(** X2.  A confirmation that differs from the password always gets a
    [confirm] error; when it is not empty the message is that the
    passwords do not match, and a non-empty confirmation equal to the
    password gets none. *)
Theorem validateSignup_confirm (values : SignupValues) :
  (su_password values <> su_confirm values ->
   is_Some (validateSignup values !! "confirm"))
  /\ (su_confirm values <> "" -> su_password values <> su_confirm values ->
      validateSignup values !! "confirm" = Some "Passwords do not match.")
  /\ (su_confirm values <> "" -> su_password values = su_confirm values ->
      validateSignup values !! "confirm" = None).
Proof.
  assert (Hl : validateSignup values !! "confirm"
    = if negb (truthy (su_confirm values)) then Some "Confirm your password."
      else if negb (String.eqb (su_password values) (su_confirm values))
           then Some "Passwords do not match." else None).
  { unfold validateSignup. cbv zeta.
    rewrite lookup_insert_if by discriminate.
    destruct (negb (truthy (su_confirm values)));
      [by rewrite lookup_insert_eq|].
    destruct (negb (String.eqb (su_password values) (su_confirm values)));
      [by rewrite lookup_insert_eq|].
    rewrite !lookup_insert_if2 by discriminate. apply lookup_empty. }
  rewrite Hl. split; [|split].
  - intros Hne. apply String.eqb_neq in Hne. rewrite Hne.
    destruct (negb (truthy (su_confirm values))); simpl; eauto.
  - intros Hc Hne. apply truthy_true_iff in Hc. apply String.eqb_neq in Hne.
    by rewrite Hc, Hne.
  - intros Hc Heq. apply truthy_true_iff in Hc. apply String.eqb_eq in Heq.
    by rewrite Hc, Heq.
Qed.

Lemma validateSignup_confirm_witness :
  validateSignup
    {| su_name := "Mika"; su_username := "mikefranco";
       su_email := "mika@example.org"; su_password := "correct horse";
       su_confirm := "correct horsf"; su_agree := true |} !! "confirm"
  = Some "Passwords do not match.".
Proof.
  apply (proj1 (proj2 (validateSignup_confirm _))); simpl; discriminate.
Defined.

(** X3.  The password form is consistent with itself.
    [handlePasswordSave] finds no error exactly when [canUpdatePassword]
    holds, and that is the case exactly when the current password is not
    empty, the new one has eight characters or more and no line break, and
    the confirmation equals it.  The Update button is marked unavailable
    ([aria-disabled]) exactly when a change is being sent or the handler
    would find an error; it is disabled only while a change is being
    sent.  The helper under the button is rendered exactly when no change
    is being sent and the handler would find an error; a helper that is
    rendered is never empty, and while a change is being sent none is
    rendered. *)
Theorem password_form_consistent (passwordSaving : bool) (d : PasswordDraft) :
  (passwordErrorsOf d = ∅ <-> canUpdatePassword d = true)
  /\ (canUpdatePassword d = true <->
      current d <> ""
      /\ 8 <= String.length (next d)
      /\ Forall (fun c => not_line_terminator c = true)
           (list_ascii_of_string (next d))
      /\ confirm d = next d)
  /\ (updateAriaDisabled passwordSaving d = true
      <-> passwordSaving = true \/ passwordErrorsOf d <> ∅)
  /\ (updateDisabled passwordSaving = true <-> passwordSaving = true)
  /\ (is_Some (passwordHint passwordSaving d)
      <-> passwordSaving = false /\ passwordErrorsOf d <> ∅)
  /\ passwordHint passwordSaving d <> Some ""
  /\ passwordHint true d = None.
Proof.
  assert (Hvalid : test passwordPattern (next d) = true -> truthy (next d) = true).
  { intros H. apply passwordPattern_spec in H as [Hlen _].
    apply truthy_length. lia. }
  assert (Hcan : canUpdatePassword d = true <->
            truthy (current d) = true /\ test passwordPattern (next d) = true
            /\ String.eqb (confirm d) (next d) = true).
  { unfold canUpdatePassword, isPasswordValid, isPasswordMatch.
    rewrite !andb_true_iff. split; [tauto|]. intros (Hc & Hp & He).
    repeat split; try assumption.
    apply String.eqb_eq in He. rewrite He. by apply Hvalid. }
  assert (Herr : passwordErrorsOf d = ∅ <-> canUpdatePassword d = true).
  { rewrite Hcan. unfold passwordErrorsOf. cbv zeta.
    rewrite !insert_if2_empty, insert_if_empty, !negb_false_iff.
    split; [tauto|]. intros (Hc & Hp & He). repeat split; try assumption.
    + apply String.eqb_eq in He. rewrite He. by apply Hvalid.
    + by apply Hvalid. }
  assert (Hidle : passwordDisabledMessage false d = ""
                  <-> canUpdatePassword d = true).
  { rewrite Hcan.
    unfold passwordDisabledMessage, isPasswordValid, isPasswordMatch.
    destruct (truthy (current d)); simpl;
      [|split; [discriminate | intros [? _]; discriminate]].
    destruct (test passwordPattern (next d)) eqn:Hp.
    + rewrite (Hvalid eq_refl). simpl.
      destruct (String.eqb (confirm d) (next d)) eqn:He.
      * apply String.eqb_eq in He. rewrite He, (Hvalid eq_refl). simpl. tauto.
      * rewrite andb_false_r. simpl.
        destruct (truthy (confirm d)); simpl;
          (split; [discriminate | intros (_ & _ & ?); discriminate]).
    + destruct (truthy (next d)); simpl;
        (split; [discriminate | intros (_ & ? & _); discriminate]). }
  assert (Hno : passwordErrorsOf d <> ∅ <-> canUpdatePassword d = false).
  { rewrite Herr. by destruct (canUpdatePassword d). }
  split; [exact Herr|]. split.
  { rewrite Hcan, passwordPattern_spec, truthy_true_iff, String.eqb_eq. tauto. }
  split.
  { rewrite Hno. unfold updateAriaDisabled.
    destruct (canUpdatePassword d), passwordSaving; cbn [negb orb];
      intuition discriminate. }
  split; [reflexivity|]. split.
  { rewrite Hno. unfold passwordHint.
    destruct (canUpdatePassword d), passwordSaving; cbn [negb andb];
      (split; [intros [x Hx]; try discriminate; by split
              | intros [H1 H2]; try discriminate; by eexists]). }
  split.
  { unfold passwordHint.
    destruct (canUpdatePassword d) eqn:Hc; cbn [negb andb]; [discriminate|].
    destruct passwordSaving; cbn [negb]; [discriminate|].
    intros [= Hempty]. apply Hidle in Hempty. congruence. }
  unfold passwordHint. by rewrite andb_false_r.
Qed.

Lemma validateProfile_passes (d : Values) :
  validateProfile d = ∅ <->
  2 <= String.length (trim (displayName d))
  /\ is_handle (trim (username d))
  /\ is_handle (trim (profileUrl d))
  /\ String.length (bio d) <= 160
  /\ String.length (status d) <= 80
  /\ length (interests d) <= 5.
Proof.
  unfold validateProfile. cbv zeta.
  rewrite !insert_if_empty, !insert_if2_empty.
  rewrite <- (length_guard_spec (trim (displayName d)) 2) by lia.
  rewrite <- !handle_guard_spec, !Nat.ltb_ge. tauto.
Qed.

(** X4.  [validateProfile] finds no error exactly when the trimmed display
    name has two characters or more, the trimmed username and profile URL
    are handles, the bio has at most 160 characters, the status at most
    80, and there are at most five interests. *)
Theorem validateProfile_empty_iff (d : Values) :
  validateProfile d = ∅ <->
  2 <= String.length (trim (displayName d))
  /\ is_handle (trim (username d))
  /\ is_handle (trim (profileUrl d))
  /\ String.length (bio d) <= 160
  /\ String.length (status d) <= 80
  /\ length (interests d) <= 5.
Proof. apply validateProfile_passes. Qed.

Lemma start_of_handle savedValues token field value p :
  is_handle (trim value) ->
  checkAvailability_start savedValues token field value p
  = if String.eqb (toLowerCase (trim value)) (savedValueOf field savedValues)
    then Settled (setStatus field success p) success
    else if bool_decide (toLowerCase (trim value) ∈ RESERVED_HANDLES) then
      Settled (setStatus field error p) error
    else if negb (truthy token) then
      Settled (setStatus field neutral p) neutral
    else
      Lookup
        (set_availabilityRequestRef
           (withCounter field
              (counterOf field (availabilityRequestRef p) + 1)%N
              (availabilityRequestRef p)) p)
        (counterOf field (availabilityRequestRef p) + 1)%N
        (lookupRequest field (trim value) token).
Proof.
  intros Hh. unfold checkAvailability_start.
  rewrite (handle_passes_guard _ Hh), (saved_guard_eq _ _ Hh). reflexivity.
Qed.

(** X5.  With a session token, a draft that passes [validateProfile] is
    never answered [neutral] at once by [checkAvailability]: each of its
    two handles is found unchanged, found reserved, or looked up. *)
Theorem valid_draft_is_checked
    (savedValues d : Values) (token : string) (p : Page) (field : AvailabilityField) :
  validateProfile d = ∅ -> token <> "" ->
  let value := match field with
               | f_username => username d
               | f_profileUrl => profileUrl d
               end in
  match checkAvailability_start savedValues token field value p with
  | Settled _ result => result = success \/ result = error
  | Lookup _ _ request => request = lookupRequest field (trim value) token
  end.
Proof.
  intros Hvalid Htok value.
  apply validateProfile_passes in Hvalid as (_ & Hu & Hp & _).
  assert (Hh : is_handle (trim value)) by (subst value; by destruct field).
  rewrite (start_of_handle _ _ _ _ _ Hh).
  apply truthy_true_iff in Htok. rewrite Htok. simpl.
  destruct (String.eqb _ _); [by left|].
  destruct (bool_decide _); [by right | reflexivity].
Qed.

Lemma valid_draft_is_checked_witness :
  match checkAvailability_start sampleDefaults "t0k3n" f_username
          (username (draft reservedDraftPage)) samplePage with
  | Settled _ result => result = success \/ result = error
  | Lookup _ _ request =>
      request = lookupRequest f_username
                  (trim (username (draft reservedDraftPage))) "t0k3n"
  end.
Proof.
  apply (valid_draft_is_checked sampleDefaults (draft reservedDraftPage)
           "t0k3n" samplePage f_username); [reflexivity | discriminate].
Defined.

(* ===================================================================== *)
(** ** The settings page: interests, cancel, photo, profile reload         *)
(* ===================================================================== *)

Module SettingsMore.

(** [{ ...prev, interests: x }] and [{ ...prev, photoUrl: x }] *)
Definition withInterests (x : list string) (prev : Values) : Values :=
{| displayName := displayName prev; username := username prev;
   profileUrl := profileUrl prev; bio := bio prev; location := location prev;
   interests := x; status := status prev; photoUrl := photoUrl prev;
   visibility := visibility prev; showLocation := showLocation prev;
   allowSearch := allowSearch prev;
   emailNotifications := emailNotifications prev;
   productUpdates := productUpdates prev;
   newFollowerAlerts := newFollowerAlerts prev;
   weeklyDigest := weeklyDigest prev;
   pauseNotifications := pauseNotifications prev; theme := theme prev |}.

Definition withPhotoUrl (x : string) (prev : Values) : Values :=
{| displayName := displayName prev; username := username prev;
   profileUrl := profileUrl prev; bio := bio prev; location := location prev;
   interests := interests prev; status := status prev; photoUrl := x;
   visibility := visibility prev; showLocation := showLocation prev;
   allowSearch := allowSearch prev;
   emailNotifications := emailNotifications prev;
   productUpdates := productUpdates prev;
   newFollowerAlerts := newFollowerAlerts prev;
   weeklyDigest := weeklyDigest prev;
   pauseNotifications := pauseNotifications prev; theme := theme prev |}.

(** [next.includes(trimmed)] *)
Definition includes (l : list string) (x : string) : bool :=
existsb (String.eqb x) l.

Definition handleAddInterest (p : Page) : Page :=
let trimmed := trim (interestInput p) in
if negb (truthy trimmed) then p
else
  let next := interests (draft p) in
  if includes next trimmed || (5 <=? length next) then p
  else
    let next := next ++ [trimmed] in
    set_interestInput "" (set_draft (withInterests next (draft p)) p).

Definition handleRemoveInterest (tag : string) (p : Page) : Page :=
set_draft
  (withInterests
     (List.filter (fun item => negb (String.eqb item tag)) (interests (draft p)))
     (draft p)) p.

(** What the user does in the interests editor: type into the input, press
    Add, or remove a tag. *)
Inductive InterestEvent : Type :=
| TypeInterest (text : string)
| AddInterest
| RemoveInterest (tag : string).

Definition interestStep (p : Page) (e : InterestEvent) : Page :=
match e with
| TypeInterest text => set_interestInput text p
| AddInterest => handleAddInterest p
| RemoveInterest tag => handleRemoveInterest tag p
end.

Definition interestRun (events : list InterestEvent) (p : Page) : Page :=
fold_left interestStep events p.

(** *** Photo upload and removal, and the profile reload *)

Inductive PageRequest : Type :=
| GET_profile (token : string)
| POST_photo (token : string)
| DELETE_photo (token : string).

(** [nextFields] of [loadProfile] over the object the setter finds. *)
Definition mergeLoaded (profile : ProfileData) (prev : Values) : Values :=
{| displayName := str_or (r_display_name profile) "";
   username := str_or (r_username profile) "";
   profileUrl := str_or (r_profile_url profile) "";
   bio := str_or (r_bio profile) "";
   location := str_or (r_location profile) "";
   interests := nullish (r_interests profile) [];
   status := str_or (r_status profile) "";
   photoUrl := str_or (r_photo_url profile) "";
   visibility := str_or (r_visibility profile) "public";
   showLocation := flag (r_show_location profile)
                   && truthy (str_or (r_location profile) "");
   allowSearch := flag (r_allow_search profile);
   emailNotifications := emailNotifications prev;
   productUpdates := productUpdates prev;
   newFollowerAlerts := newFollowerAlerts prev;
   weeklyDigest := weeklyDigest prev;
   pauseNotifications := pauseNotifications prev;
   theme := str_or (r_theme profile) "system" |}.

(** What a handler leaves behind: the page, the busy flag it owns
    ([photoUploading] or [profileLoading]), the request it sent if any, and
    its toasts and user updates.  The page is the one after the effects of
    the render the handler causes: a [setUser] with a new object makes the
    page rebuild saved and draft ([resetToDefaults]). *)
Record Step : Type := {
stepPage : Page;
busy : bool;
sent : option PageRequest;
told : list (@Signal UserObject)
}.

Record PhotoData : Type := {
photo_url : option string;
photo_user : option UserObject
}.

(** [setUser(user)] with a new object, seen from the page. *)
Definition setUser (user : option UserObject) (p : Page) : Page :=
match user with
| Some u => resetToDefaults (defaultsFor u) p
| None => p
end.

Definition userSet (user : option UserObject) : list (@Signal UserObject) :=
match user with
| Some u => [UserSet u]
| None => []
end.

(** [handlePhotoUpload] up to its [await]; [hasFile] is whether the input
    holds a file. *)
Definition handlePhotoUpload_start (hasFile : bool) (token : string) (p : Page) :
    Step :=
if negb hasFile then
  {| stepPage := p; busy := false; sent := None; told := [] |}
else if negb (truthy token) then
  {| stepPage := p; busy := false; sent := None; told := [sessionExpired] |}
else {| stepPage := p; busy := true; sent := Some (POST_photo token); told := [] |}.

Definition handlePhotoUpload_resume (outcome : ApiOutcome (option PhotoData))
    (p : Page) : Step :=
match outcome with
| Resolved data =>
    let photoUrl := str_or (data ≫= photo_url) "" in
    let p := set_draft (withPhotoUrl photoUrl (draft p)) p in
    let p := set_saved (withPhotoUrl photoUrl (saved p)) p in
    {| stepPage := setUser (data ≫= photo_user) p; busy := false; sent := None;
       told := userSet (data ≫= photo_user)
               ++ [Toasted "Profile photo updated." "success"] |}
| Rejected failure =>
    {| stepPage := p; busy := false; sent := None;
       told := [Toasted (shortMessageFromError failure) "error"] |}
end.

Definition handlePhotoRemove_start (token : string) (p : Page) : Step :=
if negb (truthy token) then
  {| stepPage := p; busy := false; sent := None; told := [sessionExpired] |}
else {| stepPage := p; busy := true; sent := Some (DELETE_photo token); told := [] |}.

(** [{ ...user, photo_url: "", photoUrl: "" }] *)
Definition withoutPhoto (user : UserObject) : UserObject :=
{| u_name := u_name user; u_username := u_username user;
   u_profile_url := u_profile_url user; u_profileUrl := u_profileUrl user;
   u_status := u_status user; u_bio := u_bio user;
   u_location := u_location user; u_interests := u_interests user;
   u_photo_url := Some ""; u_photoUrl := Some "";
   u_visibility := u_visibility user; u_theme := u_theme user;
   u_show_location := u_show_location user;
   u_showLocation := u_showLocation user;
   u_allow_search := u_allow_search user;
   u_allowSearch := u_allowSearch user |}.

(** [user] is the user of the session as the handler closed over it. *)
Definition handlePhotoRemove_resume (user : option UserObject)
    (outcome : ApiOutcome unit) (p : Page) : Step :=
match outcome with
| Resolved _ =>
    let p := set_draft (withPhotoUrl "" (draft p)) p in
    let p := set_saved (withPhotoUrl "" (saved p)) p in
    {| stepPage := setUser (option_map withoutPhoto user) p; busy := false;
       sent := None;
       told := userSet (option_map withoutPhoto user)
               ++ [Toasted "Profile photo removed." "success"] |}
| Rejected failure =>
    {| stepPage := p; busy := false; sent := None;
       told := [Toasted (shortMessageFromError failure) "error"] |}
end.

Definition sectionsDirty (p : Page) : bool :=
hasSectionChanges (saved p) (draft p) "profile"
|| hasSectionChanges (saved p) (draft p) "privacy".

(** [loadProfile] up to its [await]: nothing happens without a token, a
    user, the profile or privacy section, or with one of the two dirty. *)
Definition loadProfile_start (token : string) (hasUser : bool) (p : Page) : Step :=
let shouldLoad :=
  String.eqb (activeSection p) "profile"
  || String.eqb (activeSection p) "privacy" in
if negb (truthy token) || negb hasUser || negb shouldLoad || sectionsDirty p then
  {| stepPage := p; busy := false; sent := None; told := [] |}
else {| stepPage := p; busy := true; sent := Some (GET_profile token); told := [] |}.

(** [loadProfile] from the settling of its request.  [isActive] is false
    once the effect has been cleaned up; [loading] is [profileLoading] as
    it is then; the two refs hold the dirtiness of the page as it is
    then.  A user object in the response makes the page rebuild saved and
    draft, and the effect start again ([loadProfile_start]) on the page
    that results. *)
Definition loadProfile_resume (isActive loading : bool)
    (outcome : ApiOutcome (option (@SaveData UserObject))) (p : Page) : Step :=
let finally := if isActive then false else loading in
match outcome with
| Resolved data =>
    match data ≫= profile with
    | Some pr =>
        if negb isActive || sectionsDirty p then
          {| stepPage := p; busy := finally; sent := None; told := [] |}
        else
          let p := set_saved (mergeLoaded pr (saved p)) p in
          let p := set_draft (mergeLoaded pr (draft p)) p in
          let p := set_interestInput "" p in
          let p := set_availability no_availability p in
          {| stepPage := setUser (data ≫= user) p; busy := finally;
             sent := None; told := userSet (data ≫= user) |}
    | None => {| stepPage := p; busy := finally; sent := None; told := [] |}
    end
| Rejected failure =>
    {| stepPage := p; busy := finally; sent := None;
       told := if isActive
               then [Toasted (shortMessageFromError failure) "error"] else [] |}
end.

(** *** The address and the active section *)

(** [resolveSection] *)
Definition resolveSection (tabValue : option string) : string :=
match tabValue with
| Some tab => if bool_decide (tab ∈ settingsSectionIds) then tab else "account"
| None => "account"
end.

(** The effect that follows the [tab] search parameter. *)
Definition syncSection (isMobile : bool) (p : Page) : Page :=
let tab := searchTab p in
let hasTab := match tab with Some t => truthy t | None => false end in
let nextSection := resolveSection tab in
let p :=
  if negb (String.eqb nextSection (activeSection p))
  then set_activeSection nextSection p else p in
let p := set_showMobileList (if isMobile then negb hasTab else false) p in
if negb hasTab || negb (bool_decide (default "" tab ∈ settingsSectionIds)) then
  if negb isMobile then set_searchTab (Some nextSection) p else p
else p.

(** [JSON.stringify] of a whole settings object, its properties in the
    order [buildDefaults] creates them, which every update keeps. *)
Fixpoint join_members (members : list (string * Json.Value)) : list ascii :=
match members with
| [] => []
| (k, v) :: rest =>
    match rest with
    | [] => Json.quote k ++ ":"%char :: Json.stringify_chars v
    | _ :: _ =>
        Json.quote k ++ ":"%char :: Json.stringify_chars v
        ++ ","%char :: join_members rest
    end
end.

Definition stringify_object (v : Values) : string :=
string_of_list_ascii ("{"%char :: join_members (properties v) ++ ["}"%char]).

(** [JSON.stringify(saved) !== JSON.stringify(draft)], which arms
    [window.onbeforeunload]. *)
Definition hasUnloadGuard (saved draft : Values) : bool :=
negb (String.eqb (stringify_object saved) (stringify_object draft)).

End SettingsMore.

Import SettingsMore.

Lemma includes_false_iff (l : list string) (x : string) :
  includes l x = false <-> ~ In x l.
Proof.
  unfold includes. rewrite <- not_true_iff_false, existsb_exists. split.
  - intros Hno Hin. apply Hno. exists x. split; [assumption | apply String.eqb_refl].
  - intros Hno (y & Hin & Heq). apply String.eqb_eq in Heq. subst. contradiction.
Qed.

Lemma NoDup_snoc_fresh (l : list string) (x : string) :
  List.NoDup l -> ~ In x l -> List.NoDup (l ++ [x]).
Proof.
  intros Hnd Hout. apply List.NoDup_rev in Hnd.
  rewrite <- (rev_involutive (l ++ [x])). apply List.NoDup_rev.
  rewrite rev_app_distr. simpl. constructor; [|assumption].
  intros Hin. apply Hout. now apply in_rev.
Qed.

Lemma filter_length_bound {A} (f : A -> bool) (l : list A) :
  length (List.filter f l) <= length l.
Proof. induction l as [|a l IH]; simpl; [lia|]. destruct (f a); simpl; lia. Qed.

Lemma filter_out_fresh (l : list string) (x : string) :
  ~ In x l -> List.filter (fun item => negb (String.eqb item x)) l = l.
Proof.
  induction l as [|a l IH]; simpl; [reflexivity|]. intros Hout.
  destruct (String.eqb a x) eqn:Heq.
  - apply String.eqb_eq in Heq. exfalso. apply Hout. now left.
  - simpl. f_equal. apply IH. intros Hin. apply Hout. now right.
Qed.

(** The interests editor keeps what it is given: an ordered set of at
    most five entries, none of them empty. *)
Definition tidy (l : list string) : Prop :=
  List.NoDup l /\ length l <= 5 /\ Forall (fun x => x <> "") l.

Lemma handleAddInterest_tidy p :
  tidy (interests (draft p)) ->
  tidy (interests (draft (handleAddInterest p)))
  /\ saved (handleAddInterest p) = saved p.
Proof.
  intros (Hnd & Hlen & Hne). unfold handleAddInterest.
  destruct (truthy (trim (interestInput p))) eqn:Ht; cbn [negb];
    [|by repeat split].
  destruct (includes (interests (draft p)) (trim (interestInput p))) eqn:Hi;
    cbn [orb]; [by repeat split|].
  destruct (5 <=? length (interests (draft p))) eqn:Hfull;
    [by repeat split|].
  apply includes_false_iff in Hi. apply Nat.leb_gt in Hfull. simpl.
  split; [|reflexivity]. split; [by apply NoDup_snoc_fresh|]. split.
  - rewrite length_app. simpl. lia.
  - apply Forall_app. split; [assumption|]. constructor; [|constructor].
    by apply truthy_true_iff.
Qed.

Lemma handleRemoveInterest_tidy tag p :
  tidy (interests (draft p)) ->
  tidy (interests (draft (handleRemoveInterest tag p)))
  /\ saved (handleRemoveInterest tag p) = saved p.
Proof.
  intros (Hnd & Hlen & Hne). unfold handleRemoveInterest. simpl.
  split; [|reflexivity]. split; [by apply List.NoDup_filter|]. split.
  - pose proof (filter_length_bound
                  (fun item => negb (String.eqb item tag)) (interests (draft p))).
    lia.
  - rewrite List.Forall_forall in *. intros x Hin.
    apply List.filter_In in Hin as [Hin _]. by apply Hne.
Qed.

(** X6.  Whatever is typed, added or removed in the interests editor, the
    drafted interests stay an ordered set of at most five non-empty
    entries when they started as one; so [validateProfile] never reports
    the interests, and saved is not touched. *)
Theorem interests_stay_tidy (events : list InterestEvent) (p : Page) :
  tidy (interests (draft p)) ->
  let q := interestRun events p in
  tidy (interests (draft q))
  /\ validateProfile (draft q) !! "interests" = None
  /\ saved q = saved p.
Proof.
  intros Htidy q.
  assert (H : tidy (interests (draft q)) /\ saved q = saved p).
  { subst q. revert p Htidy.
    induction events as [|e events IH]; intros p Htidy; simpl; [by split|].
    assert (Hstep : tidy (interests (draft (interestStep p e)))
                    /\ saved (interestStep p e) = saved p).
    { destruct e as [text| |tag]; simpl.
      - by split.
      - by apply handleAddInterest_tidy.
      - by apply handleRemoveInterest_tidy. }
    destruct Hstep as [Ht Hs]. destruct (IH _ Ht) as [Ht' Hs'].
    split; [assumption | congruence]. }
  destruct H as [(Hnd & Hlen & Hne) Hs]. split; [by repeat split|].
  split; [|assumption].
  unfold validateProfile. cbv zeta.
  apply Nat.ltb_ge in Hlen. rewrite Hlen.
  rewrite !lookup_insert_if, !lookup_insert_if2 by discriminate.
  apply lookup_empty.
Qed.

Lemma interests_stay_tidy_witness :
  interests
    (draft (interestRun
              [TypeInterest " Quiet systems "; AddInterest;
               TypeInterest "Tea"; AddInterest; RemoveInterest "City walks";
               TypeInterest "Tea "; AddInterest]
              samplePage))
  = ["Quiet systems"; "Product design"; "Minimal living"; "Collaboration";
     "Tea"]
  /\ tidy (interests
             (draft (interestRun
                       [TypeInterest " Quiet systems "; AddInterest;
                        TypeInterest "Tea"; AddInterest;
                        RemoveInterest "City walks";
                        TypeInterest "Tea "; AddInterest]
                       samplePage))).
Proof.
  split; [reflexivity|].
  apply (interests_stay_tidy _ samplePage).
  split; [|split].
  - repeat (constructor; [simpl; intuition discriminate|]). constructor.
  - simpl. lia.
  - repeat (constructor; [discriminate|]). constructor.
Defined.

(** X7.  Adding a new interest and removing it again gives back the list
    there was, when the add went through: the input is not blank, the tag
    is not in the list yet, and the list has fewer than five entries.  In
    every other case the add changes nothing. *)
Theorem add_then_remove_interest (p : Page) :
  let tag := trim (interestInput p) in
  (tag <> "" -> ~ In tag (interests (draft p)) ->
   length (interests (draft p)) < 5 ->
   interests (draft (handleAddInterest p)) = interests (draft p) ++ [tag]
   /\ interestInput (handleAddInterest p) = ""
   /\ interests (draft (handleRemoveInterest tag (handleAddInterest p)))
      = interests (draft p))
  /\ (tag = "" \/ In tag (interests (draft p))
      \/ 5 <= length (interests (draft p)) ->
      handleAddInterest p = p).
Proof.
  intros tag. unfold handleAddInterest. fold tag. split.
  - intros Hne Hout Hlen. apply truthy_true_iff in Hne. rewrite Hne.
    pose proof Hout as Hi. apply includes_false_iff in Hi. rewrite Hi.
    apply Nat.leb_gt in Hlen. rewrite Hlen. simpl.
    repeat split. rewrite List.filter_app. simpl.
    rewrite String.eqb_refl. simpl. rewrite app_nil_r.
    by apply filter_out_fresh.
  - intros [He|[Hin|Hfull]].
    + rewrite He. reflexivity.
    + destruct (truthy tag); [|reflexivity]. cbn [negb].
      destruct (includes (interests (draft p)) tag) eqn:Hi; [reflexivity|].
      apply includes_false_iff in Hi. contradiction.
    + destruct (truthy tag); [|reflexivity]. cbn [negb].
      apply Nat.leb_le in Hfull. rewrite Hfull. by rewrite orb_true_r.
Qed.

Lemma add_then_remove_interest_witness :
  interests
    (draft (handleRemoveInterest "Tea"
              (handleAddInterest
                 (set_interestInput " Tea "
                    (set_draft (withInterests ["Quiet systems"] sampleDefaults)
                       samplePage)))))
  = ["Quiet systems"].
Proof.
  apply (proj1 (add_then_remove_interest
                  (set_interestInput " Tea "
                     (set_draft (withInterests ["Quiet systems"] sampleDefaults)
                        samplePage)))).
  - discriminate.
  - simpl. intuition discriminate.
  - simpl. lia.
Defined.

(** *** Dirtiness under the handlers that write saved and draft together *)

Lemma hasSectionChanges_same (v : Values) (sectionId : string) :
  hasSectionChanges v v sectionId = false.
Proof. apply hasSectionChanges_false. reflexivity. Qed.

Lemma existsb_pointwise {A} (f g : A -> bool) (l : list A) :
  (forall x, In x l -> f x = g x) -> existsb f l = existsb g l.
Proof.
  induction l as [|a l IH]; simpl; intros H; [reflexivity|].
  rewrite (H a) by now left. f_equal. apply IH. intros x Hx. apply H. now right.
Qed.

Lemma get_withPhotoUrl (u : string) (v : Values) (field : string) :
  get (withPhotoUrl u v) field
  = if String.eqb field "photoUrl" then Some (Json.VString u) else get v field.
Proof.
  unfold get, properties. cbn [assoc].
  repeat match goal with
         | |- context [String.eqb field ?k] =>
             let E := fresh "E" in
             destruct (String.eqb field k) eqn:E;
             [apply String.eqb_eq in E; subst field; reflexivity|]
         end.
  reflexivity.
Qed.

Lemma photoUrl_agreed (u : string) (s d : Values) (sectionId : string) :
  photoUrl s = photoUrl d ->
  hasSectionChanges (withPhotoUrl u s) (withPhotoUrl u d) sectionId
  = hasSectionChanges s d sectionId.
Proof.
  intros Hagree. unfold hasSectionChanges. apply existsb_pointwise.
  intros field _. rewrite !get_withPhotoUrl.
  destruct (String.eqb field "photoUrl") eqn:E; [|reflexivity].
  apply String.eqb_eq in E. subst field.
  change (get s "photoUrl") with (Some (Json.VString (photoUrl s))).
  change (get d "photoUrl") with (Some (Json.VString (photoUrl d))).
  rewrite Hagree. simpl. now rewrite !String.eqb_refl.
Qed.

(** X8.  [handleCancel] and the confirmed discard both leave no section
    dirty, whatever was drafted: the draft is the saved object again, the
    profile errors and availability flags are cleared, and saved is as it
    was.  Cancelling twice is cancelling once. *)
Theorem cancel_leaves_nothing_dirty (isMobile : bool) (p : Page) (sectionId : string) :
  (let q := handleCancel p in
   hasSectionChanges (saved q) (draft q) sectionId = false
   /\ draft q = saved p /\ saved q = saved p
   /\ profileErrors q = ∅ /\ availability q = no_availability
   /\ handleCancel q = q)
  /\ (let r := fst (handleDiscardConfirm isMobile p) in
      hasSectionChanges (saved r) (draft r) sectionId = false
      /\ draft r = saved p /\ saved r = saved p
      /\ profileErrors r = ∅ /\ availability r = no_availability
      /\ discardOpen r = false /\ pendingSection r = None).
Proof.
  split.
  - simpl. split; [apply hasSectionChanges_same|]. repeat split.
  - assert (H : let r := fst (handleDiscardConfirm isMobile p) in
              draft r = saved p /\ saved r = saved p
              /\ profileErrors r = ∅ /\ availability r = no_availability
              /\ discardOpen r = false /\ pendingSection r = None).
    { unfold handleDiscardConfirm.
      destruct (pendingSection p) as [pending|]; [|by repeat split].
      destruct (String.eqb pending "back"); [by repeat split|].
      destruct (String.eqb pending "list"); [by repeat split|].
      destruct (truthy pending); [|by repeat split].
      unfold applySection. case_bool_decide; [|by repeat split].
      destruct isMobile; by repeat split. }
    simpl in H. destruct H as (Hd & Hs & Hrest). simpl.
    split; [rewrite Hd, Hs; apply hasSectionChanges_same|].
    split; [assumption|]. split; assumption.
Qed.

Lemma setUser_some (u : UserObject) (p : Page) (sectionId : string) :
  let q := SettingsMore.setUser (Some u) p in
  fromUser u (saved q) /\ draft q = saved q
  /\ hasSectionChanges (saved q) (draft q) sectionId = false.
Proof.
  cbv zeta. unfold SettingsMore.setUser, resetToDefaults.
  split; [apply pageDefaults_fromUser|]. split; [reflexivity|].
  apply hasSectionChanges_same.
Qed.

(** X9.  What a photo change does to saved and draft.  A request that
    fails leaves both alone.  An upload answered without a user object
    changes the photo address only, in both, to the one the server sent:
    when the two agreed on the photo before, every section is as dirty as
    it was.  An upload answered with a user object, and every removal
    while a user is signed in, make the page rebuild saved and draft from
    the user object (the answer's, or the session's with its photo
    emptied): no section is dirty afterwards, and whatever was drafted and
    not saved is gone. *)
Theorem photo_change_outcomes
    (uploaded : ApiOutcome (option PhotoData)) (removed : ApiOutcome unit)
    (user : option UserObject) (p : Page) (sectionId : string) :
  photoUrl (saved p) = photoUrl (draft p) ->
  (let q := stepPage (handlePhotoUpload_resume uploaded p) in
   match uploaded with
   | Rejected _ => saved q = saved p /\ draft q = draft p
   | Resolved data =>
       match data ≫= photo_user with
       | Some u =>
           fromUser u (saved q) /\ draft q = saved q
           /\ hasSectionChanges (saved q) (draft q) sectionId = false
       | None =>
           photoUrl (saved q) = str_or (data ≫= photo_url) ""
           /\ photoUrl (draft q) = photoUrl (saved q)
           /\ agreeOutside ["photoUrl"] (saved q) (saved p)
           /\ agreeOutside ["photoUrl"] (draft q) (draft p)
           /\ hasSectionChanges (saved q) (draft q) sectionId
              = hasSectionChanges (saved p) (draft p) sectionId
       end
   end)
  /\ (let q := stepPage (handlePhotoRemove_resume user removed p) in
      match removed, user with
      | Rejected _, _ => saved q = saved p /\ draft q = draft p
      | Resolved _, Some u =>
          fromUser (withoutPhoto u) (saved q) /\ photoUrl (saved q) = ""
          /\ draft q = saved q
          /\ hasSectionChanges (saved q) (draft q) sectionId = false
      | Resolved _, None =>
          photoUrl (saved q) = "" /\ photoUrl (draft q) = ""
          /\ agreeOutside ["photoUrl"] (saved q) (saved p)
          /\ agreeOutside ["photoUrl"] (draft q) (draft p)
          /\ hasSectionChanges (saved q) (draft q) sectionId
             = hasSectionChanges (saved p) (draft p) sectionId
      end).
Proof.
  intros Hagree. split.
  - cbv zeta. destruct uploaded as [data|failure]; [|by split].
    unfold handlePhotoUpload_resume. cbn [stepPage].
    destruct (data ≫= photo_user) as [u|].
    + apply setUser_some.
    + cbn [SettingsMore.setUser]. simpl.
      split; [reflexivity|]. split; [reflexivity|].
      split; [agree_outside|]. split; [agree_outside|].
      by apply photoUrl_agreed.
  - cbv zeta. destruct removed as [done|failure];
      [|destruct user; by split].
    unfold handlePhotoRemove_resume. cbn [stepPage].
    destruct user as [u|]; cbn [option_map].
    + destruct (setUser_some (withoutPhoto u)
                  (set_saved (withPhotoUrl "" (saved p))
                     (set_draft (withPhotoUrl "" (draft p)) p)) sectionId)
        as (Hfrom & Hdraft & Hclean).
      split; [exact Hfrom|]. split; [|by split].
      destruct Hfrom as (_ & _ & _ & _ & _ & _ & _ & Hphoto & _).
      etransitivity; [exact Hphoto | reflexivity].
    + cbn [SettingsMore.setUser]. simpl.
      split; [reflexivity|]. split; [reflexivity|].
      split; [agree_outside|]. split; [agree_outside|].
      by apply photoUrl_agreed.
Qed.

(** A request that does not reach the server, and a drafted bio that a
    photo removal discards. *)
Definition unreachable : ApiError :=
{| err_message := "Unable to reach the server. Please try again.";
   err_status := None; err_fields := [];
   err_detail := Some "Failed to fetch" |}.

Lemma photo_change_outcomes_witness :
  bio (draft samplePage) <> bio (saved samplePage)
  /\ draft (stepPage (handlePhotoRemove_resume (Some mika) (Resolved tt)
                        samplePage))
     = saved (stepPage (handlePhotoRemove_resume (Some mika) (Resolved tt)
                          samplePage)).
Proof.
  split; [vm_compute; discriminate|].
  destruct (proj2 (photo_change_outcomes (Rejected unreachable) (Resolved tt)
                     (Some mika) samplePage "profile" eq_refl))
    as (_ & _ & H & _).
  exact H.
Defined.

(** X10.  The profile reload never overwrites unsaved edits of the
    profile or the privacy section.  With one of them dirty it sends
    nothing; a response that finds one of them dirty, or the effect
    cleaned up, or no profile object, or a failure, leaves saved and draft
    untouched.  When it does apply a response, profile, privacy and
    appearance are clean afterwards: a theme drafted and not saved is
    overwritten.  Without a user object in the response saved and draft
    take the twelve profile fields from the profile object, each keeps its
    five notification preferences, and the location switch is on only if
    the response has a location; with a user object the page rebuilds both
    from the user object, notification preferences included. *)
Theorem loadProfile_spares_profile_edits
    (token : string) (hasUser isActive loading : bool)
    (outcome : ApiOutcome (option (@SaveData UserObject))) (p : Page) :
  (sectionsDirty p = true ->
   sent (loadProfile_start token hasUser p) = None
   /\ stepPage (loadProfile_start token hasUser p) = p)
  /\ (let q := stepPage (loadProfile_resume isActive loading outcome p) in
      (sectionsDirty p = true \/ isActive = false -> q = p)
      /\ (forall failure, outcome = Rejected failure -> q = p)
      /\ (forall data, outcome = Resolved data -> data ≫= profile = None ->
            q = p)
      /\ (forall data pr,
            outcome = Resolved data -> data ≫= profile = Some pr ->
            sectionsDirty p = false -> isActive = true ->
            hasSectionChanges (saved q) (draft q) "profile" = false
            /\ hasSectionChanges (saved q) (draft q) "privacy" = false
            /\ hasSectionChanges (saved q) (draft q) "appearance" = false
            /\ match data ≫= user with
               | Some u => fromUser u (saved q) /\ draft q = saved q
               | None =>
                   displayName (saved q) = nullish (r_display_name pr) ""
                   /\ username (saved q) = nullish (r_username pr) ""
                   /\ profileUrl (saved q) = nullish (r_profile_url pr) ""
                   /\ bio (saved q) = nullish (r_bio pr) ""
                   /\ location (saved q) = nullish (r_location pr) ""
                   /\ interests (saved q) = nullish (r_interests pr) []
                   /\ status (saved q) = nullish (r_status pr) ""
                   /\ photoUrl (saved q) = nullish (r_photo_url pr) ""
                   /\ visibility (saved q) = str_or (r_visibility pr) "public"
                   /\ theme (saved q) = str_or (r_theme pr) "system"
                   /\ showLocation (saved q)
                      = flag (r_show_location pr)
                        && truthy (nullish (r_location pr) "")
                   /\ allowSearch (saved q) = flag (r_allow_search pr)
                   /\ agreeButNotifications (saved q) (draft q)
                   /\ sameNotifications (saved q) (saved p)
                   /\ sameNotifications (draft q) (draft p)
                   /\ hasSectionChanges (saved q) (draft q) "notifications"
                      = hasSectionChanges (saved p) (draft p) "notifications"
               end)).
Proof.
  split.
  - intros Hdirty. unfold loadProfile_start. rewrite Hdirty.
    rewrite !orb_true_r. by split.
  - unfold loadProfile_resume. split; [|split; [|split]].
    + intros Hskip. destruct outcome as [data|failure]; [|reflexivity].
      destruct (data ≫= profile) as [pr|]; [|reflexivity].
      destruct Hskip as [-> | ->]; [by rewrite orb_true_r | reflexivity].
    + intros failure ->. reflexivity.
    + intros data -> ->. reflexivity.
    + intros data pr -> -> -> ->. cbn [negb orb stepPage].
      destruct (data ≫= user) as [u|].
      * set (p' := set_availability _ _).
        destruct (setUser_some u p' "profile") as (Hfrom & Hdraft & Hp).
        destruct (setUser_some u p' "privacy") as (_ & _ & Hv).
        destruct (setUser_some u p' "appearance") as (_ & _ & Ha).
        split; [exact Hp|]. split; [exact Hv|]. split; [exact Ha|]. by split.
      * cbn [SettingsMore.setUser]. simpl.
        destruct (agreeButNotifications_clean
                    (mergeLoaded pr (saved p)) (mergeLoaded pr (draft p)))
          as (Hp & Hv & Ha); [by repeat split|].
        split; [exact Hp|]. split; [exact Hv|]. split; [exact Ha|].
        rewrite !str_or_empty.
        repeat (split; [reflexivity|]).
        split; [by repeat split|]. split; [by repeat split|].
        split; [by repeat split|].
        apply eq_true_iff_eq.
        rewrite !hasSectionChanges_notifications. reflexivity.
Qed.

Lemma loadProfile_spares_profile_edits_witness :
  stepPage (loadProfile_resume true true (Resolved (Some renamedData)) samplePage)
  = samplePage.
Proof.
  apply (proj1 (proj2 (loadProfile_spares_profile_edits "t0k3n" true true true
                         (Resolved (Some renamedData)) samplePage))).
  left. reflexivity.
Defined.



(* ===================================================================== *)
(** ** Messages shown for a failed request                                *)
(* ===================================================================== *)

Lemma length_append (a b : string) :
  String.length (a +:+ b) = String.length a + String.length b.
Proof. induction a as [|c a IH]; simpl; [reflexivity | now rewrite IH]. Qed.

Lemma length_substring_0 (n : nat) (s : string) :
  String.length (String.substring 0 n s) = Nat.min n (String.length s).
Proof.
  revert s. induction n as [|n IH]; intros [|c s]; simpl; try reflexivity.
  now rewrite IH.
Qed.

Lemma truncateMessage_short (m : string) :
  String.length m <= 120 -> truncateMessage m = m.
Proof.
  intros Hlen. unfold truncateMessage.
  destruct (truthy m) eqn:Ht; simpl.
  - apply Nat.ltb_ge in Hlen. now rewrite Hlen.
  - now apply truthy_false_iff in Ht.
Qed.

Lemma truncateMessage_long (m : string) :
  120 < String.length m ->
  truncateMessage m = String.substring 0 117 m +:+ "...".
Proof.
  intros Hlen. unfold truncateMessage.
  assert (Ht : truthy m = true) by (apply truthy_length; lia).
  rewrite Ht. simpl negb. cbv iota.
  apply Nat.ltb_lt in Hlen. now rewrite Hlen.
Qed.

Lemma truncateMessage_length (m : string) :
  String.length (truncateMessage m) <= 120.
Proof.
  destruct (Nat.le_gt_cases (String.length m) 120) as [Hle|Hgt].
  - now rewrite truncateMessage_short.
  - rewrite truncateMessage_long by assumption.
    rewrite length_append, length_substring_0.
    change (String.length "...") with 3. lia.
Qed.

Lemma truncateMessage_truthy (m : string) :
  m <> "" -> truncateMessage m <> "".
Proof.
  intros Hne. destruct (Nat.le_gt_cases (String.length m) 120) as [Hle|Hgt].
  - now rewrite truncateMessage_short.
  - rewrite truncateMessage_long by assumption. intros H.
    apply (f_equal String.length) in H.
    rewrite length_append in H. change (String.length "...") with 3 in H.
    change (String.length "") with 0 in H. lia.
Qed.

Lemma shortMessageFromError_bounds (failure : ApiError) :
  shortMessageFromError failure <> ""
  /\ String.length (shortMessageFromError failure) <= 120.
Proof.
  assert (Hm : (if truthy (err_message failure)
                then truncateMessage (err_message failure)
                else "Something went wrong. Please try again.") <> ""
               /\ String.length
                    (if truthy (err_message failure)
                     then truncateMessage (err_message failure)
                     else "Something went wrong. Please try again.") <= 120).
  { destruct (truthy (err_message failure)) eqn:Ht.
    - split; [apply truncateMessage_truthy; now apply truthy_true_iff
             | apply truncateMessage_length].
    - split; [discriminate | simpl; lia]. }
  assert (Hd : forall fallback,
            fallback <> "" /\ String.length fallback <= 120 ->
            default fallback
              match err_detail failure with
              | Some detail =>
                  if truthy detail then Some (truncateMessage detail) else None
              | None => None
              end <> ""
            /\ String.length
                 (default fallback
                    match err_detail failure with
                    | Some detail =>
                        if truthy detail then Some (truncateMessage detail)
                        else None
                    | None => None
                    end) <= 120).
  { intros fallback Hf. destruct (err_detail failure) as [detail|]; [|exact Hf].
    destruct (truthy detail) eqn:Ht; [|exact Hf]. simpl.
    split; [apply truncateMessage_truthy; now apply truthy_true_iff
           | apply truncateMessage_length]. }
  unfold shortMessageFromError.
  destruct (err_fields failure) as [|[firstKey first] rest]; [now apply Hd|].
  destruct (truthy firstKey); simpl; [|now apply Hd].
  destruct (truthy first) eqn:Ht; [|now apply Hd].
  split; [apply truncateMessage_truthy; now apply truthy_true_iff
         | apply truncateMessage_length].
Qed.

(** X12.  The message shown for a failed request is never empty and never
    longer than 120 characters.  It is taken from the first field error
    when that has a name and a text, else from the detail when there is
    one, else from the error's own message, else it is the stock sentence;
    a text over 120 characters is cut to its first 117 and three dots. *)
Theorem shortMessageFromError_spec (failure : ApiError) :
  let shown := shortMessageFromError failure in
  shown <> "" /\ String.length shown <= 120
  /\ (forall key text rest,
        err_fields failure = (key, text) :: rest -> key <> "" -> text <> "" ->
        shown = truncateMessage text)
  /\ ((forall key text rest,
         err_fields failure = (key, text) :: rest -> key = "" \/ text = "") ->
      (forall detail, err_detail failure = Some detail -> detail <> "" ->
         shown = truncateMessage detail)
      /\ (err_detail failure = None \/ err_detail failure = Some "" ->
          (err_message failure <> "" ->
           shown = truncateMessage (err_message failure))
          /\ (err_message failure = "" ->
              shown = "Something went wrong. Please try again.")))
  /\ (forall text, String.length text <= 120 -> truncateMessage text = text)
  /\ (forall text, 120 < String.length text ->
        truncateMessage text = String.substring 0 117 text +:+ "..."
        /\ String.length (truncateMessage text) = 120).
Proof.
  intros shown. destruct (shortMessageFromError_bounds failure) as [Hne Hlen].
  split; [exact Hne|]. split; [exact Hlen|]. split; [|split; [|split]].
  - intros key text rest Hf Hk Ht. subst shown. unfold shortMessageFromError.
    rewrite Hf. apply truthy_true_iff in Hk, Ht. now rewrite Hk, Ht.
  - intros Hnofield.
    assert (Hskip : shown
              = default (if truthy (err_message failure)
                         then truncateMessage (err_message failure)
                         else "Something went wrong. Please try again.")
                  match err_detail failure with
                  | Some detail =>
                      if truthy detail then Some (truncateMessage detail)
                      else None
                  | None => None
                  end).
    { subst shown. unfold shortMessageFromError.
      destruct (err_fields failure) as [|[key text] rest]; [reflexivity|].
      destruct (Hnofield key text rest eq_refl) as [-> | ->];
        [reflexivity | now rewrite andb_false_r]. }
    rewrite Hskip. split.
    + intros detail -> Hd. apply truthy_true_iff in Hd. now rewrite Hd.
    + intros Hnod.
      assert (Hnone : match err_detail failure with
                      | Some detail =>
                          if truthy detail then Some (truncateMessage detail)
                          else None
                      | None => None
                      end = None) by (destruct Hnod as [-> | ->]; reflexivity).
      rewrite Hnone. simpl. split.
      * intros Hm. apply truthy_true_iff in Hm. now rewrite Hm.
      * intros ->. reflexivity.
  - apply truncateMessage_short.
  - intros text Hlong. split; [now apply truncateMessage_long|].
    rewrite truncateMessage_long by assumption.
    rewrite length_append, length_substring_0.
    change (String.length "...") with 3. lia.
Qed.

Lemma shortMessageFromError_spec_witness :
  shortMessageFromError
    {| err_message := "Request failed"; err_status := Some 400;
       err_fields := [("username", "This username is already taken.")];
       err_detail := Some "Validation failed." |}
  = "This username is already taken.".
Proof.
  apply (proj1 (proj2 (proj2 (shortMessageFromError_spec
           {| err_message := "Request failed"; err_status := Some 400;
              err_fields := [("username", "This username is already taken.")];
              err_detail := Some "Validation failed." |})))
           "username" "This username is already taken." [] eq_refl);
    discriminate.
Defined.

(* ===================================================================== *)
(** ** More on [handleSave]                                               *)
(* ===================================================================== *)

Lemma mapError_lookup apiErrors key name mapped field text :
  mapError apiErrors key name mapped !! field = Some text ->
  (field = name /\ assoc key apiErrors = Some text /\ text <> "")
  \/ mapped !! field = Some text.
Proof.
  unfold mapError. destruct (assoc key apiErrors) as [found|]; [|now right].
  destruct (truthy found) eqn:Ht; [|now right].
  destruct (decide (name = field)) as [->|Hne].
  - rewrite lookup_insert_eq. intros [= ->]. left.
    repeat split. now apply truthy_true_iff.
  - rewrite lookup_insert_ne by assumption. now right.
Qed.

(** The form field each server-side key is mapped to. *)
Definition serverKeys : list (string * string) :=
  [ ("display_name", "displayName"); ("username", "username");
    ("profile_url", "profileUrl"); ("status", "status"); ("bio", "bio");
    ("location", "location"); ("interests", "interests") ].

Lemma mappedErrors_lookup apiErrors field text :
  mappedErrors apiErrors !! field = Some text ->
  exists key, In (key, field) serverKeys
              /\ assoc key apiErrors = Some text /\ text <> "".
Proof.
  unfold mappedErrors. intros H.
  repeat (apply mapError_lookup in H as [(-> & Ha & Hne)|H];
          [eexists; split; [|split; eassumption]; simpl; tauto|]).
  rewrite lookup_empty in H. discriminate.
Qed.

Section SaveFacts.

Context {User : Type} `{!PageDefaults User}.
Implicit Types (o : @Oracle User) (p : Page).

(** X13.  A save the server rejects changes neither saved nor draft, in
    any of the four sections: it ends the saving state and shows one error
    toast, whose text is never empty.  In the profile section the errors
    the server names are put on the form: each under one of the seven
    field names of the form, with the server's text for the matching key;
    when the server names none, the errors on the form stay. *)
Theorem rejected_save_keeps_forms (closure p : Page) (failure : ApiError) :
  let shown := [@Toasted User (shortMessageFromError failure) "error"] in
  shortMessageFromError failure <> ""
  /\ (let '(q, told) := reconcileProfile closure (Rejected failure) p in
      saved q = saved p /\ draft q = draft p /\ isSaving q = false
      /\ told = shown
      /\ (mappedErrors (err_fields failure) = ∅ ->
          profileErrors q = profileErrors p)
      /\ (mappedErrors (err_fields failure) <> ∅ ->
          profileErrors q = mappedErrors (err_fields failure))
      /\ (forall field text,
            mappedErrors (err_fields failure) !! field = Some text ->
            exists key, In (key, field) serverKeys
                        /\ assoc key (err_fields failure) = Some text
                        /\ text <> ""))
  /\ (let '(q, told) := reconcilePrivacy closure (Rejected failure) p in
      saved q = saved p /\ draft q = draft p /\ isSaving q = false
      /\ told = shown)
  /\ (let '(q, told) := @reconcileNotifications User (Rejected failure) p in
      saved q = saved p /\ draft q = draft p /\ isSaving q = false
      /\ told = shown)
  /\ (let '(q, told) := reconcileAppearance closure (Rejected failure) p in
      saved q = saved p /\ draft q = draft p /\ isSaving q = false
      /\ told = shown).
Proof.
  intros shown. split; [apply shortMessageFromError_bounds|]. split.
  - simpl. unfold noErrors. case_bool_decide as Hm; simpl.
    + repeat split; try reflexivity; try (intros; congruence).
      intros field text. rewrite Hm, lookup_empty. discriminate.
    + repeat split; try reflexivity; try (intros; congruence).
      apply mappedErrors_lookup.
  - simpl. repeat split.
Qed.

Lemma sectionFields_known sectionId :
  sectionFields sectionId <> [] ->
  sectionId = "profile" \/ sectionId = "privacy"
  \/ sectionId = "notifications" \/ sectionId = "appearance".
Proof.
  unfold sectionFields. destruct (sectionFieldMap !! sectionId) as [l|] eqn:Hl;
    [|intros H; now contradiction H].
  intros _. unfold sectionFieldMap in Hl.
  apply elem_of_list_to_map_2 in Hl.
  rewrite !elem_of_cons, elem_of_nil in Hl.
  destruct Hl as [Hl|[Hl|[Hl|[Hl|[]]]]]; injection Hl as -> _; tauto.
Qed.

Lemma isDirty_known p :
  isDirty p = true ->
  activeSection p = "profile" \/ activeSection p = "privacy"
  \/ activeSection p = "notifications" \/ activeSection p = "appearance".
Proof.
  unfold isDirty, hasSectionChanges. intros H. apply sectionFields_known.
  intros Hnil. rewrite Hnil in H. discriminate.
Qed.

(** X14.  The last branch of [handleSave], which would copy the draft into
    saved after a timer without asking the server, never runs: a dirty
    page is on one of the four sections that have their own branch, and no
    call of [handleSave] ends with the toast of that branch. *)
Theorem handleSave_timer_branch_dead (token : string) o p :
  (isDirty p = true ->
   activeSection p = "profile" \/ activeSection p = "privacy"
   \/ activeSection p = "notifications" \/ activeSection p = "appearance")
  /\ ~ In (Toasted "Settings saved." "success") (signals (handleSave token o p)).
Proof.
  split; [apply isDirty_known|].
  assert (Huser : forall data, ~ In (Toasted "Settings saved." "success")
                                   (@userSignal User data)).
  { intros data. unfold userSignal. destruct (data ≫= user); simpl;
      intuition discriminate. }
  assert (Hrec : forall (r : Page * list (@Signal User)) ok,
            (snd r = [Toasted ok "error"]
             \/ exists data,
                  snd r = userSignal data ++ [Toasted "Profile updated successfully." "success"]
                  \/ snd r = userSignal data ++ [Toasted "Privacy settings updated." "success"]
                  \/ snd r = [Toasted "Notification preferences updated." "success"]
                  \/ snd r = userSignal data ++ [Toasted "Appearance updated." "success"]) ->
            ~ In (Toasted "Settings saved." "success") (snd r)).
  { intros r ok [-> | (data & [-> | [-> | [-> | ->]]])];
      [simpl; intuition discriminate | | | |];
      rewrite ?in_app_iff; simpl; pose proof (Huser data);
      intuition discriminate. }
  unfold handleSave. destruct (isDirty p) eqn:Hdirty; simpl negb; cbv iota;
    [|simpl; tauto].
  destruct (isDirty_known p Hdirty) as [-> | [-> | [-> | ->]]]; simpl String.eqb;
    cbv iota.
  - destruct (noErrors (validateProfile (draft p))); simpl negb; cbv iota;
      [|simpl; tauto].
    destruct (validateAvailability _); simpl negb; cbv iota; [|simpl; tauto].
    destruct (truthy token); simpl negb; cbv iota;
      [|simpl; intuition discriminate].
    cbn [signals]. apply (Hrec _ (match patch o with
                                  | Rejected failure => shortMessageFromError failure
                                  | _ => "" end)).
    destruct (patch o) as [data|failure]; simpl; [right; exists data|]; tauto.
  - destruct (truthy token); simpl negb; cbv iota;
      [|simpl; intuition discriminate].
    cbn [signals settle]. apply (Hrec _ (match patch o with
                                  | Rejected failure => shortMessageFromError failure
                                  | _ => "" end)).
    destruct (patch o) as [data|failure]; simpl; [right; exists data|]; tauto.
  - destruct (truthy token); simpl negb; cbv iota;
      [|simpl; intuition discriminate].
    cbn [signals settle]. apply (Hrec _ (match patch o with
                                  | Rejected failure => shortMessageFromError failure
                                  | _ => "" end)).
    destruct (patch o) as [data|failure]; simpl; [right; exists data|]; tauto.
  - destruct (truthy token); simpl negb; cbv iota;
      [|simpl; intuition discriminate].
    cbn [signals settle]. apply (Hrec _ (match patch o with
                                  | Rejected failure => shortMessageFromError failure
                                  | _ => "" end)).
    destruct (patch o) as [data|failure]; simpl; [right; exists data|]; tauto.
Qed.

End SaveFacts.

Lemma rejected_save_keeps_forms_witness :
  profileErrors
    (fst (@reconcileProfile UserObject _ samplePage
            (Rejected {| err_message := "Request failed"; err_status := Some 400;
                         err_fields := [("profile_url", "This URL is taken.")];
                         err_detail := None |})
            samplePage))
  = {[ "profileUrl" := "This URL is taken." ]}.
Proof.
  pose proof (proj1 (proj2 (@rejected_save_keeps_forms UserObject _ samplePage samplePage
                {| err_message := "Request failed"; err_status := Some 400;
                   err_fields := [("profile_url", "This URL is taken.")];
                   err_detail := None |}))) as H.
  cbv beta iota delta [reconcileProfile] in H.
  destruct H as (_ & _ & _ & _ & _ & H & _).
  etransitivity; [apply H; vm_compute; discriminate | reflexivity].
Defined.

Lemma handleSave_timer_branch_dead_witness :
  activeSection samplePage = "profile" \/ activeSection samplePage = "privacy"
  \/ activeSection samplePage = "notifications"
  \/ activeSection samplePage = "appearance".
Proof.
  apply (proj1 (handleSave_timer_branch_dead "t0k3n" quietOracle samplePage)).
  reflexivity.
Defined.

(* ===================================================================== *)
(** ** The active section and the address                                 *)
(* ===================================================================== *)

(** What can move the active section: the three controls, the two answers
    to the discard prompt, the Cancel button, and a change of the [tab]
    search parameter followed by the effect that reads it. *)
Inductive NavEvent : Type :=
| ClickEntry (sectionId : string) (event : Click)
| ClickBackToList (event : Click)
| ClickBackToProfile (event : Click)
| ConfirmDiscard
| CancelDiscard
| PressCancel
| AddressChanged (tab : option string).

Definition navStep (isMobile : bool) (p : Page) (e : NavEvent) : Page :=
  match e with
  | ClickEntry sectionId event => fst (navItem_onClick isMobile sectionId event p)
  | ClickBackToList event => fst (backToList_onClick event p)
  | ClickBackToProfile event => fst (backToProfile_onClick event p)
  | ConfirmDiscard => fst (handleDiscardConfirm isMobile p)
  | CancelDiscard => fst (handleDiscardCancel p)
  | PressCancel => handleCancel p
  | AddressChanged tab => syncSection isMobile (set_searchTab tab p)
  end.

Definition navRun (isMobile : bool) (events : list NavEvent) (p : Page) : Page :=
  fold_left (navStep isMobile) events p.

Lemma resolveSection_known tab : resolveSection tab ∈ settingsSectionIds.
Proof.
  unfold resolveSection. destruct tab as [t|].
  - case_bool_decide; [assumption|]. apply settingsSectionIds_spec. tauto.
  - apply settingsSectionIds_spec. tauto.
Qed.

Lemma applySection_keeps_known isMobile sectionId p :
  activeSection p ∈ settingsSectionIds ->
  activeSection (applySection isMobile sectionId p) ∈ settingsSectionIds.
Proof.
  intros Hin. unfold applySection. case_bool_decide; [|assumption].
  now destruct isMobile.
Qed.

Lemma syncSection_active isMobile p :
  activeSection (syncSection isMobile p) = resolveSection (searchTab p).
Proof.
  unfold syncSection.
  destruct (String.eqb (resolveSection (searchTab p)) (activeSection p)) eqn:E.
  - apply String.eqb_eq in E. simpl.
    repeat match goal with
           | |- context [if ?b then _ else _] => destruct b
           end; simpl; congruence.
  - simpl.
    repeat match goal with
           | |- context [if ?b then _ else _] => destruct b
           end; reflexivity.
Qed.

Lemma navStep_keeps_known isMobile p e :
  activeSection p ∈ settingsSectionIds ->
  activeSection (navStep isMobile p e) ∈ settingsSectionIds.
Proof.
  intros Hin. destruct e as [sectionId event|event|event| | | |tab]; simpl.
  - unfold navItem_onClick, handleSectionChange.
    destruct (String.eqb sectionId (activeSection p)); simpl;
      [now destruct isMobile|].
    destruct (isDirty p); simpl; [assumption|].
    now apply applySection_keeps_known.
  - unfold backToList_onClick, handleBackToList.
    destruct (isDirty p); simpl; assumption.
  - unfold backToProfile_onClick, handleBackToProfile.
    destruct (isDirty p); simpl; assumption.
  - unfold handleDiscardConfirm.
    destruct (pendingSection p) as [pending|]; [|assumption].
    destruct (String.eqb pending "back"); [assumption|].
    destruct (String.eqb pending "list"); [assumption|].
    destruct (truthy pending); [|assumption]. simpl.
    now apply applySection_keeps_known.
  - assumption.
  - assumption.
  - rewrite syncSection_active. apply resolveSection_known.
Qed.

(** X15.  The active section is always one of the six sections: no click,
    no answer to the discard prompt and no address, however malformed its
    [tab] parameter, can make it anything else.  After the address has
    been read the active section is the one the parameter names, the
    account section when it names none; and on the desktop layout the
    address then names the active section. *)
Theorem activeSection_always_known
    (isMobile : bool) (events : list NavEvent) (p : Page) :
  activeSection p ∈ settingsSectionIds ->
  activeSection (navRun isMobile events p) ∈ settingsSectionIds
  /\ (forall tab,
        let q := syncSection isMobile (set_searchTab tab (navRun isMobile events p)) in
        activeSection q = resolveSection tab
        /\ (forall t, tab = Some t -> t ∈ settingsSectionIds ->
              activeSection q = t)
        /\ (isMobile = false -> searchTab q = Some (activeSection q))).
Proof.
  intros Hin. split.
  - revert p Hin. induction events as [|e events IH]; intros p Hin; simpl;
      [assumption|].
    apply IH. now apply navStep_keeps_known.
  - intros tab q. subst q.
    set (r := navRun isMobile events p).
    pose proof (syncSection_active isMobile (set_searchTab tab r)) as Ha.
    simpl searchTab in Ha. split; [exact Ha|]. split.
    + intros t -> Ht. rewrite Ha. unfold resolveSection.
      now rewrite bool_decide_eq_true_2.
    + intros ->. rewrite Ha. unfold syncSection. simpl searchTab.
      destruct tab as [t|]; simpl.
      * destruct (truthy t) eqn:Ht; simpl.
        -- case_bool_decide as Hk; simpl.
           ++ destruct (String.eqb t (activeSection r)); reflexivity.
           ++ destruct (String.eqb "account" (activeSection r)); reflexivity.
        -- apply truthy_false_iff in Ht. subst t. reflexivity.
      * destruct (String.eqb "account" (activeSection r)); reflexivity.
Qed.

Lemma activeSection_always_known_witness :
  activeSection
    (navRun false
       [ClickEntry "privacy" {| currentTarget := 3; activeElement := Some 3 |};
        ConfirmDiscard; AddressChanged (Some "billing")]
       samplePage)
  ∈ settingsSectionIds.
Proof.
  apply (proj1 (activeSection_always_known false _ samplePage
                  (proj2 (settingsSectionIds_spec "profile")
                     (or_intror (or_introl eq_refl))))).
Defined.

(* ===================================================================== *)
(** ** Notification preferences                                           *)
(* ===================================================================== *)

Lemma mergePrefs_idempotent prefs v :
  mergePrefs prefs (mergePrefs prefs v) = mergePrefs prefs v.
Proof.
  unfold mergePrefs. simpl.
  destruct (n_email_notifications prefs), (n_emailNotifications prefs),
    (n_product_updates prefs), (n_productUpdates prefs),
    (n_new_follower_alerts prefs), (n_newFollowerAlerts prefs),
    (n_weekly_digest prefs), (n_weeklyDigest prefs),
    (n_pause_notifications prefs), (n_pauseNotifications prefs); reflexivity.
Qed.

(** Preferences that carry all five settings, each under one of its two
    names. *)
Definition completePrefs (prefs : Prefs) : Prop :=
  (is_Some (n_email_notifications prefs) \/ is_Some (n_emailNotifications prefs))
  /\ (is_Some (n_product_updates prefs) \/ is_Some (n_productUpdates prefs))
  /\ (is_Some (n_new_follower_alerts prefs)
      \/ is_Some (n_newFollowerAlerts prefs))
  /\ (is_Some (n_weekly_digest prefs) \/ is_Some (n_weeklyDigest prefs))
  /\ (is_Some (n_pause_notifications prefs)
      \/ is_Some (n_pauseNotifications prefs)).

Lemma nullish_pair_agree {A} (a b : option A) (x y : A) :
  is_Some a \/ is_Some b -> nullish a (nullish b x) = nullish a (nullish b y).
Proof.
  intros H. destruct a as [v|]; [reflexivity|]. destruct b as [v|]; [reflexivity|].
  destruct H as [[v H]|[v H]]; discriminate.
Qed.

(** What one setting holds after it has been written from a response:
    the value under its snake-case name; without one, the value under its
    camel-case name; without either, what it held before. *)
Definition written {A} (snake camel : option A) (before after : A) : Prop :=
  match snake, camel with
  | Some x, _ => after = x
  | None, Some y => after = y
  | None, None => after = before
  end.

(** X16.  [applyNotificationPrefs] writes the five notification
    preferences and nothing else: the other twelve fields of saved and of
    draft are as before.  Each of the five, in saved and in draft alike,
    takes the value the preferences carry under its snake-case name, else
    the one under its camel-case name, and keeps the value it had when
    they carry neither.  Applying the same preferences again changes
    nothing, and when the preferences carry all five settings the
    notifications section is clean afterwards. *)
Theorem applyNotificationPrefs_spec (prefs : Prefs) (p : Page) :
  let q := applyNotificationPrefs prefs p in
  agreeButNotifications (saved q) (saved p)
  /\ agreeButNotifications (draft q) (draft p)
  /\ applyNotificationPrefs prefs q = q
  /\ (completePrefs prefs ->
      hasSectionChanges (saved q) (draft q) "notifications" = false)
  /\ written (n_email_notifications prefs) (n_emailNotifications prefs)
       (emailNotifications (saved p)) (emailNotifications (saved q))
  /\ written (n_product_updates prefs) (n_productUpdates prefs)
       (productUpdates (saved p)) (productUpdates (saved q))
  /\ written (n_new_follower_alerts prefs) (n_newFollowerAlerts prefs)
       (newFollowerAlerts (saved p)) (newFollowerAlerts (saved q))
  /\ written (n_weekly_digest prefs) (n_weeklyDigest prefs)
       (weeklyDigest (saved p)) (weeklyDigest (saved q))
  /\ written (n_pause_notifications prefs) (n_pauseNotifications prefs)
       (pauseNotifications (saved p)) (pauseNotifications (saved q))
  /\ written (n_email_notifications prefs) (n_emailNotifications prefs)
       (emailNotifications (draft p)) (emailNotifications (draft q))
  /\ written (n_product_updates prefs) (n_productUpdates prefs)
       (productUpdates (draft p)) (productUpdates (draft q))
  /\ written (n_new_follower_alerts prefs) (n_newFollowerAlerts prefs)
       (newFollowerAlerts (draft p)) (newFollowerAlerts (draft q))
  /\ written (n_weekly_digest prefs) (n_weeklyDigest prefs)
       (weeklyDigest (draft p)) (weeklyDigest (draft q))
  /\ written (n_pause_notifications prefs) (n_pauseNotifications prefs)
       (pauseNotifications (draft p)) (pauseNotifications (draft q)).
Proof.
  assert (Hw : forall A (a b : option A) (x : A),
            written a b x (nullish a (nullish b x))).
  { intros A [v|] [w|] x; reflexivity. }
  intros q. subst q. unfold applyNotificationPrefs. simpl.
  split; [by repeat split|]. split; [by repeat split|].
  split; [|split].
  - rewrite !mergePrefs_idempotent. reflexivity.
  - intros (H1 & H2 & H3 & H4 & H5).
    rewrite <- not_true_iff_false, hasSectionChanges_notifications. simpl.
    rewrite (nullish_pair_agree _ _ (emailNotifications (saved p))
               (emailNotifications (draft p)) H1).
    rewrite (nullish_pair_agree _ _ (productUpdates (saved p))
               (productUpdates (draft p)) H2).
    rewrite (nullish_pair_agree _ _ (newFollowerAlerts (saved p))
               (newFollowerAlerts (draft p)) H3).
    rewrite (nullish_pair_agree _ _ (weeklyDigest (saved p))
               (weeklyDigest (draft p)) H4).
    rewrite (nullish_pair_agree _ _ (pauseNotifications (saved p))
               (pauseNotifications (draft p)) H5).
    tauto.
  - repeat split; apply Hw.
Qed.

Lemma applyNotificationPrefs_spec_witness :
  hasSectionChanges
    (saved (applyNotificationPrefs
              {| n_email_notifications := Some false; n_emailNotifications := None;
                 n_product_updates := None; n_productUpdates := Some true;
                 n_new_follower_alerts := Some true; n_newFollowerAlerts := None;
                 n_weekly_digest := Some true; n_weeklyDigest := None;
                 n_pause_notifications := Some "1h";
                 n_pauseNotifications := None |} samplePage))
    (draft (applyNotificationPrefs
              {| n_email_notifications := Some false; n_emailNotifications := None;
                 n_product_updates := None; n_productUpdates := Some true;
                 n_new_follower_alerts := Some true; n_newFollowerAlerts := None;
                 n_weekly_digest := Some true; n_weeklyDigest := None;
                 n_pause_notifications := Some "1h";
                 n_pauseNotifications := None |} samplePage))
    "notifications" = false.
Proof.
  apply (proj1 (proj2 (proj2 (proj2 (applyNotificationPrefs_spec _ samplePage))))).
  repeat split; simpl; eauto.
Defined.

(* ===================================================================== *)
(** ** The unload guard                                                   *)
(* ===================================================================== *)

Definition sameKind (v1 v2 : Json.Value) : Prop :=
  match v1, v2 with
  | Json.VString _, Json.VString _ => True
  | Json.VBool _, Json.VBool _ => True
  | Json.VArray _, Json.VArray _ => True
  | _, _ => False
  end.

Lemma value_prefix_inj (v1 v2 : Json.Value) (t1 t2 : list ascii) :
  sameKind v1 v2 ->
  Json.stringify_chars v1 ++ t1 = Json.stringify_chars v2 ++ t2 ->
  v1 = v2 /\ t1 = t2.
Proof.
  destruct v1 as [s1|b1|l1], v2 as [s2|b2|l2]; simpl; try contradiction;
    intros _ H.
  - apply Json.quote_app_inj in H as [-> ->]. now split.
  - destruct b1, b2; simpl in H; try discriminate;
      injection H as ->; now split.
  - injection H as H. rewrite <- !app_assoc in H. simpl in H.
    pose proof (Json.join_quoted_inj _ _ _ _ H) as ->.
    apply app_inv_head in H. injection H as ->. now split.
Qed.

Definition sameShape (m1 m2 : list (string * Json.Value)) : Prop :=
  Forall2 (fun a b => fst a = fst b /\ sameKind (snd a) (snd b)) m1 m2.

Lemma join_members_cons k v rest t :
  join_members ((k, v) :: rest) ++ "}"%char :: t
  = Json.quote k
    ++ ":"%char :: Json.stringify_chars v
    ++ match rest with
       | [] => "}"%char :: t
       | _ :: _ => ","%char :: join_members rest ++ "}"%char :: t
       end.
Proof.
  destruct rest; simpl; rewrite <- ?app_assoc; simpl; rewrite <- ?app_assoc;
    reflexivity.
Qed.

Lemma join_members_inj m1 : forall m2 t1 t2,
  sameShape m1 m2 ->
  join_members m1 ++ "}"%char :: t1 = join_members m2 ++ "}"%char :: t2 ->
  m1 = m2.
Proof.
  induction m1 as [|[k1 v1] rest1 IH]; intros m2 t1 t2 Hshape H;
    inversion Hshape as [|? [k2 v2] ? rest2 [Hk Hv] Hrest]; subst;
    [reflexivity|].
  simpl in Hk. subst k2. simpl in Hv.
  rewrite !join_members_cons in H.
  apply Json.quote_app_inj in H as [_ H]. injection H as H.
  apply (value_prefix_inj _ _ _ _ Hv) in H as [-> H].
  f_equal. inversion Hrest as [|a b ra rb Hab Hr']; subst.
  - reflexivity.
  - injection H as H. exact (IH _ _ _ Hrest H).
Qed.

Lemma properties_sameShape s d : sameShape (properties s) (properties d).
Proof. unfold sameShape, properties. repeat constructor. Qed.

Lemma properties_inj s d : properties s = properties d -> s = d.
Proof.
  destruct s, d. unfold properties. simpl. intros H.
  injection H. intros. subst. reflexivity.
Qed.

Lemma cons_eq_tail {A} (a : A) (x y : list A) : a :: x = a :: y -> x = y.
Proof. now intros [= ->]. Qed.

Lemma stringify_object_inj s d :
  stringify_object s = stringify_object d -> s = d.
Proof.
  unfold stringify_object. intros H.
  apply (f_equal list_ascii_of_string) in H.
  rewrite !list_ascii_of_string_of_list_ascii in H. apply cons_eq_tail in H.
  apply properties_inj.
  exact (join_members_inj _ _ [] [] (properties_sameShape s d) H).
Qed.

Lemma equal_unless {A} `{EqDecision A} (x y : A) (P : Prop) :
  ~ P -> (x <> y -> P) -> x = y.
Proof.
  intros Hno Himp. destruct (decide (x = y)); [assumption|]. exfalso. auto.
Qed.

Lemma clean_sections_equal s d :
  hasSectionChanges s d "profile" = false ->
  hasSectionChanges s d "privacy" = false ->
  hasSectionChanges s d "notifications" = false ->
  hasSectionChanges s d "appearance" = false ->
  s = d.
Proof.
  rewrite <- !not_true_iff_false.
  rewrite hasSectionChanges_profile, hasSectionChanges_privacy,
    hasSectionChanges_notifications, hasSectionChanges_appearance.
  intros Hp Hv Hn Ha.
  destruct s, d; simpl in *. f_equal;
    solve [ apply (equal_unless _ _ _ Hp); tauto
          | apply (equal_unless _ _ _ Hv); tauto
          | apply (equal_unless _ _ _ Hn); tauto
          | apply (equal_unless _ _ _ Ha); tauto ].
Qed.

(** X17.  The guard against leaving the page ([window.onbeforeunload]) is
    armed exactly when saved and draft differ, and that is exactly when
    one of the four sections with a field list is dirty: every field of
    the settings object belongs to one of them.  In particular it is off
    after Cancel. *)
Theorem unload_guard_iff_some_section_dirty (s d : Values) :
  (hasUnloadGuard s d = true <-> s <> d)
  /\ (hasUnloadGuard s d = true <->
      hasSectionChanges s d "profile" = true
      \/ hasSectionChanges s d "privacy" = true
      \/ hasSectionChanges s d "notifications" = true
      \/ hasSectionChanges s d "appearance" = true)
  /\ (forall p, hasUnloadGuard (saved (handleCancel p)) (draft (handleCancel p))
                = false).
Proof.
  assert (Hneq : hasUnloadGuard s d = true <-> s <> d).
  { unfold hasUnloadGuard. rewrite negb_true_iff, String.eqb_neq. split.
    - intros H ->. now apply H.
    - intros H Heq. apply H. now apply stringify_object_inj. }
  split; [exact Hneq|]. split.
  - rewrite Hneq. split.
    + intros Hne.
      destruct (hasSectionChanges s d "profile") eqn:Hp; [tauto|].
      destruct (hasSectionChanges s d "privacy") eqn:Hv; [tauto|].
      destruct (hasSectionChanges s d "notifications") eqn:Hn; [tauto|].
      destruct (hasSectionChanges s d "appearance") eqn:Ha; [tauto|].
      exfalso. apply Hne. now apply clean_sections_equal.
    + intros H ->. rewrite !hasSectionChanges_same in H.
      intuition discriminate.
  - intros p. simpl. unfold hasUnloadGuard. now rewrite String.eqb_refl.
Qed.

(* ===================================================================== *)
(** ** The API client: [buildApiUrl], [apiRequest]                        *)
(* ===================================================================== *)

Module Api.

(** [path.startsWith("/")] *)
Definition startsWithSlash (path : string) : bool :=
match path with
| String c _ => Ascii.eqb c "/"
| EmptyString => false
end.

(** [buildApiUrl], for a base address [API_BASE_URL]. *)
Definition buildApiUrl (base path : string) : string :=
if startsWithSlash path then base +:+ path else base +:+ "/" +:+ path.

(** What [fetch] settles to: it throws, or it gives a response with its
    [ok] flag, its status and its text. *)
Record Response : Type := { ok : bool; http_status : nat; text : string }.

Inductive Fetched : Type :=
| Threw (message : string)
| Answered (response : Response).

Section Request.

(** A parsed JSON document [J], with the two things the client reads from
    one: its [detail] and its [errors] (own properties in key order, values
    as strings).  [JSON_parse] gives [None] where [JSON.parse] throws;
    [detailObject t] is the object [{ detail: t }]. *)
Context {J : Type}.
Variable JSON_parse : string -> option J.
Variable detailObject : string -> J.
Variable detailOf : J -> option string.
Variable errorsOf : J -> list (string * string).

(** The request headers: the content type always, the API key when one is
    configured, the token when there is one. *)
Definition headersOf (API_KEY token : string) : list (string * string) :=
[("Content-Type", "application/json")]
++ (if truthy API_KEY then [("X-API-Key", API_KEY)] else [])
++ (if truthy token then [("Authorization", "Token " +:+ token)] else []).

(** [payload], from the text of the response. *)
Definition payloadOf (body : string) : option J :=
if truthy body then
  match JSON_parse body with
  | Some parsed => Some parsed
  | None => Some (detailObject body)
  end
else None.

(** [apiRequest], from the settling of [fetch]. *)
Definition apiRequest (fetched : Fetched) : ApiOutcome (option J) :=
match fetched with
| Threw message =>
    Rejected {| err_message := "Unable to reach the server. Please try again.";
                err_status := None;
                err_fields := [];
                err_detail := Some message |}
| Answered response =>
    let payload := payloadOf (text response) in
    if negb (ok response) then
      Rejected {| err_message := str_or (payload ≫= detailOf) "Request failed";
                  err_status := Some (http_status response);
                  err_fields := from_option errorsOf [] payload;
                  err_detail := payload ≫= detailOf |}
    else Resolved payload
end.

End Request.

End Api.

Import Api.

(** X18.  What the user is told when a request fails, by kind of failure.
    A response that is [ok] never fails and one that is not always does,
    carrying its status.  When the server cannot be reached the message is
    the network error's own text, or the stock sentence about reaching the
    server when that text is empty.  A failure response with an empty body
    gives [Request failed].  A failure response whose body is not JSON
    gives the body itself, cut to 120 characters. *)
Theorem apiRequest_failure_message {J : Type}
    (JSON_parse : string -> option J) (detailObject : string -> J)
    (detailOf : J -> option string) (errorsOf : J -> list (string * string)) :
  (forall t, detailOf (detailObject t) = Some t) ->
  (forall t, errorsOf (detailObject t) = []) ->
  let request := apiRequest JSON_parse detailObject detailOf errorsOf in
  (forall response,
     ok response = true ->
     request (Answered response)
     = Resolved (payloadOf JSON_parse detailObject (text response)))
  /\ (forall response,
        ok response = false ->
        exists failure,
          request (Answered response) = Rejected failure
          /\ err_status failure = Some (http_status response))
  /\ (forall message failure,
        request (Threw message) = Rejected failure ->
        shortMessageFromError failure
        = if truthy message then truncateMessage message
          else "Unable to reach the server. Please try again.")
  /\ (forall response failure,
        text response = "" ->
        request (Answered response) = Rejected failure ->
        shortMessageFromError failure = "Request failed")
  /\ (forall response failure,
        text response <> "" -> JSON_parse (text response) = None ->
        request (Answered response) = Rejected failure ->
        shortMessageFromError failure = truncateMessage (text response)).
Proof.
  intros Hdetail Herrors request. subst request.
  split; [|split; [|split; [|split]]].
  - intros response Hok. simpl. now rewrite Hok.
  - intros response Hok. simpl. rewrite Hok. simpl. eexists. split; reflexivity.
  - intros message failure [= <-]. unfold shortMessageFromError. simpl.
    destruct (truthy message); reflexivity.
  - intros response failure Hempty. simpl. unfold payloadOf. rewrite Hempty.
    simpl. destruct (ok response); simpl; [discriminate|].
    intros [= <-]. reflexivity.
  - intros response failure Hne Hparse. simpl. unfold payloadOf.
    apply truthy_true_iff in Hne. rewrite Hne, Hparse.
    destruct (ok response); simpl; [discriminate|].
    intros [= <-]. unfold shortMessageFromError. simpl.
    rewrite Herrors, Hdetail. now rewrite Hne.
Qed.

Lemma apiRequest_failure_message_witness :
  match apiRequest (fun _ : string => @None string) (fun t => t)
          (fun t => Some t) (fun _ => [])
          (Answered {| ok := false; http_status := 502; text := "Bad Gateway" |})
  with
  | Rejected failure => shortMessageFromError failure = "Bad Gateway"
  | Resolved _ => False
  end.
Proof.
  destruct (apiRequest (fun _ : string => @None string) (fun t => t)
              (fun t => Some t) (fun _ => [])
              (Answered {| ok := false; http_status := 502;
                           text := "Bad Gateway" |}))
    as [data|failure] eqn:E; [discriminate E|].
  exact (proj2 (proj2 (proj2 (proj2
           (apiRequest_failure_message (fun _ : string => @None string)
              (fun t => t) (fun t => Some t) (fun _ => [])
              (fun t => eq_refl) (fun t => eq_refl)))))
           {| ok := false; http_status := 502; text := "Bad Gateway" |}
           failure ltac:(discriminate) eq_refl E).
Defined.

(* ===================================================================== *)
(** ** The session store: restoring and refreshing                        *)
(* ===================================================================== *)

Module Session.
Section Restore.

Context {User : Type}.

(** [JSON.stringify({ token, user })] with a user and without one, and the
    reading back of a stored record: [None] where [JSON.parse] or the
    access to [parsed.token] throws. *)
Variable stringify : string -> User -> string.
Variable stringifyToken : string -> string.

Record Stored : Type := { stored_token : option string; stored_user : option User }.

Variable parseStored : string -> option Stored.

(** The store with the [isRestoring] flag of the provider. *)
Record State : Type := { auth : @Auth.Store User; isRestoring : bool }.

Definition initial (storage : gmap string string) : State :=
{| auth := {| Auth.token := ""; Auth.user := None;
              Auth.localStorage := storage; Auth.console := [] |};
   isRestoring := true |}.

Definition setIsRestoring (b : bool) (s : State) : State :=
{| auth := auth s; isRestoring := b |}.

(** [persistAuth(nextToken, nextUser)] where [nextUser] may be
    [undefined]. *)
Definition persist (nextToken : string) (nextUser : option User) (s : State) : State :=
{| auth :=
     match nextUser with
     | Some u => Auth.persistAuth stringify nextToken u (auth s)
     | None =>
         {| Auth.token := nextToken; Auth.user := None;
            Auth.localStorage :=
              <[AUTH_STORAGE_KEY := stringifyToken nextToken]>
                (Auth.localStorage (auth s));
            Auth.console := Auth.console (auth s) |}
     end;
   isRestoring := isRestoring s |}.

Definition clear (s : State) : State :=
{| auth := Auth.clearAuth (auth s); isRestoring := isRestoring s |}.

(** The payload of [GET /auth/session/]. *)
Record SessionData : Type := { session_user : option User }.

Inductive Refreshed : Type :=
| Returned (user : option User)
| Thrown.

(** [refreshSession(providedToken, silent)] up to its [await]: [None] is
    the request for the session. *)
Definition refreshSession_start (providedToken : string) (s : State) :
    State * option Refreshed :=
if negb (truthy providedToken) then (setIsRestoring false s, Some (Returned None))
else (setIsRestoring true s, None).

(** From the settling of the request.  A [null] payload makes
    [data.user] throw inside the [try]; it is handled like a failed
    request. *)
Definition refreshSession_resume (providedToken : string) (silent : bool)
    (outcome : ApiOutcome (option SessionData)) (s : State) : State * Refreshed :=
match outcome with
| Resolved (Some data) =>
    (setIsRestoring false (persist providedToken (session_user data) s),
     Returned (session_user data))
| Resolved None | Rejected _ =>
    if silent then (setIsRestoring false (clear s), Returned None)
    else (setIsRestoring false s, Thrown)
end.

(** The effect that runs when the provider mounts, to its end: [server] is
    what the session request settles to, [meanwhile] what happens to the
    store while it is pending. *)
Definition restore (server : ApiOutcome (option SessionData))
    (meanwhile : State -> State) (s : State) : State :=
match Auth.localStorage (auth s) !! AUTH_STORAGE_KEY with
| None => setIsRestoring false s
| Some stored =>
    if negb (truthy stored) then setIsRestoring false s
    else
      match parseStored stored with
      | None =>
          setIsRestoring false
            {| auth :=
                 {| Auth.token := Auth.token (auth s);
                    Auth.user := Auth.user (auth s);
                    Auth.localStorage :=
                      delete AUTH_STORAGE_KEY (Auth.localStorage (auth s));
                    Auth.console := Auth.console (auth s) |};
               isRestoring := isRestoring s |}
      | Some parsed =>
          match stored_token parsed with
          | Some t =>
              if truthy t then
                let s1 :=
                  {| auth :=
                       {| Auth.token := t;
                          Auth.user :=
                            match stored_user parsed with
                            | Some u => Some u
                            | None => Auth.user (auth s)
                            end;
                          Auth.localStorage := Auth.localStorage (auth s);
                          Auth.console := Auth.console (auth s) |};
                     isRestoring := isRestoring s |} in
                match refreshSession_start t s1 with
                | (s2, Some _) => s2
                | (s2, None) =>
                    fst (refreshSession_resume t true server (meanwhile s2))
                end
              else setIsRestoring false s
          | None => setIsRestoring false s
          end
      end
end.

End Restore.
End Session.

Section SessionFacts.

Context {User : Type}.
Variable stringify : string -> User -> string.
Variable stringifyToken : string -> string.
Variable parseStored : string -> option (@Session.Stored User).

Local Abbreviation restoreWith :=
  (Session.restore stringify stringifyToken parseStored).
Local Abbreviation resumeWith :=
  (Session.refreshSession_resume stringify stringifyToken).

Lemma resume_ends_restoring t silent outcome (s : @Session.State User) :
  Session.isRestoring (fst (resumeWith t silent outcome s)) = false.
Proof.
  destruct outcome as [[data|]|failure]; simpl; try reflexivity;
    destruct silent; reflexivity.
Qed.

(** X19.  The restore at start-up always ends with [isRestoring] false.
    Starting signed out, the store ends signed in only if storage held a
    record that parses and carries a token, and the server confirmed the
    session; the token is then the stored one and the user the one the
    server sent.  If the server does not confirm (the request fails, or
    its payload is [null]), token, user and the stored record are all
    cleared.  A stored record that does not parse is removed. *)
Theorem restore_spec
    (server : ApiOutcome (option (@Session.SessionData User)))
    (meanwhile : Session.State -> Session.State) (s : @Session.State User) :
  let final := restoreWith server meanwhile s in
  Session.isRestoring final = false
  /\ (Auth.token (Session.auth s) = "" ->
      Auth.token (Session.auth final) <> "" ->
      exists stored parsed t data,
        Auth.localStorage (Session.auth s) !! AUTH_STORAGE_KEY = Some stored
        /\ parseStored stored = Some parsed
        /\ Session.stored_token parsed = Some t
        /\ server = Resolved (Some data)
        /\ Auth.token (Session.auth final) = t
        /\ Auth.user (Session.auth final) = Session.session_user data)
  /\ (forall stored parsed t,
        Auth.localStorage (Session.auth s) !! AUTH_STORAGE_KEY = Some stored ->
        stored <> "" -> parseStored stored = Some parsed ->
        Session.stored_token parsed = Some t -> t <> "" ->
        (forall data, server <> Resolved (Some data)) ->
        Auth.cleared (Session.auth final))
  /\ (forall stored,
        Auth.localStorage (Session.auth s) !! AUTH_STORAGE_KEY = Some stored ->
        stored <> "" -> parseStored stored = None ->
        Auth.localStorage (Session.auth final) !! AUTH_STORAGE_KEY = None
        /\ Auth.token (Session.auth final) = Auth.token (Session.auth s)).
Proof.
  intros final. subst final. unfold Session.restore.
  destruct (Auth.localStorage (Session.auth s) !! AUTH_STORAGE_KEY)
    as [stored|] eqn:Hstored.
  2:{ split; [reflexivity|]. split; [intros H1 H2; simpl in H2; congruence|].
      split; intros; discriminate. }
  destruct (truthy stored) eqn:Hts; simpl negb; cbv iota.
  2:{ apply truthy_false_iff in Hts. subst stored.
      split; [reflexivity|]. split; [intros H1 H2; simpl in H2; congruence|].
      split.
      - intros stored' parsed t [= <-] Hne. now contradiction Hne.
      - intros stored' [= <-] Hne. now contradiction Hne. }
  destruct (parseStored stored) as [parsed|] eqn:Hparse.
  2:{ split; [reflexivity|]. split; [intros H1 H2; simpl in H2; congruence|].
      split.
      - intros stored' parsed t [= <-] _ Hp. congruence.
      - intros stored' [= <-] _ _. simpl. split; [apply lookup_delete_eq|reflexivity]. }
  destruct (Session.stored_token parsed) as [t|] eqn:Htok.
  2:{ split; [reflexivity|]. split; [intros H1 H2; simpl in H2; congruence|].
      split.
      - intros stored' parsed' t [= <-] _ Hp Ht. congruence.
      - intros stored' [= <-] _ Hp. congruence. }
  destruct (truthy t) eqn:Htt.
  2:{ apply truthy_false_iff in Htt. subst t.
      split; [reflexivity|]. split; [intros H1 H2; simpl in H2; congruence|].
      split.
      - intros stored' parsed' t [= <-] _ Hp Ht Hne. congruence.
      - intros stored' [= <-] _ Hp. congruence. }
  unfold Session.refreshSession_start. rewrite Htt. simpl negb. cbv iota beta.
  split; [apply resume_ends_restoring|]. split; [|split].
  - intros _ Hsigned.
    destruct server as [[data|]|failure]; simpl in Hsigned; try congruence.
    exists stored, parsed, t, data. repeat split; try assumption.
    + simpl. destruct (Session.session_user data); reflexivity.
    + simpl. destruct (Session.session_user data); reflexivity.
  - intros stored' parsed' t' [= <-] _ Hp Ht _ Hno.
    destruct server as [[data|]|failure]; simpl.
    + exfalso. now apply (Hno data).
    + apply Auth.clearAuth_cleared.
    + apply Auth.clearAuth_cleared.
  - intros stored' [= <-] _ Hp. congruence.
Qed.

(** X20.  A refresh that is not silent leaves a failure to its caller and
    touches neither token, user nor storage; a silent one clears all three
    instead and returns nothing.  A successful refresh stores the token it
    was given with the user the server sent, and a refresh with no token
    sends nothing.  Each of them ends with [isRestoring] false. *)
Theorem refreshSession_spec
    (t : string) (failure : ApiError) (data : @Session.SessionData User)
    (s : @Session.State User) :
  (Session.refreshSession_start "" s
   = (Session.setIsRestoring false s, Some (Session.Returned None)))
  /\ (t <> "" ->
      Session.refreshSession_start t s = (Session.setIsRestoring true s, None))
  /\ (let '(q, result) := resumeWith t false (Rejected failure) s in
      Session.auth q = Session.auth s /\ Session.isRestoring q = false
      /\ result = Session.Thrown)
  /\ (let '(q, result) := resumeWith t true (Rejected failure) s in
      Auth.cleared (Session.auth q) /\ Session.isRestoring q = false
      /\ result = Session.Returned None)
  /\ (let '(q, result) := resumeWith t true (Resolved None) s in
      Auth.cleared (Session.auth q) /\ result = Session.Returned None)
  /\ (let '(q, result) := resumeWith t false (Resolved (Some data)) s in
      Auth.token (Session.auth q) = t
      /\ Auth.user (Session.auth q) = Session.session_user data
      /\ is_Some (Auth.localStorage (Session.auth q) !! AUTH_STORAGE_KEY)
      /\ Session.isRestoring q = false
      /\ result = Session.Returned (Session.session_user data)).
Proof.
  split; [reflexivity|]. split.
  - intros Ht. apply truthy_true_iff in Ht.
    unfold Session.refreshSession_start. now rewrite Ht.
  - simpl. repeat split; try apply Auth.clearAuth_cleared;
      destruct (Session.session_user data); simpl;
      try reflexivity; rewrite lookup_insert_eq; eauto.
Qed.

End SessionFacts.

(** A store for the examples: the user is a name, the stored record is the
    token and the name around a bar, and only the record of the one
    session below reads back. *)
Definition joinRecord (t u : string) : string := t +:+ "|" +:+ u.

Definition readRecord (stored : string) : option (@Session.Stored string) :=
  if String.eqb stored (joinRecord "t0k3n" "mikefranco") then
    Some {| Session.stored_token := Some "t0k3n";
            Session.stored_user := Some "mikefranco" |}
  else None.

Lemma restore_spec_witness :
  Auth.cleared
    (Session.auth
       (Session.restore joinRecord (fun t => t) readRecord
          (Rejected unreachable) (fun s => s)
          (Session.initial
             {[ AUTH_STORAGE_KEY := joinRecord "t0k3n" "mikefranco" ]}))).
Proof.
  apply (proj1 (proj2 (proj2
           (restore_spec joinRecord (fun t => t) readRecord
              (Rejected unreachable) (fun s => s)
              (Session.initial
                 {[ AUTH_STORAGE_KEY := joinRecord "t0k3n" "mikefranco" ]}))))
           (joinRecord "t0k3n" "mikefranco")
           {| Session.stored_token := Some "t0k3n";
              Session.stored_user := Some "mikefranco" |}
           "t0k3n");
    try reflexivity; try discriminate.
Defined.

Lemma refreshSession_spec_witness :
  Session.refreshSession_start "t0k3n" (@Session.initial string ∅)
  = (Session.setIsRestoring true (Session.initial ∅), None).
Proof.
  apply (proj1 (proj2
           (refreshSession_spec joinRecord (fun t => t) "t0k3n" unreachable
              {| Session.session_user := None |} (Session.initial ∅)))).
  discriminate.
Defined.

(* ===================================================================== *)
(** ** The profile page: bio and status                                   *)
(* ===================================================================== *)

Module ProfileStatus.

(** *** Values the profile page derives *)

Definition displayBio (isOwner : bool) (v : View) : string :=
if truthy (v_bio v) then
  if 160 <? String.length (v_bio v) then String.substring 0 160 (v_bio v)
  else v_bio v
else if isOwner then "Add a short bio to introduce yourself."
else "This space is warming up.".

(** [statusDraft.trim().slice(0, statusLimit)] *)
Definition nextStatus (statusDraft : string) : string :=
String.substring 0 80 (trim statusDraft).

(** [{ ...user, status: nextStatus }] *)
Definition withStatus (user : UserObject) (nextStatus : string) : UserObject :=
{| u_name := u_name user; u_username := u_username user;
   u_profile_url := u_profile_url user; u_profileUrl := u_profileUrl user;
   u_status := Some nextStatus;
   u_bio := u_bio user; u_location := u_location user;
   u_interests := u_interests user;
   u_photo_url := u_photo_url user; u_photoUrl := u_photoUrl user;
   u_visibility := u_visibility user; u_theme := u_theme user;
   u_show_location := u_show_location user;
   u_showLocation := u_showLocation user;
   u_allow_search := u_allow_search user;
   u_allowSearch := u_allowSearch user |}.

(** The state of [ProfilePage] the status editor works on: the user of the
    session, the editor's flag and draft, and the toast last asked for. *)
Record StatusEditor : Type := {
se_user : option UserObject;
statusEditing : bool;
statusDraft : string;
se_toast : option Toast.ToastMessage
}.

Definition toasted (message type : string) (e : StatusEditor) : StatusEditor :=
{| se_user := se_user e; statusEditing := statusEditing e;
   statusDraft := statusDraft e;
   se_toast := Some {| Toast.message := message; Toast.type := type |} |}.

Definition setUser (user : UserObject) (e : StatusEditor) : StatusEditor :=
{| se_user := Some user; statusEditing := statusEditing e;
   statusDraft := statusDraft e; se_toast := se_toast e |}.

Definition setStatusEditing (b : bool) (e : StatusEditor) : StatusEditor :=
{| se_user := se_user e; statusEditing := b;
   statusDraft := statusDraft e; se_toast := se_toast e |}.

(** [handleStatusSave] up to its [await]: without a user or a token the
    editor closes with a warning and nothing is sent; otherwise the body
    of the [PATCH] request to [/auth/profile/] is returned. *)
Definition handleStatusSave_start (token : string) (e : StatusEditor) :
    StatusEditor * option (list (string * Json.Value)) :=
let profileData := baseProfile (se_user e) in
let nextStatus := nextStatus (statusDraft e) in
if negb (bool_decide (is_Some (se_user e))) || negb (truthy token) then
  (toasted "Session expired. Please log in again." "warning"
     (setStatusEditing false e), None)
else
  (e,
   Some [ ("display_name", Json.VString (v_displayName profileData));
          ("username", Json.VString (v_username profileData));
          ("profile_url",
           Json.VString
             (str_or (Some (v_profileUrl profileData)) (v_username profileData)));
          ("status", Json.VString nextStatus);
          ("bio", Json.VString (v_bio profileData));
          ("location", Json.VString (v_location profileData));
          ("interests", Json.VArray (v_interests profileData)) ]).

(** [handleStatusSave] from the answer of the request on.  [called] is the
    state the handler was called in, whose [user] and [statusDraft] it
    closed over; [e] is the state when the answer arrives.  The answer is
    [data?.user] where it is truthy. *)
Definition handleStatusSave_resume (called : StatusEditor)
    (answer : ApiOutcome (option UserObject)) (e : StatusEditor) :
    StatusEditor :=
match answer with
| Resolved data_user =>
    let e :=
      match data_user, se_user called with
      | Some user, _ => setUser user e
      | None, Some user =>
          setUser (withStatus user (nextStatus (statusDraft called))) e
      | None, None => e
      end in
    toasted "Profile updated successfully." "success"
      (setStatusEditing false e)
| Rejected failure =>
    toasted (Save.shortMessageFromError failure) "error" e
end.

(** The view with another status. *)
Definition viewWithStatus (v : View) (s : string) : View :=
{| v_displayName := v_displayName v; v_username := v_username v;
   v_profileUrl := v_profileUrl v; v_status := s; v_bio := v_bio v;
   v_location := v_location v; v_interests := v_interests v;
   v_photoUrl := v_photoUrl v; v_visibility := v_visibility v;
   v_theme := v_theme v; v_showLocation := v_showLocation v;
   v_allowSearch := v_allowSearch v |}.

End ProfileStatus.

Import ProfileStatus.

Lemma str_or_fallback_nonempty (a : option string) (b : string) :
  b <> "" -> str_or a b <> "".
Proof.
  intros Hb. destruct a as [[|c s]|]; simpl; try assumption. discriminate.
Qed.

Lemma str_or_empty_inv (s : string) (b : string) :
  str_or (Some s) b = "" -> s = "" /\ b = "".
Proof. destruct s; simpl; [intros ->; by split | discriminate]. Qed.

Lemma prefix_substring_0 (n : nat) (s : string) :
  String.prefix (String.substring 0 n s) s = true.
Proof.
  revert s. induction n as [|n IH]; intros [|c s]; simpl; try reflexivity.
  destruct (ascii_dec c c) as [_|Hne]; [apply IH | by destruct Hne].
Qed.

(** X21.  The settings form always starts from well-formed values.
    Whatever the user object of the session holds, and also without one
    (the sample profile), the defaults [buildDefaults] computes from
    [mapUserToProfile(user) || sampleProfile] have a visibility and a theme
    that are not empty, show the location only if there is a location, and
    have an empty profile address only if the username is empty too. *)
Theorem buildDefaults_wellformed (user : option UserObject) :
  let d := buildDefaults (baseProfile user) in
  visibility d <> ""
  /\ theme d <> ""
  /\ (showLocation d = false \/ location d <> "")
  /\ (profileUrl d <> "" \/ username d = "").
Proof.
  cbv zeta. set (b := baseProfile user). unfold buildDefaults. cbn [visibility theme showLocation location profileUrl username].
  split; [by apply str_or_fallback_nonempty|]. split; [by apply str_or_fallback_nonempty|]. split.
  - rewrite str_or_some_empty.
    destruct (v_showLocation b); [|by left]. cbn [andb].
    destruct (truthy (v_location b)) eqn:Ht; [right | by left].
    by apply truthy_true_iff.
  - destruct (str_or (Some (v_profileUrl b)) (str_or (Some (v_username b)) ""))
      as [|c s] eqn:Hp; [right | by left].
    apply str_or_empty_inv in Hp as [_ Hu]. exact Hu.
Qed.

(** X22.  The bio the profile page shows is never empty and never longer
    than 160 characters.  A profile without a bio shows one of two fixed
    sentences, the owner's or the visitor's; a profile with a bio shows
    the first 160 characters of it, all of it if it is no longer. *)
Theorem displayBio_spec (isOwner : bool) (v : View) :
  displayBio isOwner v <> ""
  /\ String.length (displayBio isOwner v) <= 160
  /\ ((v_bio v = ""
       /\ displayBio isOwner v
          = if isOwner then "Add a short bio to introduce yourself."
            else "This space is warming up.")
      \/ (v_bio v <> ""
          /\ String.prefix (displayBio isOwner v) (v_bio v) = true
          /\ String.length (displayBio isOwner v)
             = Nat.min 160 (String.length (v_bio v)))).
Proof.
  unfold displayBio. destruct (v_bio v) as [|c s] eqn:Hb.
  - cbn [truthy]. destruct isOwner.
    + split; [discriminate|]. split; [vm_compute; lia|]. left. by split.
    + split; [discriminate|]. split; [vm_compute; lia|]. left. by split.
  - cbn [truthy]. rewrite <- Hb.
    assert (Hlen : 1 <= String.length (v_bio v)) by (rewrite Hb; simpl; lia).
    assert (Hne : v_bio v <> "") by (rewrite Hb; discriminate).
    clear Hb. destruct (160 <? String.length (v_bio v)) eqn:Hcut.
    + apply Nat.ltb_lt in Hcut.
      pose proof (length_substring_0 160 (v_bio v)) as Hl.
      assert (Hs : String.length (String.substring 0 160 (v_bio v)) = 160) by lia.
      split; [intros H; rewrite H in Hs; discriminate|].
      split; [lia|]. right. split; [exact Hne|]. split; [apply prefix_substring_0 | lia].
    + apply Nat.ltb_ge in Hcut.
      split; [exact Hne|]. split; [exact Hcut|]. right. split; [exact Hne|].
      split; [|lia].
      rewrite <- (prefix_substring_0 (String.length (v_bio v)) (v_bio v)) at 1.
      f_equal. clear. induction (v_bio v) as [|c s IH]; simpl; [reflexivity | by rewrite <- IH at 1].
Qed.

Lemma mapUserToProfile_withStatus (u : UserObject) (s : string) :
  mapUserToProfile (Some (withStatus u s))
  = option_map (fun v => viewWithStatus v s) (mapUserToProfile (Some u)).
Proof. destruct s; reflexivity. Qed.

(** X23.  Saving a status from the profile page.  With a user in the
    session and a token, [handleStatusSave] sends the draft trimmed and cut
    to 80 characters as the status, and when the answer brings no user
    object the page then shows exactly that status, every other part of
    the profile view as before, and the editor is closed. *)
Theorem status_save_shows_draft (token : string) (u : UserObject)
    (called e : StatusEditor) :
  se_user called = Some u ->
  token <> "" ->
  let s := nextStatus (statusDraft called) in
  let e' := handleStatusSave_resume called (Resolved None) e in
  String.length s <= 80
  /\ String.prefix s (trim (statusDraft called)) = true
  /\ (exists body,
        handleStatusSave_start token called = (called, Some body)
        /\ assoc "status" body = Some (Json.VString s))
  /\ baseProfile (se_user e') = viewWithStatus (baseProfile (Some u)) s
  /\ statusEditing e' = false.
Proof.
  intros Hu Htoken. cbv zeta. split; [|split; [|split; [|split]]].
  - unfold nextStatus. rewrite length_substring_0. lia.
  - apply prefix_substring_0.
  - unfold handleStatusSave_start. rewrite Hu.
    apply truthy_true_iff in Htoken. rewrite Htoken.
    rewrite bool_decide_eq_true_2 by (by eexists). cbn [negb orb].
    eexists. split; [reflexivity|]. reflexivity.
  - unfold handleStatusSave_resume. rewrite Hu. cbn [se_user toasted setStatusEditing setUser].
    unfold baseProfile. by rewrite mapUserToProfile_withStatus.
  - unfold handleStatusSave_resume. rewrite Hu. reflexivity.
Qed.

Definition editing (draft : string) : StatusEditor :=
{| se_user := Some mika; statusEditing := true; statusDraft := draft;
   se_toast := None |}.

Lemma status_save_shows_draft_witness :
  v_status
    (baseProfile
       (se_user
          (handleStatusSave_resume (editing "  Back on Monday.  ")
             (Resolved None) (editing "  Back on Monday.  x"))))
  = "Back on Monday.".
Proof.
  pose proof (status_save_shows_draft "t0k3n" mika
                (editing "  Back on Monday.  ") (editing "  Back on Monday.  x")
                eq_refl) as H.
  cbv zeta in H.
  destruct H as (_ & _ & _ & H & _); [discriminate|].
  rewrite H. reflexivity.
Defined.

(* ===================================================================== *)
(** ** The account dialogs: [handleEmailSubmit], [handleDeleteAccount]    *)
(* ===================================================================== *)

Module Account.

(** What a handler did when it reached its request, or returned before. *)
Inductive Step (Body : Type) : Type :=
| Refused                      (* returned on the form's own check *)
| Expired                      (* no token: the session-expired toast *)
| Asked (body : Body).         (* the request was sent with this body *)
Arguments Refused {Body}.
Arguments Expired {Body}.
Arguments Asked {Body} body.

(** [Object.keys(nextErrors).length > 0] *)
Definition hasKeys (nextErrors : gmap string string) : bool :=
negb (bool_decide (nextErrors = ∅)).

(** [handleEmailSubmit] up to its [await]: the errors it sets, and the
    body [{ email, password }] of the request if it sends one. *)
Definition handleEmailSubmit_start (token : string) (emailDraft : EmailDraft) :
    gmap string string * Step (string * string) :=
let nextErrors := emailErrorsOf emailDraft in
let nextEmail := trim (email emailDraft) in
if hasKeys nextErrors then (nextErrors, Refused)
else if negb (truthy token) then (nextErrors, Expired)
else (nextErrors, Asked (nextEmail, email_password emailDraft)).

(** [handleDeleteAccount] up to its first [await]: the error it sets, and
    the body [{ confirm }] of the request if it sends one.  Without a
    token it also leads to the landing page. *)
Definition handleDeleteAccount_start (token : string) (deleteValue : string) :
    option string * Step string :=
if negb (String.eqb deleteValue "DELETE") then
  (Some "Type DELETE to confirm.", Refused)
else if negb (truthy token) then (None, Expired)
else (None, Asked deleteValue).

(** The [catch] block of [handleDeleteAccount]: the value given to
    [setDeleteError]. *)
Definition handleDeleteAccount_catch (failure : ApiError) : string :=
let errors := err_fields failure in
str_or (assoc "confirm" errors)
  (str_or (assoc "password" errors) (Save.shortMessageFromError failure)).

End Account.

Import Account.

(** X24.  Changing the email address.  [handleEmailSubmit] sends a request
    exactly when the trimmed address has the form of an email address, the
    password is not empty and there is a token; the request then carries
    the trimmed address and the password as typed.  The errors it sets
    are empty exactly when address and password pass, with or without a
    token. *)
Theorem handleEmailSubmit_spec (token : string) (d : EmailDraft) :
  (fst (handleEmailSubmit_start token d) = ∅
   <-> is_email (trim (email d)) /\ email_password d <> "")
  /\ (forall body,
        snd (handleEmailSubmit_start token d) = Asked body
        <-> is_email (trim (email d)) /\ email_password d <> ""
            /\ token <> ""
            /\ body = (trim (email d), email_password d)).
Proof.
  assert (Herr : emailErrorsOf d = ∅
                 <-> is_email (trim (email d)) /\ email_password d <> "").
  { unfold emailErrorsOf. cbv zeta.
    rewrite insert_if_empty, insert_if2_empty, negb_false_iff, truthy_true_iff.
    rewrite <- email_guard_spec. tauto. }
  assert (Hfst : fst (handleEmailSubmit_start token d) = emailErrorsOf d).
  { unfold handleEmailSubmit_start. cbv zeta.
    destruct (hasKeys _); [reflexivity|]. by destruct (negb (truthy token)). }
  split; [by rewrite Hfst|].
  intros body. rewrite <- (truthy_true_iff token).
  unfold handleEmailSubmit_start, hasKeys. cbv zeta.
  case_bool_decide as Hempty; cbn [negb].
  - apply Herr in Hempty as Hok. destruct (truthy token); cbn [negb snd].
    + split.
      * intros [= <-]. tauto.
      * intros (_ & _ & _ & ->). reflexivity.
    + split; [discriminate|]. intros (_ & _ & Hf & _). discriminate.
  - cbn [snd]. split; [discriminate|]. intros (He & Hp & _).
    exfalso. apply Hempty, Herr. by split.
Qed.

(** X25.  Deleting the account.  [handleDeleteAccount] sends a request
    exactly when the confirmation field holds the word DELETE, letter for
    letter, and there is a token; the body of the request then confirms
    with that word.  It sets an error exactly when the word is wrong, and
    a request that fails always leaves an error to show. *)
Theorem handleDeleteAccount_spec (token deleteValue : string) (failure : ApiError) :
  (forall body,
     snd (handleDeleteAccount_start token deleteValue) = Asked body
     <-> deleteValue = "DELETE" /\ token <> "" /\ body = "DELETE")
  /\ (is_Some (fst (handleDeleteAccount_start token deleteValue))
      <-> deleteValue <> "DELETE")
  /\ handleDeleteAccount_catch failure <> "".
Proof.
  split; [|split].
  - intros body. rewrite <- (truthy_true_iff token).
    unfold handleDeleteAccount_start.
    destruct (String.eqb_spec deleteValue "DELETE") as [->|Hne]; cbn [negb].
    + destruct (truthy token); cbn [negb snd].
      * split; [intros [= <-]; tauto | intros (_ & _ & ->); reflexivity].
      * split; [discriminate | intros (_ & Hf & _); discriminate].
    + cbn [snd]. split; [discriminate | intros [H _]; contradiction].
  - unfold handleDeleteAccount_start.
    destruct (String.eqb_spec deleteValue "DELETE") as [->|Hne]; cbn [negb].
    + destruct (truthy token); cbn [negb fst]; (split; [intros [x H]; discriminate | intros H; contradiction]).
    + cbn [fst]. split; [intros _; exact Hne | intros _; by eexists].
  - unfold handleDeleteAccount_catch. cbv zeta.
    destruct (shortMessageFromError_bounds failure) as [Hne _].
    set (m := Save.shortMessageFromError failure) in *.
    assert (H2 : str_or (assoc "password" (err_fields failure)) m <> "").
    { destruct (assoc "password" (err_fields failure)) as [[|c s]|]; simpl; try exact Hne. discriminate. }
    destruct (assoc "confirm" (err_fields failure)) as [[|c s]|]; simpl; try exact H2. discriminate.
Qed.

(* ===================================================================== *)
(** ** The sign-in forms: [handleChange] and [handleSubmit]               *)
(* ===================================================================== *)

Module AuthForm.

(** [LoginForm] and [SignupForm] have the same two handlers, word for
    word but for the validator and the request; they are written once
    here, over the form's values and its validator. *)
Section Form.

Context {Values : Type}.
Variable validate : Values -> gmap string string.

Record Form : Type := {
values : Values;
errors : gmap string string;
formError : string;
isSubmitting : bool
}.

(** [errors[name]] as a condition, which is also when the form renders
    the message under the field. *)
Definition shows (errors : gmap string string) (name : string) : bool :=
match errors !! name with
| Some text => truthy text
| None => false
end.

(** [handleChange]; [assign] is the write
    [{ ...prev, [name]: type === "checkbox" ? checked : value }]. *)
Definition handleChange (name : string) (assign : Values -> Values)
    (f : Form) : Form :=
{| values := assign (values f);
   errors := if shows (errors f) name then delete name (errors f)
             else errors f;
   formError := if truthy (formError f) then "" else formError f;
   isSubmitting := isSubmitting f |}.

(** [handleSubmit] up to its [await]: the form, and the values handed to
    [login] or [signup] if the request is made. *)
Definition handleSubmit_start (f : Form) : Form * option Values :=
let nextErrors := validate (values f) in
let f :=
  {| values := values f; errors := nextErrors; formError := "";
     isSubmitting := isSubmitting f |} in
if Account.hasKeys nextErrors then (f, None)
else
  ({| values := values f; errors := errors f; formError := formError f;
      isSubmitting := true |},
   Some (values f)).

(** [handleSubmit] from the answer on: [catch] and [finally]. *)
Definition handleSubmit_resume {A} (answer : ApiOutcome A) (f : Form) : Form :=
let f :=
  match answer with
  | Resolved _ => f
  | Rejected failure =>
      {| values := values f;
         errors := list_to_map (err_fields failure);
         formError := Save.shortMessageFromError failure;
         isSubmitting := isSubmitting f |}
  end in
{| values := values f; errors := errors f; formError := formError f;
   isSubmitting := false |}.

(** One submission from click to end; [answer] is asked only if the
    request is made. *)
Definition handleSubmit {A} (answer : Values -> ApiOutcome A) (f : Form) : Form :=
match handleSubmit_start f with
| (f, Some payload) => handleSubmit_resume (answer payload) f
| (f, None) => f
end.

End Form.

Arguments Form Values : clear implicits.

(** The values of [LoginForm]: those [validateLogin] reads, and the
    [remember] box. *)
Definition LoginForm_handleSubmit {A} :=
@handleSubmit (Validation.LoginValues * bool)
  (fun values => validateLogin (fst values)) A.

Definition SignupForm_handleSubmit {A} :=
@handleSubmit Forms.SignupValues validateSignup A.

End AuthForm.

Section AuthFormFacts.

Import AuthForm.

Context {Values A : Type}.
Variable validate : Values -> gmap string string.

Lemma hasKeys_spec (m : gmap string string) :
  Account.hasKeys m = false <-> m = ∅.
Proof.
  unfold Account.hasKeys. rewrite negb_false_iff. apply bool_decide_eq_true.
Qed.

(** X26.  Submitting the login or the signup form, from a form that is
    not already submitting.  The request is made exactly when the
    validator finds nothing, and it is made with the values as typed.  At
    the end the form is never left submitting and its values are
    untouched.  If the validator found something, its errors are the
    form's errors and no form error is shown; if the request was made and
    accepted, no error at all is left; if it was refused, the field errors
    are the server's and a form error of at most 120 characters is
    shown. *)
Theorem handleSubmit_spec (answer : Values -> ApiOutcome A) (f : Form Values) :
  isSubmitting f = false ->
  let f' := handleSubmit validate answer f in
  (forall payload,
     snd (handleSubmit_start validate f) = Some payload
     <-> validate (values f) = ∅ /\ payload = values f)
  /\ isSubmitting f' = false
  /\ values f' = values f
  /\ ((validate (values f) <> ∅
       /\ errors f' = validate (values f) /\ formError f' = "")
      \/ (validate (values f) = ∅
          /\ match answer (values f) with
             | Resolved _ => errors f' = ∅ /\ formError f' = ""
             | Rejected failure =>
                 errors f' = list_to_map (err_fields failure)
                 /\ formError f' <> ""
                 /\ String.length (formError f') <= 120
             end)).
Proof.
  intros Hidle. cbv zeta. unfold handleSubmit, handleSubmit_start. cbv zeta.
  destruct (Account.hasKeys (validate (values f))) eqn:Hk.
  - assert (Hne : validate (values f) <> ∅).
    { intros H. apply hasKeys_spec in H. congruence. }
    cbn [snd values errors formError isSubmitting].
    split; [|split; [exact Hidle | split; [reflexivity|]]].
    + intros payload. split; [discriminate | intros [H _]; contradiction].
    + left. by repeat split.
  - apply hasKeys_spec in Hk as Hempty.
    cbn [snd values errors formError isSubmitting].
    split; [|split; [|split]].
    + intros payload. split; [intros [= <-]; by split | intros [_ ->]; reflexivity].
    + unfold handleSubmit_resume. by destruct (answer (values f)).
    + unfold handleSubmit_resume. by destruct (answer (values f)).
    + right. split; [exact Hempty|]. unfold handleSubmit_resume.
      destruct (answer (values f)) as [data|failure];
        cbn [values errors formError isSubmitting].
      * by split.
      * destruct (shortMessageFromError_bounds failure) as [Hne Hlen].
        by repeat split.
Qed.

(** X27.  Typing into a field of the login or the signup form.  After
    [handleChange] the form shows no error under the field that changed
    and no form error; the errors of the other fields are as they were,
    the values are written as asked, and the submitting flag is
    untouched. *)
Theorem handleChange_hides_error (name : string) (assign : Values -> Values)
    (f : Form Values) :
  let f' := handleChange name assign f in
  shows (errors f') name = false
  /\ formError f' = ""
  /\ (forall other, other = name \/ errors f' !! other = errors f !! other)
  /\ values f' = assign (values f)
  /\ isSubmitting f' = isSubmitting f.
Proof.
  cbv zeta. unfold handleChange. cbn [values errors formError isSubmitting].
  split; [|split; [|split; [|by split]]].
  - destruct (shows (errors f) name) eqn:Hs; [|exact Hs].
    unfold shows. by rewrite lookup_delete_eq.
  - by destruct (formError f).
  - intros other. destruct (decide (other = name)) as [->|Hne]; [by left | right].
    destruct (shows (errors f) name); [|reflexivity].
    by rewrite lookup_delete_ne.
Qed.

End AuthFormFacts.

Definition loginAttempt : AuthForm.Form (Validation.LoginValues * bool) :=
{| AuthForm.values :=
     ({| Validation.identifier := " mikefranco"; Validation.password := "pw" |},
      false);
   AuthForm.errors := {[ "password" := "Password is required." ]};
   AuthForm.formError := "";
   AuthForm.isSubmitting := false |}.

Lemma handleSubmit_spec_witness :
  AuthForm.isSubmitting loginAttempt = false
  /\ AuthForm.isSubmitting
       (AuthForm.LoginForm_handleSubmit
          (fun _ => @Rejected unit unreachable) loginAttempt) = false.
Proof.
  split; [reflexivity|].
  apply (handleSubmit_spec (fun values => validateLogin (fst values))
           (fun _ => @Rejected unit unreachable) loginAttempt eq_refl).
Defined.

(* ===================================================================== *)
(** ** The profile page: who sees what                                    *)
(* ===================================================================== *)

Module ProfilePage.

Import ProfileView.

Section Flags.

(** [user] of the session; the page shows [mapUserToProfile(user) ||
    sampleProfile]. *)
Variable user : option UserObject.

Definition profileData : View := baseProfile user.

(** [Boolean(user)] *)
Definition isOwner : bool := bool_decide (is_Some user).

Definition isPrivateProfile : bool :=
String.eqb (v_visibility profileData) "private".

Definition showProfileDetails : bool := negb isPrivateProfile || isOwner.

Definition canShowLocation : bool :=
truthy (v_location profileData) && v_showLocation profileData.

(** The [content] the effect gives the [robots] meta element. *)
Definition robots : string :=
let shouldNoIndex := isPrivateProfile || negb (v_allowSearch profileData) in
if shouldNoIndex then "noindex, nofollow" else "index, follow".

End Flags.

End ProfilePage.

Import ProfilePage.

Lemma visibility_private_iff (u : UserObject) :
  isPrivateProfile (Some u) = true <-> u_visibility u = Some "private".
Proof.
  unfold isPrivateProfile.
  change (v_visibility (profileData (Some u)))
    with (str_or (u_visibility u) "public").
  rewrite String.eqb_eq.
  destruct (u_visibility u) as [[|c s]|]; cbn [str_or truthy].
  - split; discriminate.
  - split; [intros ->; reflexivity | intros H; congruence].
  - split; discriminate.
Qed.

Lemma nullish_pair_true (a b : option bool) :
  nullish a (nullish b false) = true
  <-> a = Some true \/ (a = None /\ b = Some true).
Proof.
  destruct a as [[|]|]; cbn [nullish].
  - split; [by left | reflexivity].
  - split; [discriminate | intros [H|[H _]]; discriminate].
  - destruct b as [[|]|]; cbn [nullish].
    + split; [by right | reflexivity].
    + split; [discriminate | intros [H|[_ H]]; discriminate].
    + split; [discriminate | intros [H|[_ H]]; discriminate].
Qed.

(** X28.  Who sees what on the profile page.  The page always shows the
    details of the profile: it shows the user of the session, who is the
    owner, or else the public sample, so the notice that only the owner
    can view a private profile is never rendered.  A user's profile is
    offered to search engines exactly when its visibility is not
    [private] and the user object allows search, the snake-case setting
    deciding before the camel-case one and no setting meaning no; and the
    location is shown exactly when the user object has a location that is
    not empty and allows showing it, by the same rule. *)
Theorem profile_page_privacy (user : option UserObject) (u : UserObject) :
  showProfileDetails user = true
  /\ (robots (Some u) = "index, follow"
      <-> u_visibility u <> Some "private"
          /\ (u_allow_search u = Some true
              \/ (u_allow_search u = None /\ u_allowSearch u = Some true)))
  /\ (robots (Some u) = "index, follow"
      \/ robots (Some u) = "noindex, nofollow")
  /\ (canShowLocation (Some u) = true
      <-> (exists place, u_location u = Some place /\ place <> "")
          /\ (u_show_location u = Some true
              \/ (u_show_location u = None /\ u_showLocation u = Some true))).
Proof.
  split; [|split; [|split]].
  - unfold showProfileDetails, isOwner, isPrivateProfile, profileData, baseProfile.
    destruct user as [w|]; cbn [mapUserToProfile default].
    + rewrite bool_decide_eq_true_2 by (by eexists). apply orb_true_r.
    + reflexivity.
  - rewrite <- visibility_private_iff, <- nullish_pair_true.
    unfold robots. cbv zeta.
    change (v_allowSearch (profileData (Some u)))
      with (nullish (u_allow_search u) (nullish (u_allowSearch u) false)).
    destruct (isPrivateProfile (Some u)); cbn [orb].
    + split; [discriminate | intros [H _]; by destruct H].
    + destruct (nullish (u_allow_search u) (nullish (u_allowSearch u) false));
        cbn [negb].
      * split; [intros _; split; [discriminate | reflexivity] | reflexivity].
      * split; [discriminate | intros [_ H]; discriminate].
  - unfold robots. cbv zeta. destruct (_ || _); [by right | by left].
  - rewrite <- nullish_pair_true. unfold canShowLocation.
    change (v_showLocation (profileData (Some u)))
      with (nullish (u_show_location u) (nullish (u_showLocation u) false)).
    change (v_location (profileData (Some u))) with (str_or (u_location u) "").
    rewrite andb_true_iff, truthy_true_iff.
    assert (Hloc : str_or (u_location u) "" <> ""
                   <-> exists place, u_location u = Some place /\ place <> "").
    { destruct (u_location u) as [[|c s]|]; cbn [str_or truthy].
      - split; [intros H; by destruct H | intros (p & [= <-] & H); by destruct H].
      - split; [intros _; eexists; split; [reflexivity | discriminate] | discriminate].
      - split; [intros H; by destruct H | intros (p & H & _); discriminate]. }
    by rewrite Hloc.
Qed.

(* ===================================================================== *)
(** ** The earlier forms (the first version of the page)                  *)
(* ===================================================================== *)

Module Legacy.

(** The checks of the first [LoginForm]'s [handleSubmit]. *)
Definition LoginForm_errors (values : Validation.LoginValues) :
    gmap string string :=
let nextErrors : gmap string string := ∅ in
let nextErrors :=
  if negb (truthy (trim (Validation.identifier values))) then
    <["identifier" := "Enter your email or username."]> nextErrors
  else nextErrors in
let nextErrors :=
  if negb (truthy (trim (Validation.password values))) then
    <["password" := "Password is required."]> nextErrors
  else nextErrors in
nextErrors.

(** The checks of the first [SignupForm]'s [handleSubmit]. *)
Definition SignupForm_errors (values : SignupValues) : gmap string string :=
let nextErrors : gmap string string := ∅ in
let nextErrors :=
  if negb (truthy (trim (su_name values))) then
    <["name" := "Name is required."]> nextErrors
  else nextErrors in
let nextErrors :=
  if negb (truthy (trim (su_username values))) then
    <["username" := "Choose a username."]> nextErrors
  else nextErrors in
let nextErrors :=
  if negb (truthy (trim (su_email values))) then
    <["email" := "Email is required."]> nextErrors
  else nextErrors in
let nextErrors :=
  if negb (truthy (trim (su_password values))) then
    <["password" := "Create a password."]> nextErrors
  else nextErrors in
let nextErrors :=
  if negb (String.eqb (su_password values) (su_confirm values)) then
    <["confirm" := "Passwords do not match."]> nextErrors
  else nextErrors in
let nextErrors :=
  if negb (su_agree values) then
    <["agree" := "Agree to Terms & Privacy."]> nextErrors
  else nextErrors in
nextErrors.

End Legacy.

Lemma lookup_insert_if_same (c : bool) (k v : string) (m : gmap string string) :
  (if c then <[k := v]> m else m) !! k = if c then Some v else m !! k.
Proof. destruct c; [by rewrite lookup_insert_eq | reflexivity]. Qed.

Lemma lookup_insert_if2_same (c1 c2 : bool) (k v1 v2 : string)
    (m : gmap string string) :
  (if c1 then <[k := v1]> m else if c2 then <[k := v2]> m else m) !! k
  = if c1 then Some v1 else if c2 then Some v2 else m !! k.
Proof.
  destruct c1; [by rewrite lookup_insert_eq|]. apply lookup_insert_if_same.
Qed.

(** Looks a key up in a map built by the conditional writes of a
    validator. *)
Ltac lookup_errors :=
  repeat first
    [ rewrite lookup_insert_if2_same
    | rewrite lookup_insert_if_same
    | rewrite lookup_insert_if2 by (discriminate || congruence)
    | rewrite lookup_insert_if by (discriminate || congruence)
    | rewrite lookup_empty ].

(** X29.  The validators against those of the first version of the forms.
    Field by field, whatever the first [LoginForm] or [SignupForm]
    reported, [validateLogin] or [validateSignup] reports too, with one
    exception on each form: a password made of white space only was
    refused by the first version and is not refused for being blank by
    the validators.  So but for such passwords no input the first version
    stopped gets through now. *)
Theorem validators_cover_first_version (login : Validation.LoginValues)
    (signup : SignupValues) (field : string) :
  (Legacy.LoginForm_errors login !! field = None
   \/ is_Some (validateLogin login !! field)
   \/ (field = "password"
       /\ Validation.password login <> ""
       /\ trim (Validation.password login) = ""))
  /\ (Legacy.SignupForm_errors signup !! field = None
      \/ is_Some (validateSignup signup !! field)
      \/ (field = "password"
          /\ 8 <= String.length (su_password signup)
          /\ trim (su_password signup) = "")).
Proof.
  split.
  - unfold Legacy.LoginForm_errors, validateLogin. cbv zeta.
    destruct (decide (field = "identifier")) as [->|Hi];
      [|destruct (decide (field = "password")) as [->|Hp]].
    + lookup_errors.
      destruct (truthy (trim (Validation.identifier login))); cbn [negb];
        [by left | right; left; by eexists].
    + lookup_errors.
      destruct (truthy (Validation.password login)) eqn:Hpw; cbn [negb].
      * destruct (truthy (trim (Validation.password login))) eqn:Ht; cbn [negb];
          [by left|].
        right; right. split; [reflexivity|].
        split; [by apply truthy_true_iff | by apply truthy_false_iff].
      * right; left. by eexists.
    + left. by lookup_errors.
  - unfold Legacy.SignupForm_errors, validateSignup. cbv zeta.
    destruct (decide (field = "name")) as [->|Hn];
      [|destruct (decide (field = "username")) as [->|Hu];
        [|destruct (decide (field = "email")) as [->|He];
          [|destruct (decide (field = "password")) as [->|Hp];
            [|destruct (decide (field = "confirm")) as [->|Hc];
              [|destruct (decide (field = "agree")) as [->|Ha]]]]]].
    + lookup_errors.
      destruct (truthy (trim (su_name signup))); cbn [negb];
        [by left | right; left; by eexists].
    + lookup_errors.
      destruct (truthy (trim (su_username signup))); cbn [negb];
        [by left | right; left; by eexists].
    + lookup_errors. rewrite toLowerCase_truthy.
      destruct (truthy (trim (su_email signup))); cbn [negb];
        [by left | right; left; by eexists].
    + lookup_errors.
      destruct (truthy (trim (su_password signup))) eqn:Ht; cbn [negb];
        [by left|].
      destruct (truthy (su_password signup)) eqn:Hpw; cbn [negb];
        [|right; left; by eexists].
      destruct (String.length (su_password signup) <? 8) eqn:Hlen;
        [right; left; by eexists|].
      right; right. apply Nat.ltb_ge in Hlen.
      split; [reflexivity|]. split; [exact Hlen | by apply truthy_false_iff].
    + lookup_errors.
      destruct (String.eqb_spec (su_password signup) (su_confirm signup))
        as [Heq|Hne]; cbn [negb]; [by left|].
      right; left.
      destruct (truthy (su_confirm signup)); cbn [negb]; by eexists.
    + lookup_errors.
      destruct (su_agree signup); cbn [negb];
        [by left | right; left; by eexists].
    + left. by lookup_errors.
Qed.

(** The exception is real: eight blanks pass [validateSignup] as a
    password and did not pass the first form. *)
Example blank_password_gets_through :
  let signup :=
    {| su_name := "Mika Franco"; su_username := "mikefranco";
       su_email := "mika@profilespaces.com";
       su_password := "        "; su_confirm := "        ";
       su_agree := true |} in
  validateSignup signup = ∅
  /\ Legacy.SignupForm_errors signup !! "password" = Some "Create a password.".
Proof. split; reflexivity. Qed.

(* ===================================================================== *)
(** ** Changing the password: [handlePasswordSave]                        *)
(* ===================================================================== *)

Module PasswordChange.

(** The body [{ current, new, confirm }] of the request. *)
Record Body : Type := { b_current : string; b_new : string; b_confirm : string }.

(** [handlePasswordSave] up to its [await]: the errors it sets, and the
    body of the request if it sends one. *)
Definition handlePasswordSave_start (token : string)
    (passwordDraft : PasswordDraft) :
    gmap string string * Account.Step Body :=
let nextErrors := passwordErrorsOf passwordDraft in
if Account.hasKeys nextErrors then (nextErrors, Account.Refused)
else if negb (truthy token) then (nextErrors, Account.Expired)
else
  (nextErrors,
   Account.Asked
     {| b_current := current passwordDraft;
        b_new := next passwordDraft;
        b_confirm := confirm passwordDraft |}).

(** [mappedErrors[key] = text], unless the text is empty: the entry is
    deleted again by the loop that follows. *)
Definition keep (key text : string) (mapped : gmap string string) :
    gmap string string :=
if truthy text then <[key := text]> mapped else mapped.

(** The [catch] block: the value given to [setPasswordErrors]. *)
Definition handlePasswordSave_catch (failure : ApiError) : gmap string string :=
let apiErrors := err_fields failure in
let mappedErrors : gmap string string := ∅ in
let mappedErrors :=
  keep "current" (str_or (assoc "current" apiErrors) "") mappedErrors in
let mappedErrors :=
  keep "next"
    (str_or (assoc "new" apiErrors)
       (str_or (assoc "next" apiErrors)
          (str_or (assoc "password" apiErrors) "")))
    mappedErrors in
let mappedErrors :=
  keep "confirm" (str_or (assoc "confirm" apiErrors) "") mappedErrors in
mappedErrors.

End PasswordChange.

Import PasswordChange.

Lemma keep_invariant (P : string -> string -> Prop) (key text : string)
    (mapped : gmap string string) :
  (text <> "" -> P key text) ->
  (forall k t, mapped !! k = Some t -> P k t) ->
  forall k t, keep key text mapped !! k = Some t -> P k t.
Proof.
  intros Hnew Hold k t. unfold keep. destruct (truthy text) eqn:Ht; [|apply Hold].
  destruct (decide (k = key)) as [->|Hne].
  - rewrite lookup_insert_eq. intros [= <-]. by apply Hnew, truthy_true_iff.
  - rewrite lookup_insert_ne by congruence. apply Hold.
Qed.

(** X30.  Changing the password.  [handlePasswordSave] sends a request
    exactly when there is a token, the current password is not empty, the
    new one has eight characters or more and no line break, and the
    confirmation equals it; the request carries the three as typed, so
    its new password and confirmation are always the same.  After a
    request that failed, every error put on the form has a text and
    stands under one of the three fields of the form. *)
Theorem password_change_request (token : string) (d : PasswordDraft)
    (body : Body) (failure : ApiError) (field : string) :
  (snd (handlePasswordSave_start token d) = Account.Asked body
   <-> token <> ""
       /\ current d <> ""
       /\ 8 <= String.length (next d)
       /\ Forall (fun c => not_line_terminator c = true)
            (list_ascii_of_string (next d))
       /\ confirm d = next d
       /\ body = {| b_current := current d; b_new := next d;
                    b_confirm := next d |})
  /\ match handlePasswordSave_catch failure !! field with
     | Some text =>
         text <> ""
         /\ (field = "current" \/ field = "next" \/ field = "confirm")
     | None => True
     end.
Proof.
  split.
  - assert (Herr : passwordErrorsOf d = ∅
                   <-> current d <> "" /\ 8 <= String.length (next d)
                       /\ Forall (fun c => not_line_terminator c = true)
                            (list_ascii_of_string (next d))
                       /\ confirm d = next d).
    { unfold passwordErrorsOf. cbv zeta.
      rewrite !insert_if2_empty, insert_if_empty, !negb_false_iff.
      rewrite String.eqb_eq, passwordPattern_spec, !truthy_true_iff.
      split.
      - intros (_ & Hk & _ & (Hlen & Hall) & Hc & _). by repeat split.
      - intros (Hc & Hlen & Hall & Hk).
        assert (Hn : next d <> "").
        { intros H. rewrite H in Hlen. simpl in Hlen. lia. }
        repeat split; try assumption. by rewrite Hk. }
    rewrite <- (truthy_true_iff token).
    unfold handlePasswordSave_start, Account.hasKeys. cbv zeta.
    case_bool_decide as Hempty; cbn [negb].
    + apply Herr in Hempty as (Hc & Hlen & Hall & Hk).
      destruct (truthy token); cbn [negb snd].
      * split.
        -- intros [= <-]. rewrite Hk. by repeat split.
        -- intros (_ & _ & _ & _ & _ & ->). by rewrite Hk.
      * split; [discriminate | intros (Hf & _); discriminate].
    + cbn [snd]. split; [discriminate|].
      intros (_ & Hc & Hlen & Hall & Hk & _). exfalso. apply Hempty, Herr.
      by repeat split.
  - destruct (handlePasswordSave_catch failure !! field) as [text|] eqn:Hl;
      [|exact I].
    revert field text Hl. unfold handlePasswordSave_catch. cbv zeta.
    apply keep_invariant; [intros H; split; [exact H | tauto]|].
    apply keep_invariant; [intros H; split; [exact H | tauto]|].
    apply keep_invariant; [intros H; split; [exact H | tauto]|].
    intros k t H. by rewrite lookup_empty in H.
Qed.
